(** * Payroll application: storage, routes and role check

    A shallow embedding of the server side of the payroll application:
    [shared/schema.ts] (tables and insert schemas), [server/storage.ts]
    (class [MemStorage]), [server/routes.ts] (the salary-structure,
    payroll, payroll-item, audit-log and department routes, the two role
    middlewares and the audit helper) and the [/api/check-role] route of
    [server/auth.ts].

    Conventions.
    - A JavaScript [number] holding money is an IEEE binary64 value, the
      primitive [float] of Rocq; [a + b] and [a - b] of the source are
      [PrimFloat.add] and [PrimFloat.sub].
    - Identifiers and time values (milliseconds) are integers in [Z]; a
      route parameter that is no stored id is any [Z] that is no key.
    - A JavaScript [Map<number, V>] iterates in insertion order, so it is
      an association list in insertion order ([JsMap]).
    - A route handler runs in a small monad that threads the server state
      and stops at the first response sent.
    - The routes kept are those of the payroll core: [create] is
      [POST /api/payrolls], [approve] and [markPaid] are the two
      [POST /api/payrolls/:id/...] routes, [addItem] is
      [POST /api/payroll-items], [currentStructure] is
      [getCurrentSalaryStructure] behind
      [GET /api/salary-structures/current/:employeeId], and [supersede]
      is the first step of [POST /api/salary-structures].  The remaining
      routes (departments, designations, employees, documents, dashboard,
      audit log) write none of the maps of salary structures, payrolls
      and payroll items. *)

From Stdlib Require Import ZArith List String Bool Lia Permutation.
From Stdlib Require Import DecimalString.
From Stdlib Require Import Floats.PrimFloat.
Import ListNotations.

Set Warnings "-inexact-float".
Local Open Scope string_scope.
Local Open Scope Z_scope.

(** ** JavaScript values *)

(** The time value of a [Date]: [None] is NaN, the time value of an
    [Invalid Date]. *)
Definition TimeValue := option Z.

(** [new Date(a) <= now] and [new Date(a) >= now]: a comparison with NaN
    is false. *)
Definition date_le_now (a : TimeValue) (now : Z) : bool :=
  match a with Some t => t <=? now | None => false end.

Definition date_ge_now (a : TimeValue) (now : Z) : bool :=
  match a with Some t => now <=? t | None => false end.

(** Template-literal rendering of an integer. *)
Definition string_of_Z (z : Z) : string := NilZero.string_of_int (Z.to_int z).

(** ** [Map<number, V>] in insertion order *)

Module JsMap.

Definition t (V : Type) := list (Z * V).

Definition empty {V} : t V := [].

Fixpoint get {V} (m : t V) (k : Z) : option V :=
  match m with
  | [] => None
  | (k', v) :: m' => if k' =? k then Some v else get m' k
  end.

(** [Map.prototype.set]: an existing key keeps its position, a new key
    goes last. *)
Fixpoint set {V} (m : t V) (k : Z) (v : V) : t V :=
  match m with
  | [] => [(k, v)]
  | (k', v') :: m' =>
      if k' =? k then (k, v) :: m' else (k', v') :: set m' k v
  end.

Definition keys {V} (m : t V) : list Z := map fst m.

(** [Array.from(m.values())] *)
Definition values {V} (m : t V) : list V := map snd m.

End JsMap.

(** ** Enumerations of [shared/schema.ts] *)

Inductive Role := administrator | hr_manager | hr_staff | employee.

Inductive PayrollStatus := draft | approved | paid.

Inductive ItemType := earning | deduction.

Definition Role_name (r : Role) : string :=
  match r with
  | administrator => "administrator"
  | hr_manager => "hr_manager"
  | hr_staff => "hr_staff"
  | employee => "employee"
  end.

Definition Role_eqb (a b : Role) : bool :=
  match a, b with
  | administrator, administrator | hr_manager, hr_manager
  | hr_staff, hr_staff | employee, employee => true
  | _, _ => false
  end.

Definition PayrollStatus_eqb (a b : PayrollStatus) : bool :=
  match a, b with
  | draft, draft | approved, approved | paid, paid => true
  | _, _ => false
  end.

(** [payroll.status === 'draft'] on a nullable column. *)
Definition status_is (s : option PayrollStatus) (v : PayrollStatus) : bool :=
  match s with Some x => PayrollStatus_eqb x v | None => false end.

(** ** Tables of [shared/schema.ts]

    Each table is a record in a module named after its row type.  A
    nullable column, and a column the insert schema leaves optional, is an
    [option]: [MemStorage] stores the parsed body as it is and fills in no
    default.  Only the columns the server reads are kept for [User] and
    [Employee]. *)

Module User.
Record t := mk { id : Z; username : string; role : Role }.
End User.

Module Employee.
Record t := mk {
  id : Z;
  userId : option Z;
  employeeId : string;
}.
End Employee.

Module SalaryStructure.

Record t := mk {
  id : Z;
  employeeId : Z;
  basicSalary : float;
  houseRentAllowance : option float;
  conveyanceAllowance : option float;
  medicalAllowance : option float;
  specialAllowance : option float;
  effectiveFrom : TimeValue;
  effectiveTo : option TimeValue;
  status : option bool;
}.

(** [InsertSalaryStructure]: the row without [id]. *)
Record Insert := mkInsert {
  i_employeeId : Z;
  i_basicSalary : float;
  i_houseRentAllowance : option float;
  i_conveyanceAllowance : option float;
  i_medicalAllowance : option float;
  i_specialAllowance : option float;
  i_effectiveFrom : TimeValue;
  i_effectiveTo : option TimeValue;
  i_status : option bool;
}.

(** [{ ...insertSalaryStructure, id }] *)
Definition of_insert (i : Insert) (new_id : Z) : t :=
  {| id := new_id;
     employeeId := i_employeeId i;
     basicSalary := i_basicSalary i;
     houseRentAllowance := i_houseRentAllowance i;
     conveyanceAllowance := i_conveyanceAllowance i;
     medicalAllowance := i_medicalAllowance i;
     specialAllowance := i_specialAllowance i;
     effectiveFrom := i_effectiveFrom i;
     effectiveTo := i_effectiveTo i;
     status := i_status i |}.

(** [Partial<SalaryStructure>] as the routes build it: a key is present
    ([Some]) or absent ([None]); the schema omits [id]. *)
Record Partial := mkPartial {
  p_employeeId : option Z;
  p_basicSalary : option float;
  p_houseRentAllowance : option (option float);
  p_conveyanceAllowance : option (option float);
  p_medicalAllowance : option (option float);
  p_specialAllowance : option (option float);
  p_effectiveFrom : option TimeValue;
  p_effectiveTo : option (option TimeValue);
  p_status : option bool;
}.

Definition over {A} (new : option A) (old : A) : A :=
  match new with Some v => v | None => old end.

Definition over_opt {A} (new : option A) (old : option A) : option A :=
  match new with Some v => Some v | None => old end.

(** [{ ...salaryStructure, ...salaryStructureData }] *)
Definition merge (s : t) (d : Partial) : t :=
  {| id := id s;
     employeeId := over (p_employeeId d) (employeeId s);
     basicSalary := over (p_basicSalary d) (basicSalary s);
     houseRentAllowance := over (p_houseRentAllowance d) (houseRentAllowance s);
     conveyanceAllowance := over (p_conveyanceAllowance d) (conveyanceAllowance s);
     medicalAllowance := over (p_medicalAllowance d) (medicalAllowance s);
     specialAllowance := over (p_specialAllowance d) (specialAllowance s);
     effectiveFrom := over (p_effectiveFrom d) (effectiveFrom s);
     effectiveTo := over (p_effectiveTo d) (effectiveTo s);
     status := over_opt (p_status d) (status s) |}.

End SalaryStructure.

Module Payroll.

Record t := mk {
  id : Z;
  employeeId : Z;
  payPeriodStart : string;
  payPeriodEnd : string;
  processDate : Z;
  basicSalary : float;
  totalEarnings : float;
  totalDeductions : float;
  netSalary : float;
  status : option PayrollStatus;
  approvedBy : option Z;
  approvalDate : option Z;
}.

(** [InsertPayroll]: the row without [id] and [approvalDate]. *)
Record Insert := mkInsert {
  i_employeeId : Z;
  i_payPeriodStart : string;
  i_payPeriodEnd : string;
  i_processDate : Z;
  i_basicSalary : float;
  i_totalEarnings : float;
  i_totalDeductions : float;
  i_netSalary : float;
  i_status : option PayrollStatus;
  i_approvedBy : option Z;
}.

(** [{ ...insertPayroll, id }] *)
Definition of_insert (i : Insert) (new_id : Z) : t :=
  {| id := new_id;
     employeeId := i_employeeId i;
     payPeriodStart := i_payPeriodStart i;
     payPeriodEnd := i_payPeriodEnd i;
     processDate := i_processDate i;
     basicSalary := i_basicSalary i;
     totalEarnings := i_totalEarnings i;
     totalDeductions := i_totalDeductions i;
     netSalary := i_netSalary i;
     status := i_status i;
     approvedBy := i_approvedBy i;
     approvalDate := None |}.

(** [Partial<Payroll>] with the keys the routes pass to
    [updatePayroll]. *)
Record Partial := mkPartial {
  p_totalEarnings : option float;
  p_totalDeductions : option float;
  p_netSalary : option float;
  p_status : option PayrollStatus;
  p_approvedBy : option Z;
  p_approvalDate : option Z;
}.

Definition over {A} (new : option A) (old : A) : A :=
  match new with Some v => v | None => old end.

Definition over_opt {A} (new : option A) (old : option A) : option A :=
  match new with Some v => Some v | None => old end.

(** [{ ...payroll, ...payrollData }] *)
Definition merge (p : t) (d : Partial) : t :=
  {| id := id p;
     employeeId := employeeId p;
     payPeriodStart := payPeriodStart p;
     payPeriodEnd := payPeriodEnd p;
     processDate := processDate p;
     basicSalary := basicSalary p;
     totalEarnings := over (p_totalEarnings d) (totalEarnings p);
     totalDeductions := over (p_totalDeductions d) (totalDeductions p);
     netSalary := over (p_netSalary d) (netSalary p);
     status := over_opt (p_status d) (status p);
     approvedBy := over_opt (p_approvedBy d) (approvedBy p);
     approvalDate := over_opt (p_approvalDate d) (approvalDate p) |}.

End Payroll.

Module PayrollItem.

Record Insert := mkInsert {
  i_payrollId : Z;
  i_itemType : ItemType;
  i_itemName : string;
  i_amount : float;
  i_description : option string;
}.

Record t := mk {
  id : Z;
  payrollId : Z;
  itemType : ItemType;
  itemName : string;
  amount : float;
  description : option string;
}.

(** [{ ...insertPayrollItem, id }] *)
Definition of_insert (i : Insert) (new_id : Z) : t :=
  {| id := new_id;
     payrollId := i_payrollId i;
     itemType := i_itemType i;
     itemName := i_itemName i;
     amount := i_amount i;
     description := i_description i |}.

End PayrollItem.

Module AuditLog.

Record Insert := mkInsert {
  i_userId : Z;
  i_action : string;
  i_entityType : string;
  i_entityId : Z;
  i_details : string;
}.

Record t := mk {
  id : Z;
  userId : Z;
  action : string;
  entityType : string;
  entityId : Z;
  details : string;
  timestamp : Z;
}.

End AuditLog.

(** ** Insert schemas ([createInsertSchema(table).omit(...)])

    A request body is a JSON object: every key may be missing.
    [createInsertSchema] of drizzle-zod derives the schema from the column
    declarations alone: it requires the [notNull] columns that have no
    default, leaves the others optional, and checks types, not values
    (the tables declare no bound on [amount] and no minimum length for
    [item_name]).  [parse] throws a [ZodError] ([None] here) when a required key is
    missing or ill-typed.  A money field is kept as the number that
    [Number(...)] makes of it, which is all the server does with it; a
    date field is kept as the time value of [new Date(...)].

    A [timestamp] column is the exception among the types: its schema is
    [z.date()], which takes a [Date] instance and nothing else, and a
    body parsed from JSON holds none. *)

Module Body.

Record SalaryStructure := mkSalaryStructure {
  ss_employeeId : option Z;
  ss_basicSalary : option float;
  ss_houseRentAllowance : option float;
  ss_conveyanceAllowance : option float;
  ss_medicalAllowance : option float;
  ss_specialAllowance : option float;
  ss_effectiveFrom : option TimeValue;
  ss_effectiveTo : option TimeValue;
  ss_status : option bool;
}.

Record Payroll := mkPayroll {
  p_employeeId : option Z;
  p_payPeriodStart : option string;
  p_payPeriodEnd : option string;
  p_processDate : option Z;
  p_basicSalary : option float;
  p_totalEarnings : option float;
  p_totalDeductions : option float;
  p_netSalary : option float;
  p_status : option PayrollStatus;
  p_approvedBy : option Z;
}.

Record PayrollItem := mkPayrollItem {
  pi_payrollId : option Z;
  pi_itemType : option ItemType;
  pi_itemName : option string;
  pi_amount : option float;
  pi_description : option string;
}.

End Body.

Definition insertSalaryStructureSchema_parse (b : Body.SalaryStructure)
  : option SalaryStructure.Insert :=
  match Body.ss_employeeId b, Body.ss_basicSalary b, Body.ss_effectiveFrom b with
  | Some e, Some basic, Some from =>
      Some (SalaryStructure.mkInsert e basic
              (Body.ss_houseRentAllowance b) (Body.ss_conveyanceAllowance b)
              (Body.ss_medicalAllowance b) (Body.ss_specialAllowance b)
              from (Body.ss_effectiveTo b) (Body.ss_status b))
  | _, _, _ => None
  end.

(** [z.date()] on a key of a JSON body: the key is required, and what a
    JSON body holds under it (a number, or a string that names a time) is
    not a [Date] instance, so the check fails either way. *)
Definition zod_date (v : option Z) : option Z :=
  match v with
  | Some _ => None
  | None => None
  end.

(** [insertPayrollSchema] omits [id] and [approvalDate] only:
    [processDate], a [timestamp] column without default, stays
    required. *)
Definition insertPayrollSchema_parse (b : Body.Payroll)
  : option Payroll.Insert :=
  match Body.p_employeeId b, Body.p_payPeriodStart b, Body.p_payPeriodEnd b,
        zod_date (Body.p_processDate b) with
  | Some e, Some ps, Some pe, Some pd =>
      match Body.p_basicSalary b, Body.p_totalEarnings b,
            Body.p_totalDeductions b, Body.p_netSalary b with
      | Some basic, Some te, Some td, Some net =>
          Some (Payroll.mkInsert e ps pe pd basic te td net
                  (Body.p_status b) (Body.p_approvedBy b))
      | _, _, _, _ => None
      end
  | _, _, _, _ => None
  end.

Definition insertPayrollItemSchema_parse (b : Body.PayrollItem)
  : option PayrollItem.Insert :=
  match Body.pi_payrollId b, Body.pi_itemType b, Body.pi_itemName b,
        Body.pi_amount b with
  | Some pid, Some ty, Some name, Some amt =>
      Some (PayrollItem.mkInsert pid ty name amt (Body.pi_description b))
  | _, _, _, _ => None
  end.

(** ** [Array.prototype.sort]

    The sort is stable (ECMAScript 2019): elements the comparator calls
    equal keep their order.  A stable insertion sort computes the same
    array for a consistent comparator.  [compareFn a b <= 0] keeps [a] before [b]. *)

Section Sort.

Context {A : Type} (compareFn : A -> A -> Z).

Fixpoint sort_insert (x : A) (l : list A) : list A :=
  match l with
  | [] => [x]
  | y :: l' =>
      if compareFn x y <=? 0 then x :: y :: l' else y :: sort_insert x l'
  end.

Definition js_sort (l : list A) : list A := fold_right sort_insert [] l.

End Sort.

(** ** [class MemStorage] *)

Module MemStorage.

Record t := mk {
  employees : JsMap.t Employee.t;
  salaryStructures : JsMap.t SalaryStructure.t;
  payrolls : JsMap.t Payroll.t;
  payrollItems : JsMap.t PayrollItem.t;
  auditLogs : JsMap.t AuditLog.t;
  salaryStructureCurrentId : Z;
  payrollCurrentId : Z;
  payrollItemCurrentId : Z;
  auditLogCurrentId : Z;
}.

(** The constructor, for the maps kept here. *)
Definition initial : t :=
  mk JsMap.empty JsMap.empty JsMap.empty JsMap.empty JsMap.empty 1 1 1 1.

Definition getEmployee (st : t) (id : Z) : option Employee.t :=
  JsMap.get (employees st) id.

(** *** Salary structures *)

Definition getSalaryStructure (st : t) (id : Z) : option SalaryStructure.t :=
  JsMap.get (salaryStructures st) id.

(** The filter of [getCurrentSalaryStructure]. *)
Definition isCurrent (employeeId now : Z) (s : SalaryStructure.t) : bool :=
  (SalaryStructure.employeeId s =? employeeId)
  && match SalaryStructure.status s with Some true => true | _ => false end
  && date_le_now (SalaryStructure.effectiveFrom s) now
  && match SalaryStructure.effectiveTo s with
     | None => true
     | Some t => date_ge_now t now
     end.

(** [dateB.getTime() - dateA.getTime()]; a NaN result counts as [+0]. *)
Definition byEffectiveFromDesc (a b : SalaryStructure.t) : Z :=
  match SalaryStructure.effectiveFrom a, SalaryStructure.effectiveFrom b with
  | Some ta, Some tb => tb - ta
  | _, _ => 0
  end.

Definition getCurrentSalaryStructure (st : t) (employeeId now : Z)
  : option SalaryStructure.t :=
  hd_error
    (js_sort byEffectiveFromDesc
       (filter (isCurrent employeeId now) (JsMap.values (salaryStructures st)))).

Definition createSalaryStructure (st : t) (i : SalaryStructure.Insert)
  : t * SalaryStructure.t :=
  let id := salaryStructureCurrentId st in
  let s := SalaryStructure.of_insert i id in
  (mk (employees st) (JsMap.set (salaryStructures st) id s) (payrolls st)
      (payrollItems st) (auditLogs st)
      (id + 1) (payrollCurrentId st) (payrollItemCurrentId st)
      (auditLogCurrentId st),
   s).

Definition updateSalaryStructure (st : t) (id : Z) (d : SalaryStructure.Partial)
  : t * option SalaryStructure.t :=
  match getSalaryStructure st id with
  | None => (st, None)
  | Some s =>
      let s' := SalaryStructure.merge s d in
      (mk (employees st) (JsMap.set (salaryStructures st) id s') (payrolls st)
          (payrollItems st) (auditLogs st)
          (salaryStructureCurrentId st) (payrollCurrentId st)
          (payrollItemCurrentId st) (auditLogCurrentId st),
       Some s')
  end.

(** *** Payrolls *)

Definition getPayroll (st : t) (id : Z) : option Payroll.t :=
  JsMap.get (payrolls st) id.

Definition createPayroll (st : t) (i : Payroll.Insert) : t * Payroll.t :=
  let id := payrollCurrentId st in
  let p := Payroll.of_insert i id in
  (mk (employees st) (salaryStructures st) (JsMap.set (payrolls st) id p)
      (payrollItems st) (auditLogs st)
      (salaryStructureCurrentId st) (id + 1) (payrollItemCurrentId st)
      (auditLogCurrentId st),
   p).

Definition updatePayroll (st : t) (id : Z) (d : Payroll.Partial)
  : t * option Payroll.t :=
  match getPayroll st id with
  | None => (st, None)
  | Some p =>
      let p' := Payroll.merge p d in
      (mk (employees st) (salaryStructures st) (JsMap.set (payrolls st) id p')
          (payrollItems st) (auditLogs st)
          (salaryStructureCurrentId st) (payrollCurrentId st)
          (payrollItemCurrentId st) (auditLogCurrentId st),
       Some p')
  end.

(** *** Payroll items *)

Definition createPayrollItem (st : t) (i : PayrollItem.Insert)
  : t * PayrollItem.t :=
  let id := payrollItemCurrentId st in
  let it := PayrollItem.of_insert i id in
  (mk (employees st) (salaryStructures st) (payrolls st)
      (JsMap.set (payrollItems st) id it) (auditLogs st)
      (salaryStructureCurrentId st) (payrollCurrentId st) (id + 1)
      (auditLogCurrentId st),
   it).

Definition getPayrollItemsByPayroll (st : t) (payrollId : Z)
  : list PayrollItem.t :=
  filter (fun it => PayrollItem.payrollId it =? payrollId)
         (JsMap.values (payrollItems st)).

(** *** Audit log *)

Definition createAuditLog (st : t) (i : AuditLog.Insert) (now : Z)
  : t * AuditLog.t :=
  let id := auditLogCurrentId st in
  let a := AuditLog.mk id (AuditLog.i_userId i) (AuditLog.i_action i)
             (AuditLog.i_entityType i) (AuditLog.i_entityId i)
             (AuditLog.i_details i) now in
  (mk (employees st) (salaryStructures st) (payrolls st) (payrollItems st)
      (JsMap.set (auditLogs st) id a)
      (salaryStructureCurrentId st) (payrollCurrentId st)
      (payrollItemCurrentId st) (id + 1),
   a).

End MemStorage.

(** ** The server: responses and route handlers *)

Inductive Json :=
| JNone
| JMessage (message : string)
| JZodErrors
| JHasAccess (hasAccess : bool)
| JSalaryStructure (s : option SalaryStructure.t)
| JPayroll (p : option Payroll.t)
| JPayrollWithItems (p : Payroll.t) (items : list PayrollItem.t)
| JPayrollItem (i : PayrollItem.t).

Record Response := Resp { code : Z; json : Json }.

(** The server state: the [storage] singleton and what was written with
    [console.error]. *)
Record Server := mkServer { storage : MemStorage.t; console : list string }.

(** What a request observes of the outside: the clock, and whether the
    storage behind [IStorage.createAuditLog] accepts the write.
    [MemStorage.createAuditLog] itself never rejects; [auditAvailable =
    false] stands for a storage whose promise rejects. *)
Record Env := mkEnv { now : Z; auditAvailable : bool }.

(** A handler either sends a response ([inl], the [return res...] of the
    source) or goes on with a value ([inr]). *)
Definition Handler (A : Type) := Server -> Server * (Response + A).

Definition ret {A} (a : A) : Handler A := fun sv => (sv, inr a).

Definition bind {A B} (h : Handler A) (k : A -> Handler B) : Handler B :=
  fun sv =>
    match h sv with
    | (sv', inl r) => (sv', inl r)
    | (sv', inr a) => k a sv'
    end.

Definition send {A} (r : Response) : Handler A := fun sv => (sv, inl r).

Declare Scope handler_scope.
Delimit Scope handler_scope with handler.
Notation "x <- h ;; k" := (bind h (fun x => k))
  (at level 61, h at next level, right associativity) : handler_scope.
Notation "h ;; k" := (bind h (fun _ => k))
  (at level 61, right associativity) : handler_scope.
Local Open Scope handler_scope.

(** A read of the storage, and a storage method that writes. *)
Definition reads {A} (f : MemStorage.t -> A) : Handler A :=
  fun sv => (sv, inr (f (storage sv))).

Definition writes {A} (f : MemStorage.t -> MemStorage.t * A) : Handler A :=
  fun sv =>
    let (st', a) := f (storage sv) in (mkServer st' (console sv), inr a).

Definition console_error (line : string) : Handler unit :=
  fun sv => (mkServer (storage sv) (console sv ++ [line]), inr tt).

(** The response of a route: the one sent, or the one it ends with. *)
Definition respond (h : Handler Response) (sv : Server) : Server * Response :=
  match h sv with
  | (sv', inl r) => (sv', r)
  | (sv', inr r) => (sv', r)
  end.

(** *** Middleware and the audit helper of [routes.ts] *)

Definition checkAdminOrHRManager (user : option User.t) : Handler User.t :=
  match user with
  | None => send (Resp 401 (JMessage "Unauthorized"))
  | Some u =>
      match User.role u with
      | administrator | hr_manager => ret u
      | _ =>
          send (Resp 403
                  (JMessage "Forbidden: Requires administrator or HR manager role"))
      end
  end.

(** [storage.createAuditLog] behind the [IStorage] interface: [None] is a
    rejected promise. *)
Definition storage_createAuditLog (env : Env) (i : AuditLog.Insert)
  : Handler (option AuditLog.t) :=
  if auditAvailable env
  then (a <- writes (fun st => MemStorage.createAuditLog st i (now env)) ;;
        ret (Some a))
  else ret None.

(** [const createAuditLog = async (...) => { try {...} catch (error)
    { console.error(...) } }] *)
Definition createAuditLog (env : Env) (userId : Z) (action entityType : string)
    (entityId : Z) (details : string) : Handler unit :=
  r <- storage_createAuditLog env
         (AuditLog.mkInsert userId action entityType entityId details) ;;
  match r with
  | Some _ => ret tt
  | None => console_error "Failed to create audit log:"
  end.

(** *** [GET /api/check-role] of [auth.ts]

    [roleHierarchy] is an object literal, so [roleHierarchy[key]] finds
    the four own keys and then the properties every object inherits from
    [Object.prototype]. *)

Inductive JsValue :=
| JsUndefined
| JsNumber (n : Z)
| JsFunction
| JsObject.

Definition roleHierarchy : list (string * Z) :=
  [("administrator", 4); ("hr_manager", 3); ("hr_staff", 2); ("employee", 1)].

Definition Object_prototype : list (string * JsValue) :=
  [("constructor", JsFunction); ("hasOwnProperty", JsFunction);
   ("isPrototypeOf", JsFunction); ("propertyIsEnumerable", JsFunction);
   ("toLocaleString", JsFunction); ("toString", JsFunction);
   ("valueOf", JsFunction); ("__defineGetter__", JsFunction);
   ("__defineSetter__", JsFunction); ("__lookupGetter__", JsFunction);
   ("__lookupSetter__", JsFunction); ("__proto__", JsObject)].

Fixpoint assoc {V} (l : list (string * V)) (key : string) : option V :=
  match l with
  | [] => None
  | (k, v) :: l' => if String.eqb k key then Some v else assoc l' key
  end.

(** [roleHierarchy[key]] *)
Definition roleHierarchy_get (key : string) : JsValue :=
  match assoc roleHierarchy key with
  | Some n => JsNumber n
  | None =>
      match assoc Object_prototype key with
      | Some v => v
      | None => JsUndefined
      end
  end.

(** [!v] is [negb (truthy v)]. *)
Definition truthy (v : JsValue) : bool :=
  match v with
  | JsUndefined => false
  | JsNumber n => negb (n =? 0)
  | JsFunction | JsObject => true
  end.

(** [a >= b] with a number on the left: the right operand is converted
    to a number, and [undefined], a function and a plain object all
    convert to NaN, which compares false. *)
Definition js_ge (a b : JsValue) : bool :=
  match a, b with
  | JsNumber x, JsNumber y => y <=? x
  | _, _ => false
  end.

(** [req.query.role as string], used as a property key: a missing
    parameter is the key ["undefined"]. *)
Definition property_key (q : option string) : string :=
  match q with Some s => s | None => "undefined" end.

Definition check_role (user : option User.t) (role : option string) : Response :=
  match user with
  | None => Resp 401 JNone
  | Some u =>
      let userRoleLevel := roleHierarchy_get (Role_name (User.role u)) in
      let requiredRoleLevel := roleHierarchy_get (property_key role) in
      if negb (truthy requiredRoleLevel)
      then Resp 400 (JMessage "Invalid role")
      else Resp 200 (JHasAccess (js_ge userRoleLevel requiredRoleLevel))
  end.

(** *** Salary-structure routes *)

(** [req.user.role === 'employee' && req.user.id !== employee.userId];
    without a session [req.user] is undefined and the property read
    throws, which the route's [catch] turns into a 500. *)
Definition employeeRoleGuard (user : option User.t) (owner : option Z)
  : Handler unit :=
  match user with
  | None =>
      send (Resp 500
              (JMessage "Cannot read properties of undefined (reading 'role')"))
  | Some u =>
      if Role_eqb (User.role u) employee
         && negb (match owner with Some o => User.id u =? o | None => false end)
      then send (Resp 403 (JMessage "Access denied"))
      else ret tt
  end.

(** [GET /api/salary-structures/current/:employeeId] *)
Definition getCurrentSalaryRoute (env : Env) (user : option User.t)
    (employeeId : Z) : Handler Response :=
  oe <- reads (fun st => MemStorage.getEmployee st employeeId) ;;
  match oe with
  | None => send (Resp 404 (JMessage "Employee not found"))
  | Some emp =>
      employeeRoleGuard user (Employee.userId emp) ;;
      os <- reads (fun st =>
                     MemStorage.getCurrentSalaryStructure st employeeId (now env)) ;;
      match os with
      | None => send (Resp 404 (JMessage "Salary structure not found"))
      | Some s => ret (Resp 200 (JSalaryStructure (Some s)))
      end
  end.

(** The supersede step of [POST /api/salary-structures]:
    [if (salaryData.status) { ... }]. *)
Definition retirePrevious (env : Env) (salaryData : SalaryStructure.Insert)
  : Handler unit :=
  match SalaryStructure.i_status salaryData with
  | Some true =>
      oc <- reads (fun st =>
                     MemStorage.getCurrentSalaryStructure st
                       (SalaryStructure.i_employeeId salaryData) (now env)) ;;
      match oc with
      | Some currentSalary =>
          writes (fun st =>
                    MemStorage.updateSalaryStructure st
                      (SalaryStructure.id currentSalary)
                      (SalaryStructure.mkPartial None None None None None None None
                         (Some (Some (SalaryStructure.i_effectiveFrom salaryData)))
                         (Some false))) ;;
          ret tt
      | None => ret tt
      end
  | _ => ret tt
  end.

(** [POST /api/salary-structures] *)
Definition postSalaryStructure (env : Env) (user : option User.t)
    (body : Body.SalaryStructure) : Handler Response :=
  u <- checkAdminOrHRManager user ;;
  match insertSalaryStructureSchema_parse body with
  | None => send (Resp 400 JZodErrors)
  | Some salaryData =>
      oe <- reads (fun st =>
                     MemStorage.getEmployee st
                       (SalaryStructure.i_employeeId salaryData)) ;;
      match oe with
      | None => send (Resp 404 (JMessage "Employee not found"))
      | Some emp =>
          retirePrevious env salaryData ;;
          s <- writes (fun st => MemStorage.createSalaryStructure st salaryData) ;;
          createAuditLog env (User.id u) "create" "salary" (SalaryStructure.id s)
            ("Salary structure created for employee ID " ++ Employee.employeeId emp) ;;
          ret (Resp 201 (JSalaryStructure (Some s)))
      end
  end.

(** [PUT /api/salary-structures/:id]; [body = None] is a body the partial
    schema rejects. *)
Definition putSalaryStructure (env : Env) (user : option User.t) (id : Z)
    (body : option SalaryStructure.Partial) : Handler Response :=
  u <- checkAdminOrHRManager user ;;
  match body with
  | None => send (Resp 400 JZodErrors)
  | Some salaryData =>
      os <- reads (fun st => MemStorage.getSalaryStructure st id) ;;
      match os with
      | None => send (Resp 404 (JMessage "Salary structure not found"))
      | Some s =>
          updated <- writes (fun st =>
                               MemStorage.updateSalaryStructure st id salaryData) ;;
          createAuditLog env (User.id u) "update" "salary" id
            ("Salary structure updated for employee ID "
             ++ string_of_Z (SalaryStructure.employeeId s)) ;;
          ret (Resp 200 (JSalaryStructure updated))
      end
  end.

(** *** Payroll routes *)

(** [GET /api/payrolls/:id] *)
Definition getPayrollRoute (user : option User.t) (id : Z) : Handler Response :=
  op <- reads (fun st => MemStorage.getPayroll st id) ;;
  match op with
  | None => send (Resp 404 (JMessage "Payroll not found"))
  | Some p =>
      oe <- reads (fun st => MemStorage.getEmployee st (Payroll.employeeId p)) ;;
      match user, oe with
      | None, _ =>
          send (Resp 500
                  (JMessage "Cannot read properties of undefined (reading 'role')"))
      | Some _, None => ret tt
      | Some _, Some emp => employeeRoleGuard user (Employee.userId emp)
      end ;;
      items <- reads (fun st => MemStorage.getPayrollItemsByPayroll st id) ;;
      ret (Resp 200 (JPayrollWithItems p items))
  end.

(** [{ ...payrollData, processDate }] *)
Definition withProcessDate (d : Payroll.Insert) (processDate : Z) : Payroll.Insert :=
  Payroll.mkInsert (Payroll.i_employeeId d) (Payroll.i_payPeriodStart d)
    (Payroll.i_payPeriodEnd d) processDate (Payroll.i_basicSalary d)
    (Payroll.i_totalEarnings d) (Payroll.i_totalDeductions d)
    (Payroll.i_netSalary d) (Payroll.i_status d) (Payroll.i_approvedBy d).

(** [POST /api/payrolls] *)
Definition postPayroll (env : Env) (user : option User.t) (body : Body.Payroll)
  : Handler Response :=
  u <- checkAdminOrHRManager user ;;
  match insertPayrollSchema_parse body with
  | None => send (Resp 400 JZodErrors)
  | Some payrollData =>
      oe <- reads (fun st =>
                     MemStorage.getEmployee st (Payroll.i_employeeId payrollData)) ;;
      match oe with
      | None => send (Resp 404 (JMessage "Employee not found"))
      | Some emp =>
          p <- writes (fun st =>
                         MemStorage.createPayroll st
                           (withProcessDate payrollData (now env))) ;;
          createAuditLog env (User.id u) "create" "payroll" (Payroll.id p)
            ("Payroll created for employee ID " ++ Employee.employeeId emp) ;;
          ret (Resp 201 (JPayroll (Some p)))
      end
  end.

(** [POST /api/payrolls/:id/approve] *)
Definition approve (env : Env) (user : option User.t) (id : Z) : Handler Response :=
  u <- checkAdminOrHRManager user ;;
  op <- reads (fun st => MemStorage.getPayroll st id) ;;
  match op with
  | None => send (Resp 404 (JMessage "Payroll not found"))
  | Some p =>
      if negb (status_is (Payroll.status p) draft)
      then send (Resp 400 (JMessage "Payroll is already approved or paid"))
      else
        updated <- writes (fun st =>
                             MemStorage.updatePayroll st id
                               (Payroll.mkPartial None None None (Some approved)
                                  (Some (User.id u)) (Some (now env)))) ;;
        createAuditLog env (User.id u) "approve" "payroll" id
          ("Payroll approved for employee ID "
           ++ string_of_Z (Payroll.employeeId p)) ;;
        ret (Resp 200 (JPayroll updated))
  end.

(** [POST /api/payrolls/:id/mark-paid] *)
Definition markPaid (env : Env) (user : option User.t) (id : Z) : Handler Response :=
  u <- checkAdminOrHRManager user ;;
  op <- reads (fun st => MemStorage.getPayroll st id) ;;
  match op with
  | None => send (Resp 404 (JMessage "Payroll not found"))
  | Some p =>
      if negb (status_is (Payroll.status p) approved)
      then send (Resp 400
                   (JMessage "Payroll must be approved before marking as paid"))
      else
        updated <- writes (fun st =>
                             MemStorage.updatePayroll st id
                               (Payroll.mkPartial None None None (Some paid)
                                  None None)) ;;
        createAuditLog env (User.id u) "paid" "payroll" id
          ("Payroll marked as paid for employee ID "
           ++ string_of_Z (Payroll.employeeId p)) ;;
        ret (Resp 200 (JPayroll updated))
  end.

(** *** Payroll items *)

(** The [forEach] of [POST /api/payroll-items]: both sums start at [0]
    and grow in the order of [allItems]. *)
Definition sumItems (allItems : list PayrollItem.t) : float * float :=
  fold_left
    (fun (acc : float * float) item =>
       let (totalEarnings, totalDeductions) := acc in
       match PayrollItem.itemType item with
       | earning => (PrimFloat.add totalEarnings (PayrollItem.amount item),
                     totalDeductions)
       | deduction => (totalEarnings,
                       PrimFloat.add totalDeductions (PayrollItem.amount item))
       end)
    allItems (0%float, 0%float).

(** [POST /api/payroll-items] *)
Definition addItem (user : option User.t) (body : Body.PayrollItem)
  : Handler Response :=
  u <- checkAdminOrHRManager user ;;
  match insertPayrollItemSchema_parse body with
  | None => send (Resp 400 JZodErrors)
  | Some payrollItemData =>
      op <- reads (fun st =>
                     MemStorage.getPayroll st
                       (PayrollItem.i_payrollId payrollItemData)) ;;
      match op with
      | None => send (Resp 404 (JMessage "Payroll not found"))
      | Some p =>
          if negb (status_is (Payroll.status p) draft)
          then send (Resp 400
                       (JMessage "Cannot modify items for approved or paid payroll"))
          else
            payrollItem <- writes (fun st =>
                                     MemStorage.createPayrollItem st payrollItemData) ;;
            allItems <- reads (fun st =>
                                 MemStorage.getPayrollItemsByPayroll st (Payroll.id p)) ;;
            let (totalEarnings, totalDeductions) := sumItems allItems in
            let netSalary :=
              PrimFloat.sub (PrimFloat.add (Payroll.basicSalary p) totalEarnings)
                            totalDeductions in
            writes (fun st =>
                      MemStorage.updatePayroll st (Payroll.id p)
                        (Payroll.mkPartial (Some totalEarnings) (Some totalDeductions)
                           (Some netSalary) None None None)) ;;
            ret (Resp 201 (JPayrollItem payrollItem))
      end
  end.

(** ** Requests *)

Inductive Route :=
| GetCheckRole (role : option string)
| GetCurrentSalaryStructure (employeeId : Z)
| PostSalaryStructure (body : Body.SalaryStructure)
| PutSalaryStructure (id : Z) (body : option SalaryStructure.Partial)
| GetPayroll (id : Z)
| PostPayroll (body : Body.Payroll)
| PostApprove (id : Z)
| PostMarkPaid (id : Z)
| PostPayrollItem (body : Body.PayrollItem).

Record Request := mkRequest {
  req_env : Env;
  req_user : option User.t;
  req_route : Route;
}.

Definition handle (r : Request) (sv : Server) : Server * Response :=
  let env := req_env r in
  let user := req_user r in
  match req_route r with
  | GetCheckRole role => (sv, check_role user role)
  | GetCurrentSalaryStructure e => respond (getCurrentSalaryRoute env user e) sv
  | PostSalaryStructure b => respond (postSalaryStructure env user b) sv
  | PutSalaryStructure id b => respond (putSalaryStructure env user id b) sv
  | GetPayroll id => respond (getPayrollRoute user id) sv
  | PostPayroll b => respond (postPayroll env user b) sv
  | PostApprove id => respond (approve env user id) sv
  | PostMarkPaid id => respond (markPaid env user id) sv
  | PostPayrollItem b => respond (addItem user b) sv
  end.

(** The server after a sequence of requests, served one at a time. *)
Definition serve (rs : list Request) (sv : Server) : Server :=
  fold_left (fun s r => fst (handle r s)) rs sv.

(** * Vocabulary of the statements *)

(** The role test of [checkAdminOrHRManager]. *)
Definition isAdminOrHRManager (u : User.t) : Prop :=
  User.role u = administrator \/ User.role u = hr_manager.

(** The outcome of the role middleware. *)
Definition roleCheck (user : option User.t) : Response + User.t :=
  match user with
  | None => inl (Resp 401 (JMessage "Unauthorized"))
  | Some u =>
      match User.role u with
      | administrator | hr_manager => inr u
      | _ => inl (Resp 403
                    (JMessage "Forbidden: Requires administrator or HR manager role"))
      end
  end.

(** The server the audit helper leaves behind: the entry is recorded, or
    the failure is written to the console. *)
Definition afterAudit (env : Env) (i : AuditLog.Insert) (sv : Server) : Server :=
  if auditAvailable env
  then mkServer (fst (MemStorage.createAuditLog (storage sv) i (now env))) (console sv)
  else mkServer (storage sv) (console sv ++ ["Failed to create audit log:"]).

(** The updates [approve] and [markPaid] pass to [updatePayroll]. *)
Definition approveData (env : Env) (u : User.t) : Payroll.Partial :=
  Payroll.mkPartial None None None (Some approved) (Some (User.id u)) (Some (now env)).

Definition paidData : Payroll.Partial :=
  Payroll.mkPartial None None None (Some paid) None None.

(** What the storage holds apart from the audit log. *)
Definition primary (st : MemStorage.t) :=
  (MemStorage.employees st, MemStorage.salaryStructures st,
   MemStorage.payrolls st, MemStorage.payrollItems st,
   (MemStorage.salaryStructureCurrentId st, MemStorage.payrollCurrentId st,
    MemStorage.payrollItemCurrentId st)).

(** *** Well-formed storage

    What the constructor establishes and every method keeps: the keys of a
    map grow along its insertion order and stay below the counter that
    hands out the next one, a row is stored under its own [id], and a
    payroll item belongs to a stored payroll. *)

Fixpoint ascending_below (ks : list Z) (next : Z) : bool :=
  match ks with
  | [] => true
  | k :: ks' =>
      (k <? next) && forallb (fun k' => k <? k') ks' && ascending_below ks' next
  end.

Definition wf (st : MemStorage.t) : bool :=
  ascending_below (JsMap.keys (MemStorage.payrolls st)) (MemStorage.payrollCurrentId st)
  && forallb (fun e => Payroll.id (snd e) =? fst e) (MemStorage.payrolls st)
  && ascending_below (JsMap.keys (MemStorage.payrollItems st))
       (MemStorage.payrollItemCurrentId st)
  && forallb (fun e =>
                existsb (Z.eqb (PayrollItem.payrollId (snd e)))
                  (JsMap.keys (MemStorage.payrolls st)))
       (MemStorage.payrollItems st)
  && ascending_below (JsMap.keys (MemStorage.salaryStructures st))
       (MemStorage.salaryStructureCurrentId st)
  && forallb (fun e => SalaryStructure.id (snd e) =? fst e)
       (MemStorage.salaryStructures st).

(** *** The payroll status machine *)

(** One step along draft, approved, paid, or no move. *)
Definition status_step (a b : option PayrollStatus) : Prop :=
  a = b
  \/ (a = Some draft /\ b = Some approved)
  \/ (a = Some approved /\ b = Some paid).

Definition status_rank (s : PayrollStatus) : Z :=
  match s with draft => 1 | approved => 2 | paid => 3 end.

(** [b] is [a] or a later state. *)
Definition status_forward (a b : option PayrollStatus) : Prop :=
  a = b
  \/ exists x y, a = Some x /\ b = Some y /\ status_rank x < status_rank y.

(** The update [POST /api/payroll-items] passes to [updatePayroll]. *)
Definition totalsData (p : Payroll.t) (allItems : list PayrollItem.t)
  : Payroll.Partial :=
  let (totalEarnings, totalDeductions) := sumItems allItems in
  Payroll.mkPartial (Some totalEarnings) (Some totalDeductions)
    (Some (PrimFloat.sub (PrimFloat.add (Payroll.basicSalary p) totalEarnings)
                         totalDeductions))
    None None None.

(** The update [POST /api/salary-structures] passes to
    [updateSalaryStructure] for the structure it retires. *)
Definition retireData (salaryData : SalaryStructure.Insert)
  : SalaryStructure.Partial :=
  SalaryStructure.mkPartial None None None None None None None
    (Some (Some (SalaryStructure.i_effectiveFrom salaryData)))
    (Some false).

(** The storage after the supersede step. *)
Definition afterRetire (env : Env) (salaryData : SalaryStructure.Insert)
    (st : MemStorage.t) : MemStorage.t :=
  match SalaryStructure.i_status salaryData with
  | Some true =>
      match MemStorage.getCurrentSalaryStructure st
              (SalaryStructure.i_employeeId salaryData) (now env) with
      | Some currentSalary =>
          fst (MemStorage.updateSalaryStructure st
                 (SalaryStructure.id currentSalary) (retireData salaryData))
      | None => st
      end
  | _ => st
  end.

(** *** Sample data *)

Definition sample_admin : User.t := User.mk 1 "admin" administrator.

Definition sample_env : Env := mkEnv 1706745600000 true.

Definition sample_employee : Employee.t := Employee.mk 1 (Some 7) "EMP00000001".

Definition sample_payroll : Payroll.t :=
  Payroll.mk 1 1 "2024-01-01" "2024-01-31" 1706745600000
    5000%float 0%float 0%float 5000%float (Some draft) None None.

(** One employee and one draft payroll with no items. *)
Definition sample_storage : MemStorage.t :=
  MemStorage.mk [(1, sample_employee)] [] [(1, sample_payroll)] [] [] 1 2 1 1.

Definition sample_server : Server := mkServer sample_storage [].

(** *** The role order as the specification words it *)

Definition rank (r : Role) : Z :=
  match r with
  | administrator => 4
  | hr_manager => 3
  | hr_staff => 2
  | employee => 1
  end.

(** *** Sample requests *)

(** An item with an empty name and a negative amount, for payroll 1. *)
Definition sample_bad_item : Body.PayrollItem :=
  Body.mkPayrollItem (Some 1) (Some earning) (Some "") (Some (-5)%float) None.


(** A payroll of employee 1 with a basic salary of 5000 and declared
    totals of 100 and 30, as [createPayroll] of the storage takes it,
    with a process date, before any item exists. *)
Definition sample_insert_totals : Payroll.Insert :=
  Payroll.mkInsert 1 "2024-02-01" "2024-02-29" 0
    5000%float 100%float 30%float 5070%float (Some draft) None.

(** A salary structure of employee 1, active since the epoch, with a
    basic salary of 4200, and a storage that holds it. *)
Definition sample_salary : SalaryStructure.t :=
  SalaryStructure.mk 1 1 4200%float None None None None (Some 0) None (Some true).

Definition sample_storage_with_salary : MemStorage.t :=
  MemStorage.mk [(1, sample_employee)] [(1, sample_salary)] [] [] [] 2 1 1 1.

(** The audit side of the storage. *)
Definition audit_of (st : MemStorage.t) :=
  (MemStorage.auditLogs st, MemStorage.auditLogCurrentId st).

(** *** Totals of a payroll *)

Definition ItemType_eqb (a b : ItemType) : bool :=
  match a, b with
  | earning, earning | deduction, deduction => true
  | _, _ => false
  end.

(** The amounts of the items of one type, in the order of the list. *)
Definition amounts_of (ty : ItemType) (items : list PayrollItem.t) : list float :=
  map PayrollItem.amount
    (filter (fun it => ItemType_eqb (PayrollItem.itemType it) ty) items).

(** Their sum, added up from [0] in that order. *)
Definition total (ty : ItemType) (items : list PayrollItem.t) : float :=
  fold_left PrimFloat.add (amounts_of ty items) 0%float.


(** The request body that parses to a given item. *)
Definition itemBody (i : PayrollItem.Insert) : Body.PayrollItem :=
  Body.mkPayrollItem (Some (PayrollItem.i_payrollId i))
    (Some (PayrollItem.i_itemType i)) (Some (PayrollItem.i_itemName i))
    (Some (PayrollItem.i_amount i)) (PayrollItem.i_description i).

(** A run of [addItem] requests by one user. *)
Definition addItems (env : Env) (u : User.t) (items : list PayrollItem.Insert)
  : list Request :=
  map (fun i => mkRequest env (Some u) (PostPayrollItem (itemBody i))) items.

(** The amounts a run of items brings to one type, in request order. *)
Definition new_amounts (ty : ItemType) (items : list PayrollItem.Insert)
  : list float :=
  map PayrollItem.i_amount
    (filter (fun i => ItemType_eqb (PayrollItem.i_itemType i) ty) items).

(** The responses to a sequence of requests. *)
Fixpoint responses (rs : list Request) (sv : Server) : list Response :=
  match rs with
  | [] => []
  | r :: rs' => snd (handle r sv) :: responses rs' (fst (handle r sv))
  end.

(** Three earnings of 0.1, 0.2 and 0.3 for payroll 1, and the same three
    in the opposite order. *)
Definition sample_earning (amount : float) : PayrollItem.Insert :=
  PayrollItem.mkInsert 1 earning "Bonus" amount None.

Definition sample_items_up : list PayrollItem.Insert :=
  [sample_earning 0.1%float; sample_earning 0.2%float; sample_earning 0.3%float].

Definition sample_items_down : list PayrollItem.Insert :=
  [sample_earning 0.3%float; sample_earning 0.2%float; sample_earning 0.1%float].

(** The storage after [POST /api/payroll-items] went through for item [d]
    of payroll [p]. *)
Definition afterAddItem (st : MemStorage.t) (d : PayrollItem.Insert)
    (p : Payroll.t) : MemStorage.t :=
  let st1 := fst (MemStorage.createPayrollItem st d) in
  fst (MemStorage.updatePayroll st1 (Payroll.id p)
         (totalsData p (MemStorage.getPayrollItemsByPayroll st1 (Payroll.id p)))).

(** A bonus and a tax for payroll 1, in the two possible orders. *)
Definition sample_deduction (amount : float) : PayrollItem.Insert :=
  PayrollItem.mkInsert 1 deduction "Tax" amount None.

Definition sample_bonus_then_tax : list PayrollItem.Insert :=
  [sample_earning 500%float; sample_deduction 200%float].

Definition sample_tax_then_bonus : list PayrollItem.Insert :=
  [sample_deduction 200%float; sample_earning 500%float].

(** *** The current salary structure *)

(** Active and current, as the specification words it: the structure is
    the employee's, its active flag is set, it took effect at or before
    [asOf], and its end is unset or at or after [asOf]. *)
Definition qualifies (employeeId asOf : Z) (s : SalaryStructure.t) : Prop :=
  SalaryStructure.employeeId s = employeeId
  /\ SalaryStructure.status s = Some true
  /\ (exists from, SalaryStructure.effectiveFrom s = Some from /\ from <= asOf)
  /\ (SalaryStructure.effectiveTo s = None
      \/ exists to, SalaryStructure.effectiveTo s = Some (Some to) /\ asOf <= to).

(** The structures of an employee that are active and current. *)
Definition currentStructures (st : MemStorage.t) (employeeId asOf : Z)
  : list SalaryStructure.t :=
  filter (MemStorage.isCurrent employeeId asOf)
    (JsMap.values (MemStorage.salaryStructures st)).

(** Rows in the order of their ids. *)
Fixpoint ascending_ids (l : list SalaryStructure.t) : Prop :=
  match l with
  | [] => True
  | s :: l' =>
      Forall (fun s' => SalaryStructure.id s < SalaryStructure.id s') l'
      /\ ascending_ids l'
  end.

(** The time a structure takes effect, for the comparator. *)
Definition fromTime (s : SalaryStructure.t) : Z :=
  match SalaryStructure.effectiveFrom s with Some t => t | None => 0 end.

(** Two active structures for employee 1 that both take effect at 200,
    and a third that takes effect at 250. *)
Definition sample_structure_body (basic : float) (from : Z) : Body.SalaryStructure :=
  Body.mkSalaryStructure (Some 1) (Some basic) None None None None
    (Some (Some from)) None (Some true).

Definition sample_create_structure (now : Z) (basic : float) (from : Z) : Request :=
  mkRequest (mkEnv now true) (Some sample_admin)
    (PostSalaryStructure (sample_structure_body basic from)).

(** Both are created at time 100, before either takes effect. *)
Definition sample_two_structures : Server :=
  serve [sample_create_structure 100 4000%float 200;
         sample_create_structure 100 4500%float 200]
    sample_server.

(** The walk-through of the specification: create a payroll of 5000 for
    employee 1, add a bonus of 500 and a tax of 200, approve, try another
    item, mark paid, mark paid again.  The create request is the one the
    payroll form sends, without [processDate]; the items go to payroll 1,
    which [sample_server] holds. *)
Definition sample_walkthrough : list Request :=
  let req := mkRequest sample_env (Some sample_admin) in
  [req (PostPayroll
          (Body.mkPayroll (Some 1) (Some "2024-01-01") (Some "2024-01-31") None
             (Some 5000%float) (Some 0%float) (Some 0%float) (Some 5000%float)
             (Some draft) None));
   req (PostPayrollItem
          (Body.mkPayrollItem (Some 1) (Some earning) (Some "Bonus")
             (Some 500%float) None));
   req (PostPayrollItem
          (Body.mkPayrollItem (Some 1) (Some deduction) (Some "Tax")
             (Some 200%float) None));
   req (PostApprove 1);
   req (PostPayrollItem
          (Body.mkPayrollItem (Some 1) (Some earning) (Some "Late")
             (Some 1%float) None));
   req (PostMarkPaid 1);
   req (PostMarkPaid 1)].

(** *** Kinds of routes *)

(** The routes behind [checkAdminOrHRManager]. *)
Definition guarded (r : Route) : bool :=
  match r with
  | PostSalaryStructure _ | PutSalaryStructure _ _ | PostPayroll _
  | PostApprove _ | PostMarkPaid _ | PostPayrollItem _ => true
  | _ => false
  end.

(** The routes that call the audit helper when they go through. *)
Definition audited (r : Route) : bool :=
  match r with
  | PostSalaryStructure _ | PutSalaryStructure _ _ | PostPayroll _
  | PostApprove _ | PostMarkPaid _ => true
  | _ => false
  end.

(** * More of the server *)

(** ** [checkHRAccess] of [routes.ts] *)

Definition checkHRAccess (user : option User.t) : Handler User.t :=
  match user with
  | None => send (Resp 401 (JMessage "Unauthorized"))
  | Some u =>
      match User.role u with
      | administrator | hr_manager | hr_staff => ret u
      | employee => send (Resp 403 (JMessage "Forbidden: Requires HR access"))
      end
  end.

(** The [hasAccess] that [GET /api/check-role] answers for a user of role
    [actual] asked about the role [required]; [false] when the route
    answers with no [hasAccess]. *)
Definition hasAccess (actual required : Role) : bool :=
  match check_role (Some (User.mk 0 "" actual)) (Some (Role_name required)) with
  | Resp 200 (JHasAccess b) => b
  | _ => false
  end.

(** ** Listings of [class MemStorage] and their routes *)

(** The number given to [slice] as its second argument, as [slice] reads
    it: after [ToIntegerOrInfinity], with NaN kept apart. *)
Inductive SliceEnd := NaN | Integral (z : Z) | PlusInfinity | MinusInfinity.

(** [array.slice(0, end)] *)
Definition slice0 {A} (l : list A) (end_ : SliceEnd) : list A :=
  let len := Z.of_nat (List.length l) in
  let final :=
    match end_ with
    | NaN => 0
    | Integral z => if z <? 0 then Z.max (len + z) 0 else Z.min z len
    | PlusInfinity => len
    | MinusInfinity => 0
    end in
  firstn (Z.to_nat final) l.

Module Listing.

(** [dateB.getTime() - dateA.getTime()] on [processDate] *)
Definition byProcessDateDesc (a b : Payroll.t) : Z :=
  Payroll.processDate b - Payroll.processDate a.

Definition getPendingApprovalPayrolls (st : MemStorage.t) : list Payroll.t :=
  js_sort byProcessDateDesc
    (filter (fun p => status_is (Payroll.status p) draft)
       (JsMap.values (MemStorage.payrolls st))).

Definition getTotalPayroll (st : MemStorage.t) : float :=
  fold_left (fun total p => PrimFloat.add total (Payroll.netSalary p))
    (filter (fun p => status_is (Payroll.status p) paid)
       (JsMap.values (MemStorage.payrolls st)))
    0%float.

Definition getSalaryHistoryForEmployee (st : MemStorage.t) (employeeId : Z)
  : list SalaryStructure.t :=
  js_sort MemStorage.byEffectiveFromDesc
    (filter (fun s => SalaryStructure.employeeId s =? employeeId)
       (JsMap.values (MemStorage.salaryStructures st))).

(** [dateB.getTime() - dateA.getTime()] on [timestamp] *)
Definition byTimestampDesc (a b : AuditLog.t) : Z :=
  AuditLog.timestamp b - AuditLog.timestamp a.

Definition getAuditLogs (st : MemStorage.t) (limit : SliceEnd) : list AuditLog.t :=
  slice0 (js_sort byTimestampDesc (JsMap.values (MemStorage.auditLogs st))) limit.

Definition getAuditLogsByUser (st : MemStorage.t) (userId : Z) : list AuditLog.t :=
  js_sort byTimestampDesc
    (filter (fun a => AuditLog.userId a =? userId)
       (JsMap.values (MemStorage.auditLogs st))).

Definition getAuditLogsByEntity (st : MemStorage.t) (entityType : string) (entityId : Z)
  : list AuditLog.t :=
  js_sort byTimestampDesc
    (filter (fun a => String.eqb (AuditLog.entityType a) entityType
                      && (AuditLog.entityId a =? entityId))
       (JsMap.values (MemStorage.auditLogs st))).

Definition getRecentActivity (st : MemStorage.t) (limit : SliceEnd) : list AuditLog.t :=
  getAuditLogs st limit.

End Listing.

(** A listing route ends with the value it passes to [res.json]. *)

(** [GET /api/payrolls/pending] *)
Definition getPendingRoute (user : option User.t) : Handler (list Payroll.t) :=
  checkAdminOrHRManager user ;;
  reads Listing.getPendingApprovalPayrolls.

(** [GET /api/payrolls/total] *)
Definition getTotalRoute (user : option User.t) : Handler float :=
  checkAdminOrHRManager user ;;
  reads Listing.getTotalPayroll.

(** [GET /api/salary-structures/employee/:employeeId] *)
Definition getSalaryHistoryRoute (user : option User.t) (employeeId : Z)
  : Handler (list SalaryStructure.t) :=
  checkHRAccess user ;;
  oe <- reads (fun st => MemStorage.getEmployee st employeeId) ;;
  match oe with
  | None => send (Resp 404 (JMessage "Employee not found"))
  | Some _ => reads (fun st => Listing.getSalaryHistoryForEmployee st employeeId)
  end.

(** [GET /api/audit-logs]; [limit] is [None] when [req.query.limit] is
    missing or the empty string, and else the number [Number] makes of
    it. *)
Definition getAuditLogsRoute (user : option User.t) (limit : option SliceEnd)
  : Handler (list AuditLog.t) :=
  checkAdminOrHRManager user ;;
  let limit := match limit with Some n => n | None => Integral 20 end in
  reads (fun st => Listing.getAuditLogs st limit).

(** A list in falling order of [key]. *)
Fixpoint descending {A} (key : A -> Z) (l : list A) : Prop :=
  match l with
  | [] => True
  | x :: l' => Forall (fun y => key y <= key x) l' /\ descending key l'
  end.

(** The routes that can store a paid payroll: [mark-paid], and a
    [create] whose body names the status paid. *)
Definition pays (r : Route) : bool :=
  match r with
  | PostMarkPaid _ => true
  | PostPayroll body => status_is (Body.p_status body) paid
  | _ => false
  end.

(** The paid payrolls in storage order, which [getTotalPayroll] adds up. *)
Definition paidPayrolls (st : MemStorage.t) : list Payroll.t :=
  filter (fun p => status_is (Payroll.status p) paid)
    (JsMap.values (MemStorage.payrolls st)).

(** [reduce((total, payroll) => total + Number(payroll.netSalary), start)] *)
Definition addNets (l : list Payroll.t) (start : float) : float :=
  fold_left (fun total p => PrimFloat.add total (Payroll.netSalary p)) l start.

(** A second payroll of employee 1, draft, as [createPayroll] stores it
    for [sample_insert_totals], and a server that holds both payrolls. *)
Definition sample_second_payroll : Payroll.t :=
  Payroll.mk 2 1 "2024-02-01" "2024-02-29" 0
    5000%float 100%float 30%float 5070%float (Some draft) None None.

Definition sample_server_two : Server :=
  mkServer (fst (MemStorage.createPayroll sample_storage sample_insert_totals)) [].

(** The audit log of a well-formed storage: the keys grow along the
    insertion order and stay below the counter. *)
Definition auditWf (st : MemStorage.t) : bool :=
  ascending_below (JsMap.keys (MemStorage.auditLogs st)) (MemStorage.auditLogCurrentId st).

(** A storage that holds one audit entry, recorded at time 100. *)
Definition sample_storage_with_log : MemStorage.t :=
  MemStorage.mk [] [] [] [] [(1, AuditLog.mk 1 1 "create" "payroll" 1 "" 100)] 1 1 1 2.

(** A salary-structure body for employee 1 that names no active flag. *)
Definition sample_inactive_body : Body.SalaryStructure :=
  Body.mkSalaryStructure (Some 1) (Some 9000%float) None None None None
    (Some (Some 50)) None None.

(** ** Departments *)

Module Department.

Record t := mk {
  id : Z;
  name : string;
  description : option string;
  managerId : option Z;
}.

(** [InsertDepartment]: the row without [id]. *)
Record Insert := mkInsert {
  i_name : string;
  i_description : option string;
  i_managerId : option Z;
}.

(** [{ ...insertDepartment, id }] *)
Definition of_insert (i : Insert) (new_id : Z) : t :=
  {| id := new_id;
     name := i_name i;
     description := i_description i;
     managerId := i_managerId i |}.

(** A request body: every key may be missing. *)
Record Body := mkBody {
  b_name : option string;
  b_description : option (option string);
  b_managerId : option (option Z);
}.

(** [Partial<Department>] as [insertDepartmentSchema.partial()] parses
    it. *)
Record Partial := mkPartial {
  p_name : option string;
  p_description : option (option string);
  p_managerId : option (option Z);
}.

Definition over {A} (new : option A) (old : A) : A :=
  match new with Some v => v | None => old end.

(** [{ ...department, ...departmentData }] *)
Definition merge (d : t) (p : Partial) : t :=
  {| id := id d;
     name := over (p_name p) (name d);
     description := over (p_description p) (description d);
     managerId := over (p_managerId p) (managerId d) |}.

End Department.

(** [insertDepartmentSchema.parse]: [name] is required, and any string
    is a name. *)
Definition insertDepartmentSchema_parse (b : Department.Body)
  : option Department.Insert :=
  match Department.b_name b with
  | Some n =>
      Some (Department.mkInsert n
              (match Department.b_description b with Some d => d | None => None end)
              (match Department.b_managerId b with Some m => m | None => None end))
  | None => None
  end.

(** [Map.prototype.delete]: the map without the key, and whether the key
    was there. *)
Fixpoint JsMap_delete {V} (m : JsMap.t V) (k : Z) : JsMap.t V * bool :=
  match m with
  | [] => ([], false)
  | (k', v) :: m' =>
      if k' =? k then (m', true)
      else let (m'', found) := JsMap_delete m' k in ((k', v) :: m'', found)
  end.

(** The department side of [class MemStorage]. *)
Module Departments.

Record t := mk {
  departments : JsMap.t Department.t;
  departmentCurrentId : Z;
}.

Definition getDepartment (st : t) (id : Z) : option Department.t :=
  JsMap.get (departments st) id.

Definition getDepartmentByName (st : t) (name : string) : option Department.t :=
  find (fun department => String.eqb (Department.name department) name)
    (JsMap.values (departments st)).

Definition createDepartment (st : t) (i : Department.Insert) : t * Department.t :=
  let id := departmentCurrentId st in
  let department := Department.of_insert i id in
  (mk (JsMap.set (departments st) id department) (id + 1), department).

Definition updateDepartment (st : t) (id : Z) (p : Department.Partial)
  : t * option Department.t :=
  match getDepartment st id with
  | None => (st, None)
  | Some department =>
      let updated := Department.merge department p in
      (mk (JsMap.set (departments st) id updated) (departmentCurrentId st),
       Some updated)
  end.

Definition deleteDepartment (st : t) (id : Z) : t * bool :=
  let (m, found) := JsMap_delete (departments st) id in
  (mk m (departmentCurrentId st), found).

Definition getAllDepartments (st : t) : list Department.t :=
  JsMap.values (departments st).

(** The six departments [initData] creates. *)
Definition initial : t :=
  fold_left
    (fun st name =>
       fst (createDepartment st
              (Department.mkInsert name (Some (name ++ " department")%string) None)))
    ["Engineering"; "Marketing"; "Finance"; "HR"; "Sales"; "Operations"]
    (mk JsMap.empty 1).

End Departments.

(** The server as the department routes see it: the department map, and
    the rest of the storage with the console. *)
Record DeptServer := mkDeptServer { dept : Departments.t; rest : Server }.

(** What a department route sends: a response that carries a message or
    nothing, or a status with a department. *)
Definition DeptResponse : Type := Response + (Z * option Department.t).

Definition dept_code (r : DeptResponse) : Z :=
  match r with inl r => code r | inr (c, _) => c end.

Section DepartmentRoutes.

(** [employee.departmentId], a column the [Employee] record above leaves
    out. *)
Variable departmentId : Employee.t -> option Z.

Definition getEmployeesByDepartment (st : MemStorage.t) (id : Z) : list Employee.t :=
  filter (fun employee =>
            match departmentId employee with
            | Some d => d =? id
            | None => false
            end)
    (JsMap.values (MemStorage.employees st)).

(** [POST /api/departments] *)
Definition postDepartment (env : Env) (user : option User.t) (body : Department.Body)
    (s : DeptServer) : DeptServer * DeptResponse :=
  match checkAdminOrHRManager user (rest s) with
  | (_, inl refusal) => (s, inl refusal)
  | (_, inr u) =>
      match insertDepartmentSchema_parse body with
      | None => (s, inl (Resp 400 JZodErrors))
      | Some departmentData =>
          match Departments.getDepartmentByName (dept s)
                  (Department.i_name departmentData) with
          | Some _ => (s, inl (Resp 400 (JMessage "Department name already exists")))
          | None =>
              let (st', department) :=
                Departments.createDepartment (dept s) departmentData in
              let sv' :=
                fst (createAuditLog env (User.id u) "create" "department"
                       (Department.id department)
                       ("Department " ++ Department.name department ++ " created")
                       (rest s)) in
              (mkDeptServer st' sv', inr (201, Some department))
          end
      end
  end.

(** [PUT /api/departments/:id]; a body that does not parse is [None]. *)
Definition putDepartment (env : Env) (user : option User.t) (id : Z)
    (body : option Department.Partial) (s : DeptServer) : DeptServer * DeptResponse :=
  match checkAdminOrHRManager user (rest s) with
  | (_, inl refusal) => (s, inl refusal)
  | (_, inr u) =>
      match body with
      | None => (s, inl (Resp 400 JZodErrors))
      | Some departmentData =>
          match Departments.getDepartment (dept s) id with
          | None => (s, inl (Resp 404 (JMessage "Department not found")))
          | Some department =>
              let taken :=
                match Department.p_name departmentData with
                | Some n =>
                    if negb (String.eqb n "")
                       && negb (String.eqb n (Department.name department))
                    then match Departments.getDepartmentByName (dept s) n with
                         | Some _ => true
                         | None => false
                         end
                    else false
                | None => false
                end in
              if taken
              then (s, inl (Resp 400 (JMessage "Department name already exists")))
              else
                let (st', updatedDepartment) :=
                  Departments.updateDepartment (dept s) id departmentData in
                let sv' :=
                  fst (createAuditLog env (User.id u) "update" "department" id
                         ("Department "
                          ++ match updatedDepartment with
                             | Some d => Department.name d
                             | None => "undefined"
                             end
                          ++ " updated")
                         (rest s)) in
                (mkDeptServer st' sv', inr (200, updatedDepartment))
          end
      end
  end.

(** [DELETE /api/departments/:id] *)
Definition deleteDepartmentRoute (env : Env) (user : option User.t) (id : Z)
    (s : DeptServer) : DeptServer * DeptResponse :=
  match checkAdminOrHRManager user (rest s) with
  | (_, inl refusal) => (s, inl refusal)
  | (_, inr u) =>
      match Departments.getDepartment (dept s) id with
      | None => (s, inl (Resp 404 (JMessage "Department not found")))
      | Some department =>
          match getEmployeesByDepartment (storage (rest s)) id with
          | _ :: _ =>
              (s, inl (Resp 400 (JMessage "Cannot delete department with employees")))
          | [] =>
              let (st', success) := Departments.deleteDepartment (dept s) id in
              if success
              then
                let sv' :=
                  fst (createAuditLog env (User.id u) "delete" "department" id
                         ("Department " ++ Department.name department ++ " deleted")
                         (rest s)) in
                (mkDeptServer st' sv', inl (Resp 204 JNone))
              else (mkDeptServer st' (rest s),
                    inl (Resp 500 (JMessage "Failed to delete department")))
          end
      end
  end.

Inductive DeptRoute :=
| PostDepartment (body : Department.Body)
| PutDepartment (id : Z) (body : option Department.Partial)
| DeleteDepartment (id : Z).

Record DeptRequest := mkDeptRequest {
  dreq_env : Env;
  dreq_user : option User.t;
  dreq_route : DeptRoute;
}.

Definition handleDept (r : DeptRequest) (s : DeptServer) : DeptServer * DeptResponse :=
  match dreq_route r with
  | PostDepartment body => postDepartment (dreq_env r) (dreq_user r) body s
  | PutDepartment id body => putDepartment (dreq_env r) (dreq_user r) id body s
  | DeleteDepartment id => deleteDepartmentRoute (dreq_env r) (dreq_user r) id s
  end.

Definition serveDept (rs : list DeptRequest) (s : DeptServer) : DeptServer :=
  fold_left (fun s r => fst (handleDept r s)) rs s.

End DepartmentRoutes.

(** The names of the stored departments, in storage order. *)
Definition departmentNames (st : Departments.t) : list string :=
  map Department.name (Departments.getAllDepartments st).

(** A [PUT] whose body names the empty string. *)
Definition namesEmpty (r : DeptRoute) : bool :=
  match r with
  | PutDepartment _ (Some p) =>
      match Department.p_name p with
      | Some n => String.eqb n ""
      | None => false
      end
  | _ => false
  end.

(** The server at start-up, as the department routes see it. *)
Definition initial_dept_server : DeptServer :=
  mkDeptServer Departments.initial (mkServer MemStorage.initial []).

(** A department with no name and the request that removes the name of
    department 1. *)
Definition sample_nameless_post : DeptRequest :=
  mkDeptRequest sample_env (Some sample_admin)
    (PostDepartment (Department.mkBody (Some "") None None)).

Definition sample_nameless_put : DeptRequest :=
  mkDeptRequest sample_env (Some sample_admin)
    (PutDepartment 1 (Some (Department.mkPartial (Some "") None None))).

(** * Properties *)

(** ** Facts about [JsMap] *)

Section JsMapFacts.

Context {V : Type}.
Implicit Types (m : JsMap.t V) (k : Z) (v : V).

Lemma get_set_same m k v : JsMap.get (JsMap.set m k v) k = Some v.
Proof.
  induction m as [|[k' v'] m IH]; simpl.
  - now rewrite Z.eqb_refl.
  - destruct (k' =? k) eqn:E; simpl.
    + now rewrite Z.eqb_refl.
    + now rewrite E.
Qed.

Lemma get_set_other m k k' v :
  k <> k' -> JsMap.get (JsMap.set m k v) k' = JsMap.get m k'.
Proof.
  intros Hne. induction m as [|[k0 v0] m IH]; simpl.
  - destruct (k =? k') eqn:E; [apply Z.eqb_eq in E; contradiction | reflexivity].
  - destruct (k0 =? k) eqn:E; simpl.
    + apply Z.eqb_eq in E; subst k0.
      destruct (k =? k') eqn:E'; [apply Z.eqb_eq in E'; contradiction | reflexivity].
    + now rewrite IH.
Qed.

Lemma get_In m k v : JsMap.get m k = Some v -> In (k, v) m.
Proof.
  induction m as [|[k' v'] m IH]; simpl; [discriminate|].
  destruct (k' =? k) eqn:E.
  - apply Z.eqb_eq in E; subst. intros [= ->]. now left.
  - intros H. right. auto.
Qed.

Lemma get_None_keys m k : JsMap.get m k = None <-> ~ In k (JsMap.keys m).
Proof.
  induction m as [|[k' v'] m IH]; simpl.
  - tauto.
  - destruct (k' =? k) eqn:E.
    + apply Z.eqb_eq in E; subst. split; [discriminate | intros H; exfalso; auto].
    + apply Z.eqb_neq in E. rewrite IH. tauto.
Qed.

Lemma get_Some_keys m k v : JsMap.get m k = Some v -> In k (JsMap.keys m).
Proof. intros H. apply get_In in H. now apply (in_map fst) in H. Qed.

(** A new key goes last. *)
Lemma set_absent m k v :
  ~ In k (JsMap.keys m) -> JsMap.set m k v = (m ++ [(k, v)])%list.
Proof.
  induction m as [|[k' v'] m IH]; simpl; [reflexivity|].
  intros H. destruct (k' =? k) eqn:E.
  - apply Z.eqb_eq in E. tauto.
  - f_equal. apply IH. tauto.
Qed.

(** An existing key keeps the keys and their order. *)
Lemma keys_set_present m k v :
  In k (JsMap.keys m) -> JsMap.keys (JsMap.set m k v) = JsMap.keys m.
Proof.
  induction m as [|[k' v'] m IH]; simpl; [tauto|].
  intros H. destruct (k' =? k) eqn:E; simpl.
  - apply Z.eqb_eq in E. now subst.
  - apply Z.eqb_neq in E. f_equal. apply IH. tauto.
Qed.

Lemma In_set m k v k' v' :
  In (k', v') (JsMap.set m k v) -> (k', v') = (k, v) \/ In (k', v') m.
Proof.
  induction m as [|[k0 v0] m IH]; simpl.
  - intros [H|[]]; auto.
  - destruct (k0 =? k); simpl; intros [H|H]; auto.
    destruct (IH H); auto.
Qed.

(** With distinct keys an entry of the list is what [get] finds. *)
Lemma In_get m k v :
  NoDup (JsMap.keys m) -> In (k, v) m -> JsMap.get m k = Some v.
Proof.
  induction m as [|[k' v'] m IH]; simpl; [now intros _ []|].
  intros Hnd [E|Hin].
  - injection E as -> ->. now rewrite Z.eqb_refl.
  - apply NoDup_cons_iff in Hnd as [Hn Hnd].
    destruct (k' =? k) eqn:E; [|auto].
    apply Z.eqb_eq in E. subst k'. exfalso. apply Hn.
    now apply (in_map fst) in Hin.
Qed.

End JsMapFacts.

(** ** Running the handlers

    Each route is rewritten once into the cases it takes; the audit helper
    is summarised by the server it leaves behind. *)

Ltac unfold_handler :=
  cbv [respond bind reads writes send ret createAuditLog storage_createAuditLog
       console_error checkAdminOrHRManager employeeRoleGuard retirePrevious].

Lemma createAuditLog_run env userId action entityType entityId details sv :
  createAuditLog env userId action entityType entityId details sv =
  (afterAudit env (AuditLog.mkInsert userId action entityType entityId details) sv,
   inr tt).
Proof.
  unfold afterAudit. unfold_handler. now destruct (auditAvailable env).
Qed.

Lemma checkAdminOrHRManager_run user sv :
  checkAdminOrHRManager user sv = (sv, roleCheck user).
Proof. destruct user as [u|]; [|reflexivity]. simpl. now destruct (User.role u). Qed.

Lemma roleCheck_authorized u : isAdminOrHRManager u -> roleCheck (Some u) = inr u.
Proof. intros [H|H]; simpl; now rewrite H. Qed.

Lemma approve_run env user id sv :
  respond (approve env user id) sv =
  match roleCheck user with
  | inl r => (sv, r)
  | inr u =>
      match MemStorage.getPayroll (storage sv) id with
      | None => (sv, Resp 404 (JMessage "Payroll not found"))
      | Some p =>
          if status_is (Payroll.status p) draft
          then
            let (st', updated) :=
              MemStorage.updatePayroll (storage sv) id (approveData env u) in
            (afterAudit env
               (AuditLog.mkInsert (User.id u) "approve" "payroll" id
                  ("Payroll approved for employee ID "
                   ++ string_of_Z (Payroll.employeeId p)))
               (mkServer st' (console sv)),
             Resp 200 (JPayroll updated))
          else (sv, Resp 400 (JMessage "Payroll is already approved or paid"))
      end
  end.
Proof.
  unfold approve, respond, bind at 1. rewrite checkAdminOrHRManager_run.
  destruct (roleCheck user) as [r|u]; [reflexivity|].
  unfold bind at 1, reads. cbn iota.
  destruct (MemStorage.getPayroll (storage sv) id) as [p|]; [|reflexivity].
  destruct (status_is (Payroll.status p) draft); cbn [negb]; [|reflexivity].
  unfold bind at 1, writes. fold (approveData env u).
  destruct (MemStorage.updatePayroll (storage sv) id (approveData env u)) as [st' upd].
  unfold bind. rewrite createAuditLog_run. reflexivity.
Qed.

Lemma markPaid_run env user id sv :
  respond (markPaid env user id) sv =
  match roleCheck user with
  | inl r => (sv, r)
  | inr u =>
      match MemStorage.getPayroll (storage sv) id with
      | None => (sv, Resp 404 (JMessage "Payroll not found"))
      | Some p =>
          if status_is (Payroll.status p) approved
          then
            let (st', updated) :=
              MemStorage.updatePayroll (storage sv) id paidData in
            (afterAudit env
               (AuditLog.mkInsert (User.id u) "paid" "payroll" id
                  ("Payroll marked as paid for employee ID "
                   ++ string_of_Z (Payroll.employeeId p)))
               (mkServer st' (console sv)),
             Resp 200 (JPayroll updated))
          else (sv, Resp 400
                      (JMessage "Payroll must be approved before marking as paid"))
      end
  end.
Proof.
  unfold markPaid, respond, bind at 1. rewrite checkAdminOrHRManager_run.
  destruct (roleCheck user) as [r|u]; [reflexivity|].
  unfold bind at 1, reads. cbn iota.
  destruct (MemStorage.getPayroll (storage sv) id) as [p|]; [|reflexivity].
  destruct (status_is (Payroll.status p) approved); cbn [negb]; [|reflexivity].
  unfold bind at 1, writes. fold paidData.
  destruct (MemStorage.updatePayroll (storage sv) id paidData) as [st' upd].
  unfold bind. rewrite createAuditLog_run. reflexivity.
Qed.

Lemma postPayroll_run env user body sv :
  respond (postPayroll env user body) sv =
  match roleCheck user with
  | inl r => (sv, r)
  | inr u =>
      match insertPayrollSchema_parse body with
      | None => (sv, Resp 400 JZodErrors)
      | Some d =>
          match MemStorage.getEmployee (storage sv) (Payroll.i_employeeId d) with
          | None => (sv, Resp 404 (JMessage "Employee not found"))
          | Some emp =>
              let (st', p) :=
                MemStorage.createPayroll (storage sv) (withProcessDate d (now env)) in
              (afterAudit env
                 (AuditLog.mkInsert (User.id u) "create" "payroll" (Payroll.id p)
                    ("Payroll created for employee ID " ++ Employee.employeeId emp))
                 (mkServer st' (console sv)),
               Resp 201 (JPayroll (Some p)))
          end
      end
  end.
Proof.
  unfold postPayroll, respond, bind at 1. rewrite checkAdminOrHRManager_run.
  destruct (roleCheck user) as [r|u]; [reflexivity|].
  destruct (insertPayrollSchema_parse body) as [d|]; [|reflexivity].
  unfold bind at 1, reads. cbn iota.
  destruct (MemStorage.getEmployee (storage sv) (Payroll.i_employeeId d)) as [emp|];
    [|reflexivity].
  unfold bind at 1, writes.
  destruct (MemStorage.createPayroll (storage sv) (withProcessDate d (now env)))
    as [st' p].
  unfold bind. rewrite createAuditLog_run. reflexivity.
Qed.

Lemma addItem_run user body sv :
  respond (addItem user body) sv =
  match roleCheck user with
  | inl r => (sv, r)
  | inr u =>
      match insertPayrollItemSchema_parse body with
      | None => (sv, Resp 400 JZodErrors)
      | Some d =>
          match MemStorage.getPayroll (storage sv) (PayrollItem.i_payrollId d) with
          | None => (sv, Resp 404 (JMessage "Payroll not found"))
          | Some p =>
              if status_is (Payroll.status p) draft
              then
                let (st1, payrollItem) :=
                  MemStorage.createPayrollItem (storage sv) d in
                let allItems :=
                  MemStorage.getPayrollItemsByPayroll st1 (Payroll.id p) in
                (mkServer
                   (fst (MemStorage.updatePayroll st1 (Payroll.id p)
                           (totalsData p allItems)))
                   (console sv),
                 Resp 201 (JPayrollItem payrollItem))
              else (sv, Resp 400
                          (JMessage "Cannot modify items for approved or paid payroll"))
          end
      end
  end.
Proof.
  unfold addItem, respond, bind at 1. rewrite checkAdminOrHRManager_run.
  destruct (roleCheck user) as [r|u]; [reflexivity|].
  destruct (insertPayrollItemSchema_parse body) as [d|]; [|reflexivity].
  unfold bind at 1, reads. cbn iota.
  destruct (MemStorage.getPayroll (storage sv) (PayrollItem.i_payrollId d)) as [p|];
    [|reflexivity].
  destruct (status_is (Payroll.status p) draft); cbn [negb]; [|reflexivity].
  unfold bind at 1, writes.
  destruct (MemStorage.createPayrollItem (storage sv) d) as [st1 it].
  unfold bind at 1. cbn [storage console]. unfold totalsData.
  destruct (sumItems (MemStorage.getPayrollItemsByPayroll st1 (Payroll.id p)))
    as [te td].
  unfold bind, ret. cbn [storage console].
  now destruct (MemStorage.updatePayroll st1 (Payroll.id p) _).
Qed.

Lemma postSalaryStructure_run env user body sv :
  respond (postSalaryStructure env user body) sv =
  match roleCheck user with
  | inl r => (sv, r)
  | inr u =>
      match insertSalaryStructureSchema_parse body with
      | None => (sv, Resp 400 JZodErrors)
      | Some d =>
          match MemStorage.getEmployee (storage sv) (SalaryStructure.i_employeeId d) with
          | None => (sv, Resp 404 (JMessage "Employee not found"))
          | Some emp =>
              let (st', s) :=
                MemStorage.createSalaryStructure (afterRetire env d (storage sv)) d in
              (afterAudit env
                 (AuditLog.mkInsert (User.id u) "create" "salary" (SalaryStructure.id s)
                    ("Salary structure created for employee ID "
                     ++ Employee.employeeId emp))
                 (mkServer st' (console sv)),
               Resp 201 (JSalaryStructure (Some s)))
          end
      end
  end.
Proof.
  unfold postSalaryStructure, respond, bind at 1. rewrite checkAdminOrHRManager_run.
  destruct (roleCheck user) as [r|u]; [reflexivity|].
  destruct (insertSalaryStructureSchema_parse body) as [d|]; [|reflexivity].
  unfold bind at 1, reads. cbn iota.
  destruct (MemStorage.getEmployee (storage sv) (SalaryStructure.i_employeeId d))
    as [emp|]; [|reflexivity].
  assert (Hr : retirePrevious env d sv
               = (mkServer (afterRetire env d (storage sv)) (console sv), inr tt)).
  { unfold retirePrevious, afterRetire. fold (retireData d).
    destruct (SalaryStructure.i_status d) as [[|]|];
      try (destruct sv; reflexivity).
    unfold bind, reads, writes, ret. cbn iota.
    destruct (MemStorage.getCurrentSalaryStructure (storage sv)
                (SalaryStructure.i_employeeId d) (now env)) as [c|];
      [|destruct sv; reflexivity].
    now destruct (MemStorage.updateSalaryStructure (storage sv)
                    (SalaryStructure.id c) (retireData d)). }
  unfold bind at 1. rewrite Hr. clear Hr.
  unfold bind at 1, writes. cbn [storage console].
  destruct (MemStorage.createSalaryStructure (afterRetire env d (storage sv)) d)
    as [st' s].
  unfold bind. rewrite createAuditLog_run. reflexivity.
Qed.

Lemma putSalaryStructure_run env user id body sv :
  respond (putSalaryStructure env user id body) sv =
  match roleCheck user with
  | inl r => (sv, r)
  | inr u =>
      match body with
      | None => (sv, Resp 400 JZodErrors)
      | Some d =>
          match MemStorage.getSalaryStructure (storage sv) id with
          | None => (sv, Resp 404 (JMessage "Salary structure not found"))
          | Some s =>
              let (st', updated) :=
                MemStorage.updateSalaryStructure (storage sv) id d in
              (afterAudit env
                 (AuditLog.mkInsert (User.id u) "update" "salary" id
                    ("Salary structure updated for employee ID "
                     ++ string_of_Z (SalaryStructure.employeeId s)))
                 (mkServer st' (console sv)),
               Resp 200 (JSalaryStructure updated))
          end
      end
  end.
Proof.
  unfold putSalaryStructure, respond, bind at 1. rewrite checkAdminOrHRManager_run.
  destruct (roleCheck user) as [r|u]; [reflexivity|].
  destruct body as [d|]; [|reflexivity].
  unfold bind at 1, reads. cbn iota.
  destruct (MemStorage.getSalaryStructure (storage sv) id) as [s|]; [|reflexivity].
  unfold bind at 1, writes.
  destruct (MemStorage.updateSalaryStructure (storage sv) id d) as [st' upd].
  unfold bind. rewrite createAuditLog_run. reflexivity.
Qed.

(** The two [GET] routes and the role check leave the server as it is. *)
Lemma getCurrentSalaryRoute_state env user e sv :
  fst (respond (getCurrentSalaryRoute env user e) sv) = sv.
Proof.
  unfold getCurrentSalaryRoute. unfold_handler.
  destruct (MemStorage.getEmployee (storage sv) e) as [emp|]; [|reflexivity].
  destruct user as [u|]; [|reflexivity].
  destruct (Role_eqb (User.role u) employee && _); [reflexivity|].
  now destruct (MemStorage.getCurrentSalaryStructure (storage sv) e (now env)).
Qed.

Lemma getPayrollRoute_state user id sv :
  fst (respond (getPayrollRoute user id) sv) = sv.
Proof.
  unfold getPayrollRoute. unfold_handler.
  destruct (MemStorage.getPayroll (storage sv) id) as [p|]; [|reflexivity].
  destruct user as [u|]; [|reflexivity].
  destruct (MemStorage.getEmployee (storage sv) (Payroll.employeeId p)) as [emp|];
    [|reflexivity].
  now destruct (Role_eqb (User.role u) employee && _).
Qed.

(** ** Well-formed storage is kept by every request *)

Section WellFormed.

Lemma ascending_below_lt ks n :
  ascending_below ks n = true -> Forall (fun k => k < n) ks.
Proof.
  induction ks as [|k ks IH]; simpl; [constructor|].
  rewrite !andb_true_iff. intros [[H1 _] H3].
  constructor; [now apply Z.ltb_lt | auto].
Qed.

Lemma ascending_below_fresh ks n : ascending_below ks n = true -> ~ In n ks.
Proof.
  intros H Hin. apply ascending_below_lt in H.
  rewrite Forall_forall in H. specialize (H n Hin). lia.
Qed.

Lemma ascending_below_snoc ks n :
  ascending_below ks n = true -> ascending_below (ks ++ [n]) (n + 1) = true.
Proof.
  induction ks as [|k ks IH]; simpl.
  - intros _. rewrite !andb_true_r. apply Z.ltb_lt. lia.
  - rewrite !andb_true_iff. intros [[H1 H2] H3].
    apply Z.ltb_lt in H1. repeat split; auto.
    + apply Z.ltb_lt. lia.
    + rewrite forallb_app, H2. simpl. rewrite andb_true_r. now apply Z.ltb_lt.
Qed.

Lemma ascending_below_NoDup ks n : ascending_below ks n = true -> NoDup ks.
Proof.
  induction ks as [|k ks IH]; simpl; [constructor|].
  rewrite !andb_true_iff. intros [[_ H2] H3]. constructor; auto.
  intros Hin. rewrite forallb_forall in H2. specialize (H2 k Hin).
  apply Z.ltb_lt in H2. lia.
Qed.

Lemma existsb_eqb_In x ks : existsb (Z.eqb x) ks = true <-> In x ks.
Proof.
  rewrite existsb_exists. split.
  - intros [y [Hy E]]. apply Z.eqb_eq in E. now subst.
  - intros H. exists x. split; [assumption | apply Z.eqb_refl].
Qed.

Lemma wf_spec st :
  wf st = true <->
  ascending_below (JsMap.keys (MemStorage.payrolls st))
    (MemStorage.payrollCurrentId st) = true
  /\ (forall k p, In (k, p) (MemStorage.payrolls st) -> Payroll.id p = k)
  /\ ascending_below (JsMap.keys (MemStorage.payrollItems st))
       (MemStorage.payrollItemCurrentId st) = true
  /\ (forall k it, In (k, it) (MemStorage.payrollItems st) ->
        In (PayrollItem.payrollId it) (JsMap.keys (MemStorage.payrolls st)))
  /\ ascending_below (JsMap.keys (MemStorage.salaryStructures st))
       (MemStorage.salaryStructureCurrentId st) = true
  /\ (forall k s, In (k, s) (MemStorage.salaryStructures st) ->
        SalaryStructure.id s = k).
Proof.
  unfold wf. rewrite !andb_true_iff, !forallb_forall.
  split.
  - intros [[[[[H1 H2] H3] H4] H5] H6]. repeat split; auto.
    + intros k p Hin. apply Z.eqb_eq. apply (H2 (k, p) Hin).
    + intros k it Hin. apply existsb_eqb_In. apply (H4 (k, it) Hin).
    + intros k s Hin. apply Z.eqb_eq. apply (H6 (k, s) Hin).
  - intros (H1 & H2 & H3 & H4 & H5 & H6). repeat split; auto.
    + intros [k p] Hin. apply Z.eqb_eq. simpl. auto.
    + intros [k it] Hin. apply existsb_eqb_In. simpl. eauto.
    + intros [k s] Hin. apply Z.eqb_eq. simpl. auto.
Qed.

Lemma wf_primary st st' : primary st = primary st' -> wf st = wf st'.
Proof.
  destruct st, st'. unfold primary, wf. simpl. intros H.
  injection H as -> -> -> -> -> -> ->. reflexivity.
Qed.

Lemma createAuditLog_primary st i t :
  primary (fst (MemStorage.createAuditLog st i t)) = primary st.
Proof. reflexivity. Qed.

Lemma afterAudit_primary env i sv :
  primary (storage (afterAudit env i sv)) = primary (storage sv).
Proof. unfold afterAudit. now destruct (auditAvailable env). Qed.

Lemma afterAudit_wf env i sv :
  wf (storage (afterAudit env i sv)) = wf (storage sv).
Proof. apply wf_primary, afterAudit_primary. Qed.

Lemma createPayroll_wf st i :
  wf st = true -> wf (fst (MemStorage.createPayroll st i)) = true.
Proof.
  rewrite !wf_spec. intros (H1 & H2 & H3 & H4 & H5 & H6). simpl.
  rewrite set_absent by now apply ascending_below_fresh.
  unfold JsMap.keys in *. rewrite map_app. simpl.
  repeat split; auto.
  - now apply ascending_below_snoc.
  - intros k p Hin. apply in_app_or in Hin as [Hin|[[= <- <-]|[]]]; auto.
  - intros k it Hin. apply in_or_app. left. eauto.
Qed.

Lemma updatePayroll_wf st id d :
  wf st = true -> wf (fst (MemStorage.updatePayroll st id d)) = true.
Proof.
  unfold MemStorage.updatePayroll, MemStorage.getPayroll.
  destruct (JsMap.get (MemStorage.payrolls st) id) as [p|] eqn:G; [|auto].
  rewrite !wf_spec. intros (H1 & H2 & H3 & H4 & H5 & H6). simpl.
  rewrite keys_set_present by (eapply get_Some_keys; eauto).
  repeat split; auto.
  intros k q Hin. apply In_set in Hin as [[= -> ->]|Hin]; auto.
  simpl. apply H2. now apply get_In.
Qed.

Lemma createPayrollItem_wf st i :
  wf st = true ->
  In (PayrollItem.i_payrollId i) (JsMap.keys (MemStorage.payrolls st)) ->
  wf (fst (MemStorage.createPayrollItem st i)) = true.
Proof.
  rewrite !wf_spec. intros (H1 & H2 & H3 & H4 & H5 & H6) Hown. simpl.
  rewrite set_absent by now apply ascending_below_fresh.
  unfold JsMap.keys in *. rewrite map_app. simpl.
  repeat split; auto.
  - now apply ascending_below_snoc.
  - intros k it Hin. apply in_app_or in Hin as [Hin|[[= <- <-]|[]]]; eauto.
Qed.

Lemma createSalaryStructure_wf st i :
  wf st = true -> wf (fst (MemStorage.createSalaryStructure st i)) = true.
Proof.
  rewrite !wf_spec. intros (H1 & H2 & H3 & H4 & H5 & H6). simpl.
  rewrite set_absent by now apply ascending_below_fresh.
  unfold JsMap.keys in *. rewrite map_app. simpl.
  repeat split; auto.
  - now apply ascending_below_snoc.
  - intros k s Hin. apply in_app_or in Hin as [Hin|[[= <- <-]|[]]]; auto.
Qed.

Lemma updateSalaryStructure_wf st id d :
  wf st = true -> wf (fst (MemStorage.updateSalaryStructure st id d)) = true.
Proof.
  unfold MemStorage.updateSalaryStructure, MemStorage.getSalaryStructure.
  destruct (JsMap.get (MemStorage.salaryStructures st) id) as [s|] eqn:G; [|auto].
  rewrite !wf_spec. intros (H1 & H2 & H3 & H4 & H5 & H6). simpl.
  rewrite keys_set_present by (eapply get_Some_keys; eauto).
  repeat split; auto.
  intros k q Hin. apply In_set in Hin as [[= -> ->]|Hin]; auto.
  simpl. apply H6. now apply get_In.
Qed.

Lemma afterRetire_wf env d st : wf st = true -> wf (afterRetire env d st) = true.
Proof.
  intros H. unfold afterRetire.
  destruct (SalaryStructure.i_status d) as [[|]|]; auto.
  destruct (MemStorage.getCurrentSalaryStructure st _ _); auto.
  now apply updateSalaryStructure_wf.
Qed.

Theorem handle_wf r sv :
  wf (storage sv) = true -> wf (storage (fst (handle r sv))) = true.
Proof.
  intros H. unfold handle. destruct (req_route r); cbn [fst].
  - assumption.
  - now rewrite getCurrentSalaryRoute_state.
  - rewrite postSalaryStructure_run.
    destruct (roleCheck _); [assumption|].
    destruct (insertSalaryStructureSchema_parse body) as [d|]; [|assumption].
    destruct (MemStorage.getEmployee _ _); [|assumption].
    destruct (MemStorage.createSalaryStructure _ d) as [st' s] eqn:E.
    cbn [fst]. rewrite afterAudit_wf. cbn [storage].
    change st' with (fst (st', s)). rewrite <- E.
    now apply createSalaryStructure_wf, afterRetire_wf.
  - rewrite putSalaryStructure_run.
    destruct (roleCheck _); [assumption|].
    destruct body as [d|]; [|assumption].
    destruct (MemStorage.getSalaryStructure _ _); [|assumption].
    destruct (MemStorage.updateSalaryStructure _ id d) as [st' s] eqn:E.
    cbn [fst]. rewrite afterAudit_wf. cbn [storage].
    change st' with (fst (st', s)). rewrite <- E.
    now apply updateSalaryStructure_wf.
  - now rewrite getPayrollRoute_state.
  - rewrite postPayroll_run.
    destruct (roleCheck _); [assumption|].
    destruct (insertPayrollSchema_parse body) as [d|]; [|assumption].
    destruct (MemStorage.getEmployee _ _); [|assumption].
    destruct (MemStorage.createPayroll _ _) as [st' p] eqn:E.
    cbn [fst]. rewrite afterAudit_wf. cbn [storage].
    change st' with (fst (st', p)). rewrite <- E.
    now apply createPayroll_wf.
  - rewrite approve_run.
    destruct (roleCheck _) as [|u]; [assumption|].
    destruct (MemStorage.getPayroll _ _) as [p|]; [|assumption].
    destruct (status_is _ _); [|assumption].
    destruct (MemStorage.updatePayroll _ id _) as [st' q] eqn:E.
    cbn [fst]. rewrite afterAudit_wf. cbn [storage].
    change st' with (fst (st', q)). rewrite <- E.
    now apply updatePayroll_wf.
  - rewrite markPaid_run.
    destruct (roleCheck _) as [|u]; [assumption|].
    destruct (MemStorage.getPayroll _ _) as [p|]; [|assumption].
    destruct (status_is _ _); [|assumption].
    destruct (MemStorage.updatePayroll _ id _) as [st' q] eqn:E.
    cbn [fst]. rewrite afterAudit_wf. cbn [storage].
    change st' with (fst (st', q)). rewrite <- E.
    now apply updatePayroll_wf.
  - rewrite addItem_run.
    destruct (roleCheck _) as [|u]; [assumption|].
    destruct (insertPayrollItemSchema_parse body) as [d|]; [|assumption].
    destruct (MemStorage.getPayroll _ _) as [p|] eqn:G; [|assumption].
    destruct (status_is _ _); [|assumption].
    destruct (MemStorage.createPayrollItem _ d) as [st1 it] eqn:E.
    cbn [fst storage]. apply updatePayroll_wf.
    change st1 with (fst (st1, it)). rewrite <- E.
    apply createPayrollItem_wf; [assumption|].
    eapply get_Some_keys; eauto.
Qed.

Lemma serve_wf rs sv :
  wf (storage sv) = true -> wf (storage (serve rs sv)) = true.
Proof.
  revert sv. induction rs as [|r rs IH]; intros sv H; [assumption|].
  apply IH. now apply handle_wf.
Qed.

(** The storage the constructor builds is well formed, and so is every
    storage reached from it. *)
Lemma initial_wf : wf MemStorage.initial = true.
Proof. reflexivity. Qed.

Corollary reachable_wf rs :
  wf (storage (serve rs (mkServer MemStorage.initial []))) = true.
Proof. apply serve_wf, initial_wf. Qed.

End WellFormed.

(** ** The payroll status machine *)

Section StatusMachine.

Lemma status_is_true s v : status_is s v = true <-> s = Some v.
Proof.
  destruct s as [x|]; simpl; [|split; discriminate].
  destruct x, v; simpl; split; congruence.
Qed.

Lemma afterAudit_payrolls env i sv :
  MemStorage.payrolls (storage (afterAudit env i sv))
  = MemStorage.payrolls (storage sv).
Proof. unfold afterAudit. now destruct (auditAvailable env). Qed.

Lemma afterAudit_getPayroll env i sv id :
  MemStorage.getPayroll (storage (afterAudit env i sv)) id
  = MemStorage.getPayroll (storage sv) id.
Proof. unfold MemStorage.getPayroll. now rewrite afterAudit_payrolls. Qed.

(** [updatePayroll] changes the row it is given and no other. *)
Lemma updatePayroll_get st id0 d id p :
  MemStorage.getPayroll st id = Some p ->
  MemStorage.getPayroll (fst (MemStorage.updatePayroll st id0 d)) id
  = Some (if id0 =? id then Payroll.merge p d else p).
Proof.
  intros G. unfold MemStorage.updatePayroll.
  destruct (id0 =? id) eqn:E.
  - apply Z.eqb_eq in E; subst id0. rewrite G. simpl.
    unfold MemStorage.getPayroll. simpl. apply get_set_same.
  - apply Z.eqb_neq in E.
    destruct (MemStorage.getPayroll st id0) as [q|]; simpl; [|assumption].
    unfold MemStorage.getPayroll in *. simpl. now rewrite get_set_other.
Qed.

Lemma afterRetire_payrolls env d st :
  MemStorage.payrolls (afterRetire env d st) = MemStorage.payrolls st.
Proof.
  unfold afterRetire. destruct (SalaryStructure.i_status d) as [[|]|]; auto.
  destruct (MemStorage.getCurrentSalaryStructure st _ _) as [c|]; auto.
  unfold MemStorage.updateSalaryStructure.
  now destruct (MemStorage.getSalaryStructure st _).
Qed.

Lemma merge_totalsData_status p q items :
  Payroll.status (Payroll.merge p (totalsData q items)) = Payroll.status p.
Proof. unfold totalsData. now destruct (sumItems items). Qed.

(** One request moves the status of a stored payroll by at most one
    state forward, and never removes the payroll. *)
Lemma handle_status_step r sv id p :
  wf (storage sv) = true ->
  MemStorage.getPayroll (storage sv) id = Some p ->
  exists p',
    MemStorage.getPayroll (storage (fst (handle r sv))) id = Some p'
    /\ status_step (Payroll.status p) (Payroll.status p').
Proof.
  intros Hwf G.
  assert (Hsame : exists p', MemStorage.getPayroll (storage sv) id = Some p'
                             /\ status_step (Payroll.status p) (Payroll.status p'))
    by (exists p; split; [assumption | now left]).
  unfold handle. destruct (req_route r); cbn [fst].
  - assumption.
  - now rewrite getCurrentSalaryRoute_state.
  - rewrite postSalaryStructure_run.
    destruct (roleCheck _); [assumption|].
    destruct (insertSalaryStructureSchema_parse body) as [d|]; [|assumption].
    destruct (MemStorage.getEmployee _ _); [|assumption].
    cbn [MemStorage.createSalaryStructure fst].
    rewrite afterAudit_getPayroll. unfold MemStorage.getPayroll in *.
    cbn [storage MemStorage.payrolls]. now rewrite afterRetire_payrolls.
  - rewrite putSalaryStructure_run.
    destruct (roleCheck _); [assumption|].
    destruct body as [d|]; [|assumption].
    destruct (MemStorage.getSalaryStructure _ _) as [s|] eqn:Gs; [|assumption].
    unfold MemStorage.updateSalaryStructure. rewrite Gs. cbn [fst].
    now rewrite afterAudit_getPayroll.
  - now rewrite getPayrollRoute_state.
  - rewrite postPayroll_run.
    destruct (roleCheck _); [assumption|].
    destruct (insertPayrollSchema_parse body) as [d|]; [|assumption].
    destruct (MemStorage.getEmployee _ _); [|assumption].
    cbn [MemStorage.createPayroll fst].
    rewrite afterAudit_getPayroll. unfold MemStorage.getPayroll in *.
    cbn [storage MemStorage.payrolls].
    apply wf_spec in Hwf. destruct Hwf as (H1 & _).
    apply ascending_below_fresh in H1.
    rewrite get_set_other; [assumption|].
    intros E. apply H1. rewrite E. eapply get_Some_keys; eauto.
  - rewrite approve_run.
    destruct (roleCheck _) as [|u]; [assumption|].
    destruct (MemStorage.getPayroll _ id0) as [q|] eqn:Gq; [|assumption].
    destruct (status_is _ _) eqn:Hs; [|assumption].
    destruct (MemStorage.updatePayroll _ id0 _) as [st' upd] eqn:E.
    cbn [fst]. rewrite afterAudit_getPayroll. cbn [storage].
    change st' with (fst (st', upd)). rewrite <- E.
    rewrite (updatePayroll_get _ _ _ _ _ G).
    eexists; split; [reflexivity|].
    destruct (id0 =? id) eqn:Eid; [|now left].
    apply Z.eqb_eq in Eid; subst id0.
    rewrite G in Gq. injection Gq as <-. apply status_is_true in Hs.
    right; left. now rewrite Hs.
  - rewrite markPaid_run.
    destruct (roleCheck _) as [|u]; [assumption|].
    destruct (MemStorage.getPayroll _ id0) as [q|] eqn:Gq; [|assumption].
    destruct (status_is _ _) eqn:Hs; [|assumption].
    destruct (MemStorage.updatePayroll _ id0 _) as [st' upd] eqn:E.
    cbn [fst]. rewrite afterAudit_getPayroll. cbn [storage].
    change st' with (fst (st', upd)). rewrite <- E.
    rewrite (updatePayroll_get _ _ _ _ _ G).
    eexists; split; [reflexivity|].
    destruct (id0 =? id) eqn:Eid; [|now left].
    apply Z.eqb_eq in Eid; subst id0.
    rewrite G in Gq. injection Gq as <-. apply status_is_true in Hs.
    right; right. now rewrite Hs.
  - rewrite addItem_run.
    destruct (roleCheck _) as [|u]; [assumption|].
    destruct (insertPayrollItemSchema_parse body) as [d|]; [|assumption].
    destruct (MemStorage.getPayroll (storage sv) (PayrollItem.i_payrollId d))
      as [q|] eqn:Gq; [|assumption].
    destruct (status_is _ _); [|assumption].
    cbn [MemStorage.createPayrollItem fst storage].
    erewrite updatePayroll_get by exact G.
    eexists; split; [reflexivity|].
    destruct (Payroll.id q =? id); [|now left].
    left. now rewrite merge_totalsData_status.
Qed.

Lemma status_step_forward a b : status_step a b -> status_forward a b.
Proof.
  intros [H|[[-> ->]|[-> ->]]]; [now left| |];
    right; do 2 eexists; repeat split; simpl; lia.
Qed.

Lemma status_forward_trans a b c :
  status_forward a b -> status_forward b c -> status_forward a c.
Proof.
  intros [->|(x & y & -> & -> & Hxy)]; [auto|].
  intros [<-|(y' & z & [= <-] & -> & Hyz)].
  - right. eauto.
  - right. exists x, z. repeat split. lia.
Qed.

Lemma serve_snoc rs r sv : serve (rs ++ [r]) sv = fst (handle r (serve rs sv)).
Proof. unfold serve. now rewrite fold_left_app. Qed.

Lemma serve_app rs1 rs2 sv : serve (rs1 ++ rs2) sv = serve rs2 (serve rs1 sv).
Proof. unfold serve. now rewrite fold_left_app. Qed.

Lemma serve_status_forward rs sv id p :
  wf (storage sv) = true ->
  MemStorage.getPayroll (storage sv) id = Some p ->
  exists p',
    MemStorage.getPayroll (storage (serve rs sv)) id = Some p'
    /\ status_forward (Payroll.status p) (Payroll.status p').
Proof.
  revert sv p. induction rs as [|r rs IH]; intros sv p Hwf G.
  - exists p. split; [assumption | now left].
  - destruct (handle_status_step r sv id p Hwf G) as (p1 & G1 & S1).
    destruct (IH _ p1 (handle_wf r sv Hwf) G1) as (p' & G' & F').
    exists p'. split; [assumption|].
    eapply status_forward_trans; [apply status_step_forward|]; eassumption.
Qed.

(** C1.  For an authorised actor and a stored payroll, [approve]
    answers 200 exactly when the status is draft, and then stores
    approved; on approved or paid it answers 400 and leaves the server as
    it is.  [markPaid] answers 200 exactly when the status is approved,
    and then stores paid; on draft or paid it answers 400 and leaves the
    server as it is.  Along every sequence of requests the payroll stays
    stored, each request moves its status by at most one state forward,
    and a later status is never an earlier state. *)
Theorem payroll_status_machine sv id p :
  wf (storage sv) = true ->
  MemStorage.getPayroll (storage sv) id = Some p ->
  (forall env u, isAdminOrHRManager u ->
     (code (snd (respond (approve env (Some u) id) sv)) = 200
      <-> Payroll.status p = Some draft)
     /\ (Payroll.status p = Some draft ->
         exists p',
           MemStorage.getPayroll
             (storage (fst (respond (approve env (Some u) id) sv))) id = Some p'
           /\ Payroll.status p' = Some approved)
     /\ (Payroll.status p = Some approved \/ Payroll.status p = Some paid ->
         respond (approve env (Some u) id) sv
         = (sv, Resp 400 (JMessage "Payroll is already approved or paid"))))
  /\ (forall env u, isAdminOrHRManager u ->
        (code (snd (respond (markPaid env (Some u) id) sv)) = 200
         <-> Payroll.status p = Some approved)
        /\ (Payroll.status p = Some approved ->
            exists p',
              MemStorage.getPayroll
                (storage (fst (respond (markPaid env (Some u) id) sv))) id = Some p'
              /\ Payroll.status p' = Some paid)
        /\ (Payroll.status p = Some draft \/ Payroll.status p = Some paid ->
            respond (markPaid env (Some u) id) sv
            = (sv, Resp 400
                     (JMessage "Payroll must be approved before marking as paid"))))
  /\ (forall rs r,
        exists p1 p2,
          MemStorage.getPayroll (storage (serve rs sv)) id = Some p1
          /\ MemStorage.getPayroll (storage (serve (rs ++ [r]) sv)) id = Some p2
          /\ status_step (Payroll.status p1) (Payroll.status p2))
  /\ (forall rs1 rs2,
        exists p1 p2,
          MemStorage.getPayroll (storage (serve rs1 sv)) id = Some p1
          /\ MemStorage.getPayroll (storage (serve (rs1 ++ rs2) sv)) id = Some p2
          /\ status_forward (Payroll.status p1) (Payroll.status p2)).
Proof.
  intros Hwf G. split; [|split; [|split]].
  - intros env u Hu. rewrite approve_run, (roleCheck_authorized u Hu), G.
    destruct (status_is (Payroll.status p) draft) eqn:Hs.
    + apply status_is_true in Hs.
      destruct (MemStorage.updatePayroll _ id _) as [st' upd] eqn:E.
      cbn [fst snd code]. repeat split; auto.
      * intros _. rewrite afterAudit_getPayroll. cbn [storage].
        change st' with (fst (st', upd)). rewrite <- E.
        rewrite (updatePayroll_get _ _ _ _ _ G), Z.eqb_refl.
        eexists; split; reflexivity.
      * rewrite Hs. intros [?|?]; discriminate.
    + cbn [fst snd code]. repeat split; auto; try discriminate.
      * intros Hd. apply status_is_true in Hd. congruence.
      * intros Hd. apply status_is_true in Hd. congruence.
  - intros env u Hu. rewrite markPaid_run, (roleCheck_authorized u Hu), G.
    destruct (status_is (Payroll.status p) approved) eqn:Hs.
    + apply status_is_true in Hs.
      destruct (MemStorage.updatePayroll _ id _) as [st' upd] eqn:E.
      cbn [fst snd code]. repeat split; auto.
      * intros _. rewrite afterAudit_getPayroll. cbn [storage].
        change st' with (fst (st', upd)). rewrite <- E.
        rewrite (updatePayroll_get _ _ _ _ _ G), Z.eqb_refl.
        eexists; split; reflexivity.
      * rewrite Hs. intros [?|?]; discriminate.
    + cbn [fst snd code]. repeat split; auto; try discriminate.
      * intros Hd. apply status_is_true in Hd. congruence.
      * intros Hd. apply status_is_true in Hd. congruence.
  - intros rs r.
    destruct (serve_status_forward rs sv id p Hwf G) as (p1 & G1 & _).
    destruct (handle_status_step r (serve rs sv) id p1 (serve_wf rs sv Hwf) G1)
      as (p2 & G2 & S).
    exists p1, p2. rewrite serve_snoc. auto.
  - intros rs1 rs2.
    destruct (serve_status_forward rs1 sv id p Hwf G) as (p1 & G1 & _).
    destruct (serve_status_forward rs2 (serve rs1 sv) id p1 (serve_wf rs1 sv Hwf) G1)
      as (p2 & G2 & F).
    exists p1, p2. rewrite serve_app. auto.
Qed.

End StatusMachine.

Lemma payroll_status_machine_witness :
  code (snd (respond (approve sample_env (Some sample_admin) 1) sample_server)) = 200
  <-> Payroll.status sample_payroll = Some draft.
Proof.
  apply (payroll_status_machine sample_server 1 sample_payroll eq_refl eq_refl).
  left. reflexivity.
Defined.

(** The walk-through: the create is refused, the schema wanting a
    [Date] for [processDate]; on the stored draft the answers are 201,
    201, 200, 400, 200, 400, and the payroll ends paid with totals 500
    and 200 and a net salary of 5300, approved by user 1. *)
Example walkthrough :
  map code (responses sample_walkthrough sample_server)
  = [400; 201; 201; 200; 400; 200; 400]
  /\ MemStorage.getPayroll (storage (serve sample_walkthrough sample_server)) 1
     = Some (Payroll.mk 1 1 "2024-01-01" "2024-01-31" 1706745600000
               5000%float 500%float 200%float 5300%float (Some paid) (Some 1)
               (Some 1706745600000)).
Proof. split; vm_compute; reflexivity. Qed.

(** C10.  A successful [markPaid] on an approved payroll stores the same
    row with [status] set to paid: every other field, the approval
    metadata included, is the one the payroll had. *)
Theorem markPaid_changes_only_status env u sv id p :
  isAdminOrHRManager u ->
  MemStorage.getPayroll (storage sv) id = Some p ->
  Payroll.status p = Some approved ->
  exists p',
    snd (respond (markPaid env (Some u) id) sv) = Resp 200 (JPayroll (Some p'))
    /\ MemStorage.getPayroll
         (storage (fst (respond (markPaid env (Some u) id) sv))) id = Some p'
    /\ Payroll.status p' = Some paid
    /\ Payroll.id p' = Payroll.id p
    /\ Payroll.employeeId p' = Payroll.employeeId p
    /\ Payroll.payPeriodStart p' = Payroll.payPeriodStart p
    /\ Payroll.payPeriodEnd p' = Payroll.payPeriodEnd p
    /\ Payroll.processDate p' = Payroll.processDate p
    /\ Payroll.basicSalary p' = Payroll.basicSalary p
    /\ Payroll.totalEarnings p' = Payroll.totalEarnings p
    /\ Payroll.totalDeductions p' = Payroll.totalDeductions p
    /\ Payroll.netSalary p' = Payroll.netSalary p
    /\ Payroll.approvedBy p' = Payroll.approvedBy p
    /\ Payroll.approvalDate p' = Payroll.approvalDate p.
Proof.
  intros Hu G Hs.
  exists (Payroll.merge p paidData).
  rewrite markPaid_run, (roleCheck_authorized u Hu), G.
  rewrite (proj2 (status_is_true _ _) Hs).
  unfold MemStorage.updatePayroll. rewrite G. cbn [fst snd].
  rewrite afterAudit_getPayroll. unfold MemStorage.getPayroll.
  cbn [storage MemStorage.payrolls]. rewrite get_set_same.
  repeat split.
Qed.

Lemma markPaid_changes_only_status_witness :
  exists p',
    snd (respond (markPaid sample_env (Some sample_admin) 1)
           (fst (respond (approve sample_env (Some sample_admin) 1) sample_server)))
    = Resp 200 (JPayroll (Some p'))
    /\ Payroll.approvedBy p' = Some 1
    /\ Payroll.approvalDate p' = Some 1706745600000.
Proof.
  destruct (markPaid_changes_only_status sample_env sample_admin
              (fst (respond (approve sample_env (Some sample_admin) 1) sample_server))
              1
              (Payroll.merge sample_payroll (approveData sample_env sample_admin))
              (or_introl eq_refl) eq_refl eq_refl)
    as (p' & Hr & _ & _ & _ & _ & _ & _ & _ & _ & _ & _ & _ & Hby & Hdate).
  exists p'. split; [exact Hr|]. split; [exact Hby | exact Hdate].
Defined.

(** ** The role check *)

Lemma userRoleLevel_is_rank r : roleHierarchy_get (Role_name r) = JsNumber (rank r).
Proof. now destruct r. Qed.

(** For the four roles the answer is the comparison of ranks. *)
Lemma check_role_known u r :
  check_role (Some u) (Some (Role_name r))
  = Resp 200 (JHasAccess (rank r <=? rank (User.role u))).
Proof.
  unfold check_role, property_key. rewrite !userRoleLevel_is_rank.
  now destruct r.
Qed.

(** A key that is neither a role nor inherited is refused. *)
Lemma check_role_unknown u key :
  assoc roleHierarchy key = None ->
  assoc Object_prototype key = None ->
  check_role (Some u) (Some key) = Resp 400 (JMessage "Invalid role").
Proof.
  intros H1 H2. unfold check_role, property_key, roleHierarchy_get.
  now rewrite H1, H2.
Qed.

(** C6.  Asked for the role [constructor], or any other property an
    object inherits, the role check answers 200 with [hasAccess: false]
    for every authenticated user: a boolean, not the error the unknown
    role calls for. *)
Theorem check_role_inherited_key :
  Forall
    (fun key =>
       forall u, check_role (Some u) (Some key) = Resp 200 (JHasAccess false))
    (map fst Object_prototype).
Proof.
  repeat constructor; intros [i n r]; unfold check_role; cbn [User.role];
    rewrite userRoleLevel_is_rank; reflexivity.
Qed.

(** ** Adding an item *)

Lemma addItem_not_draft u body d sv p :
  isAdminOrHRManager u ->
  insertPayrollItemSchema_parse body = Some d ->
  MemStorage.getPayroll (storage sv) (PayrollItem.i_payrollId d) = Some p ->
  Payroll.status p <> Some draft ->
  respond (addItem (Some u) body) sv
  = (sv, Resp 400 (JMessage "Cannot modify items for approved or paid payroll")).
Proof.
  intros Hu Hp G Hs. rewrite addItem_run, (roleCheck_authorized u Hu), Hp, G.
  destruct (status_is (Payroll.status p) draft) eqn:E; [|reflexivity].
  apply status_is_true in E. contradiction.
Qed.

Lemma addItem_rejected_body u body sv :
  isAdminOrHRManager u ->
  insertPayrollItemSchema_parse body = None ->
  respond (addItem (Some u) body) sv = (sv, Resp 400 JZodErrors).
Proof. intros Hu Hp. now rewrite addItem_run, (roleCheck_authorized u Hu), Hp. Qed.

(** C3.  An item with an empty name and an amount of -5 passes the
    insert schema; on the draft sample payroll the route answers 201,
    stores the item and recomputes the totals to -5, 0 and 4995. *)
Theorem addItem_accepts_negative_amount_and_empty_name :
  respond (addItem (Some sample_admin) sample_bad_item) sample_server
  = (mkServer
       (MemStorage.mk [(1, sample_employee)] []
          [(1, Payroll.mk 1 1 "2024-01-01" "2024-01-31" 1706745600000
                 5000%float (-5)%float 0%float 4995%float (Some draft) None None)]
          [(1, PayrollItem.mk 1 1 earning "" (-5)%float None)]
          [] 1 2 2 1)
       [],
     Resp 201 (JPayrollItem (PayrollItem.mk 1 1 earning "" (-5)%float None))).
Proof. vm_compute. reflexivity. Qed.

(** ** Creating a payroll *)


(** No JSON body passes [insertPayrollSchema]. *)
Lemma insertPayrollSchema_parse_refuses body : insertPayrollSchema_parse body = None.
Proof.
  unfold insertPayrollSchema_parse, zod_date.
  now destruct (Body.p_employeeId body), (Body.p_payPeriodStart body),
    (Body.p_payPeriodEnd body), (Body.p_processDate body).
Qed.


(** ** Audit failures *)

Section AuditFailure.

Variable t : Z.

Local Abbreviation up := (mkEnv t true).
Local Abbreviation down := (mkEnv t false).


Lemma updatePayroll_audit st id d :
  audit_of (fst (MemStorage.updatePayroll st id d)) = audit_of st.
Proof.
  unfold MemStorage.updatePayroll. now destruct (MemStorage.getPayroll st id).
Qed.

Lemma updateSalaryStructure_audit st id d :
  audit_of (fst (MemStorage.updateSalaryStructure st id d)) = audit_of st.
Proof.
  unfold MemStorage.updateSalaryStructure.
  now destruct (MemStorage.getSalaryStructure st id).
Qed.

Lemma afterRetire_audit env d st : audit_of (afterRetire env d st) = audit_of st.
Proof.
  unfold afterRetire. destruct (SalaryStructure.i_status d) as [[|]|]; auto.
  destruct (MemStorage.getCurrentSalaryStructure st _ _); auto.
  apply updateSalaryStructure_audit.
Qed.

Lemma afterRetire_counter env d st :
  MemStorage.salaryStructureCurrentId (afterRetire env d st)
  = MemStorage.salaryStructureCurrentId st.
Proof.
  unfold afterRetire. destruct (SalaryStructure.i_status d) as [[|]|]; auto.
  destruct (MemStorage.getCurrentSalaryStructure st _ _); auto.
  unfold MemStorage.updateSalaryStructure.
  now destruct (MemStorage.getSalaryStructure st _).
Qed.




End AuditFailure.

(** With the audit storage down, [approve] on the draft sample payroll
    still answers 200 and stores the approval; the console holds the
    failure and the audit log stays empty. *)
Example approve_with_audit_down :
  respond (approve (mkEnv 1706745600000 false) (Some sample_admin) 1) sample_server
  = (mkServer
       (MemStorage.mk [(1, sample_employee)] []
          [(1, Payroll.mk 1 1 "2024-01-01" "2024-01-31" 1706745600000
                 5000%float 0%float 0%float 5000%float (Some approved) (Some 1)
                 (Some 1706745600000))]
          [] [] 1 2 1 1)
       ["Failed to create audit log:"],
     Resp 200
       (JPayroll
          (Some (Payroll.mk 1 1 "2024-01-01" "2024-01-31" 1706745600000
                   5000%float 0%float 0%float 5000%float (Some approved) (Some 1)
                   (Some 1706745600000))))).
Proof. reflexivity. Qed.

(** ** Totals *)

Section Totals.

Lemma sumItems_from (items : list PayrollItem.t) (a b : float) :
  fold_left
    (fun (acc : float * float) item =>
       let (totalEarnings, totalDeductions) := acc in
       match PayrollItem.itemType item with
       | earning => (PrimFloat.add totalEarnings (PayrollItem.amount item),
                     totalDeductions)
       | deduction => (totalEarnings,
                       PrimFloat.add totalDeductions (PayrollItem.amount item))
       end)
    items (a, b)
  = (fold_left PrimFloat.add (amounts_of earning items) a,
     fold_left PrimFloat.add (amounts_of deduction items) b).
Proof.
  revert a b. induction items as [|it items IH]; intros a b; [reflexivity|].
  cbn [fold_left]. unfold amounts_of in *. cbn [filter].
  destruct (PayrollItem.itemType it); cbn [ItemType_eqb map fold_left]; apply IH.
Qed.

(** The loop of the route computes the two sums by type. *)
Lemma sumItems_total items :
  sumItems items = (total earning items, total deduction items).
Proof. apply sumItems_from. Qed.

Lemma merge_totalsData p q items :
  Payroll.merge p (totalsData q items)
  = Payroll.mk (Payroll.id p) (Payroll.employeeId p) (Payroll.payPeriodStart p)
      (Payroll.payPeriodEnd p) (Payroll.processDate p) (Payroll.basicSalary p)
      (total earning items) (total deduction items)
      (PrimFloat.sub (PrimFloat.add (Payroll.basicSalary q) (total earning items))
                     (total deduction items))
      (Payroll.status p) (Payroll.approvedBy p) (Payroll.approvalDate p).
Proof. unfold totalsData. now rewrite sumItems_total. Qed.

Lemma updatePayroll_items st id d x :
  MemStorage.getPayrollItemsByPayroll (fst (MemStorage.updatePayroll st id d)) x
  = MemStorage.getPayrollItemsByPayroll st x.
Proof.
  unfold MemStorage.updatePayroll. now destruct (MemStorage.getPayroll st id).
Qed.

Lemma createPayrollItem_items st d x :
  wf st = true ->
  MemStorage.getPayrollItemsByPayroll (fst (MemStorage.createPayrollItem st d)) x
  = (MemStorage.getPayrollItemsByPayroll st x
     ++ (if PayrollItem.i_payrollId d =? x
         then [PayrollItem.of_insert d (MemStorage.payrollItemCurrentId st)]
         else []))%list.
Proof.
  intros Hwf. apply wf_spec in Hwf. destruct Hwf as (_ & _ & H3 & _).
  unfold MemStorage.getPayrollItemsByPayroll, JsMap.values.
  cbn [MemStorage.createPayrollItem fst MemStorage.payrollItems].
  rewrite set_absent by now apply ascending_below_fresh.
  rewrite map_app, filter_app. reflexivity.
Qed.

(** What [addItem] leaves in the storage. *)
Lemma afterAddItem_items st d p x :
  wf st = true ->
  MemStorage.getPayrollItemsByPayroll (afterAddItem st d p) x
  = (MemStorage.getPayrollItemsByPayroll st x
     ++ (if PayrollItem.i_payrollId d =? x
         then [PayrollItem.of_insert d (MemStorage.payrollItemCurrentId st)]
         else []))%list.
Proof.
  intros Hwf. unfold afterAddItem.
  now rewrite updatePayroll_items, createPayrollItem_items.
Qed.

Lemma afterAddItem_payroll st d p x q :
  wf st = true ->
  MemStorage.getPayroll st (PayrollItem.i_payrollId d) = Some p ->
  MemStorage.getPayroll st x = Some q ->
  MemStorage.getPayroll (afterAddItem st d p) x
  = Some (if PayrollItem.i_payrollId d =? x
          then Payroll.merge p
                 (totalsData p
                    (MemStorage.getPayrollItemsByPayroll st x
                     ++ [PayrollItem.of_insert d (MemStorage.payrollItemCurrentId st)]))
          else q).
Proof.
  intros Hwf Gp Gq.
  assert (Hid : Payroll.id p = PayrollItem.i_payrollId d).
  { apply wf_spec in Hwf. destruct Hwf as (_ & H2 & _).
    apply H2. now apply get_In. }
  unfold afterAddItem. rewrite Hid.
  erewrite updatePayroll_get
    by (unfold MemStorage.getPayroll in *; cbn [MemStorage.createPayrollItem fst
          MemStorage.payrolls]; exact Gq).
  destruct (PayrollItem.i_payrollId d =? x) eqn:E; [|reflexivity].
  apply Z.eqb_eq in E. subst x. rewrite Gp in Gq. injection Gq as <-.
  now rewrite createPayrollItem_items, Z.eqb_refl.
Qed.

Lemma afterAddItem_wf st d p :
  wf st = true ->
  MemStorage.getPayroll st (PayrollItem.i_payrollId d) = Some p ->
  wf (afterAddItem st d p) = true.
Proof.
  intros Hwf G. unfold afterAddItem.
  apply updatePayroll_wf, createPayrollItem_wf; [assumption|].
  eapply get_Some_keys; eauto.
Qed.

(** The route, when it goes through. *)
Lemma addItem_success u body d p sv :
  roleCheck (Some u) = inr u ->
  insertPayrollItemSchema_parse body = Some d ->
  MemStorage.getPayroll (storage sv) (PayrollItem.i_payrollId d) = Some p ->
  Payroll.status p = Some draft ->
  respond (addItem (Some u) body) sv
  = (mkServer (afterAddItem (storage sv) d p) (console sv),
     Resp 201
       (JPayrollItem
          (PayrollItem.of_insert d (MemStorage.payrollItemCurrentId (storage sv))))).
Proof.
  intros Hg Hp G Hs. rewrite addItem_run, Hg, Hp, G.
  now rewrite (proj2 (status_is_true _ _) Hs).
Qed.


End Totals.

(** ** The totals along a sequence of requests *)

Section TotalsInvariant.


Lemma afterAudit_payrollItems env i sv :
  MemStorage.payrollItems (storage (afterAudit env i sv))
  = MemStorage.payrollItems (storage sv).
Proof. unfold afterAudit. now destruct (auditAvailable env). Qed.

Lemma afterRetire_payrollItems env d st :
  MemStorage.payrollItems (afterRetire env d st) = MemStorage.payrollItems st.
Proof.
  unfold afterRetire. destruct (SalaryStructure.i_status d) as [[|]|]; auto.
  destruct (MemStorage.getCurrentSalaryStructure st _ _) as [c|]; auto.
  unfold MemStorage.updateSalaryStructure.
  now destruct (MemStorage.getSalaryStructure st _).
Qed.








End TotalsInvariant.




(** ** Insertion order *)

Section InsertionOrder.

Lemma parse_itemBody i : insertPayrollItemSchema_parse (itemBody i) = Some i.
Proof. now destruct i. Qed.

Lemma amounts_of_app ty l1 l2 :
  amounts_of ty (l1 ++ l2) = (amounts_of ty l1 ++ amounts_of ty l2)%list.
Proof. unfold amounts_of. now rewrite filter_app, map_app. Qed.

Lemma new_amounts_nil l :
  new_amounts earning l = [] -> new_amounts deduction l = [] -> l = [].
Proof.
  destruct l as [|i l]; [reflexivity|]. unfold new_amounts. cbn [filter].
  destruct (PayrollItem.i_itemType i); cbn [ItemType_eqb map]; discriminate.
Qed.

(** One [addItem] by an authorised user on a draft payroll. *)
Lemma addItem_step env u i sv p :
  wf (storage sv) = true ->
  isAdminOrHRManager u ->
  MemStorage.getPayroll (storage sv) (PayrollItem.i_payrollId i) = Some p ->
  Payroll.status p = Some draft ->
  handle (mkRequest env (Some u) (PostPayrollItem (itemBody i))) sv
  = (mkServer (afterAddItem (storage sv) i p) (console sv),
     Resp 201
       (JPayrollItem
          (PayrollItem.of_insert i (MemStorage.payrollItemCurrentId (storage sv))))).
Proof.
  intros Hwf Hu G Hs. unfold handle. cbn [req_route req_user].
  apply addItem_success; auto using roleCheck_authorized, parse_itemBody.
Qed.

(** A run of [addItem] requests on a draft payroll: all are answered
    201, the payroll stays draft with its basic salary, the amounts of
    each type grow by the new ones in request order, and, once an item
    was added, the totals are the sums over the items. *)
Lemma addItems_effect env u items :
  forall sv p pid,
    wf (storage sv) = true ->
    isAdminOrHRManager u ->
    MemStorage.getPayroll (storage sv) pid = Some p ->
    Payroll.status p = Some draft ->
    Forall (fun i => PayrollItem.i_payrollId i = pid) items ->
    let sv' := serve (addItems env u items) sv in
    Forall (fun r => code r = 201) (responses (addItems env u items) sv)
    /\ exists p',
         MemStorage.getPayroll (storage sv') pid = Some p'
         /\ Payroll.basicSalary p' = Payroll.basicSalary p
         /\ (forall ty,
               amounts_of ty (MemStorage.getPayrollItemsByPayroll (storage sv') pid)
               = (amounts_of ty (MemStorage.getPayrollItemsByPayroll (storage sv) pid)
                  ++ new_amounts ty items)%list)
         /\ (items = [] -> p' = p)
         /\ (items <> [] ->
             Payroll.totalEarnings p'
             = total earning (MemStorage.getPayrollItemsByPayroll (storage sv') pid)
             /\ Payroll.totalDeductions p'
                = total deduction (MemStorage.getPayrollItemsByPayroll (storage sv') pid)
             /\ Payroll.netSalary p'
                = PrimFloat.sub
                    (PrimFloat.add (Payroll.basicSalary p') (Payroll.totalEarnings p'))
                    (Payroll.totalDeductions p')).
Proof.
  induction items as [|i items IH]; intros sv p pid Hwf Hu G Hs Hall; cbn zeta.
  - split; [constructor|]. exists p. cbn [addItems map serve fold_left].
    split; [assumption|]. split; [reflexivity|]. split; [|split].
    + intros ty. now rewrite app_nil_r.
    + reflexivity.
    + intros E. now contradiction E.
  - inversion Hall as [|? ? Hi Hall']; subst.
    pose proof (addItem_step env u i sv p Hwf Hu G Hs) as Hstep.
    set (new := PayrollItem.of_insert i (MemStorage.payrollItemCurrentId (storage sv)))
      in *.
    set (p1 := Payroll.merge p
                 (totalsData p
                    (MemStorage.getPayrollItemsByPayroll (storage sv) (PayrollItem.i_payrollId i) ++ [new]))).
    assert (G1 : MemStorage.getPayroll (afterAddItem (storage sv) i p) (PayrollItem.i_payrollId i) = Some p1).
    { unfold p1, new.
      rewrite (afterAddItem_payroll _ i p _ p Hwf G G). now rewrite Z.eqb_refl. }
    assert (Hwf1 : wf (afterAddItem (storage sv) i p) = true)
      by now apply afterAddItem_wf.
    assert (Hs1 : Payroll.status p1 = Some draft)
      by (unfold p1; now rewrite merge_totalsData_status).
    assert (Hitems1 :
              MemStorage.getPayrollItemsByPayroll (afterAddItem (storage sv) i p) (PayrollItem.i_payrollId i)
              = (MemStorage.getPayrollItemsByPayroll (storage sv) (PayrollItem.i_payrollId i) ++ [new])%list).
    { rewrite afterAddItem_items by assumption. now rewrite Z.eqb_refl. }
    destruct (IH (mkServer (afterAddItem (storage sv) i p) (console sv)) p1 (PayrollItem.i_payrollId i)
                Hwf1 Hu G1 Hs1 Hall') as (Hresp & p' & G' & Hb' & Ham' & Hnil' & Htot').
    cbn [addItems map serve fold_left responses] in *.
    rewrite Hstep. cbn [fst snd storage] in *.
    split; [constructor; [reflexivity | exact Hresp]|].
    exists p'. split; [exact G'|].
    assert (Hb1 : Payroll.basicSalary p1 = Payroll.basicSalary p)
      by (unfold p1; now rewrite merge_totalsData).
    split; [congruence|]. split; [|split].
    + intros ty. rewrite Ham', Hitems1, amounts_of_app, <- app_assoc. f_equal.
      unfold amounts_of, new_amounts, new. cbn [filter PayrollItem.of_insert
        PayrollItem.itemType].
      now destruct (ItemType_eqb (PayrollItem.i_itemType i) ty).
    + discriminate.
    + intros _. destruct items as [|j items'].
      * rewrite (Hnil' eq_refl) in *. cbn [map fold_left storage].
        rewrite Hitems1. unfold p1. rewrite merge_totalsData. cbn. auto.
      * apply Htot'. discriminate.
Qed.

(** C4, as stated, fails.  The earnings 0.1, 0.2, 0.3 and the same three
    in the opposite order are the same multiset; each request is answered
    201; the first order leaves total earnings 0.6000000000000001 and the
    second 0.6. *)
Lemma totals_depend_on_insertion_order :
  Permutation sample_items_up sample_items_down
  /\ Forall (fun r => code r = 201)
       (responses (addItems sample_env sample_admin sample_items_up) sample_server)
  /\ Forall (fun r => code r = 201)
       (responses (addItems sample_env sample_admin sample_items_down) sample_server)
  /\ exists p1 p2,
       MemStorage.getPayroll
         (storage (serve (addItems sample_env sample_admin sample_items_up)
                     sample_server)) 1 = Some p1
       /\ MemStorage.getPayroll
            (storage (serve (addItems sample_env sample_admin sample_items_down)
                        sample_server)) 1 = Some p2
       /\ Payroll.totalEarnings p1 = 0.6000000000000001%float
       /\ Payroll.totalEarnings p2 = 0.6%float
       /\ Payroll.totalEarnings p1 <> Payroll.totalEarnings p2.
Proof.
  split; [apply (Permutation_rev sample_items_up)|].
  split; [repeat constructor|]. split; [repeat constructor|].
  do 2 eexists. split; [vm_compute; reflexivity|]. split; [vm_compute; reflexivity|].
  split; [reflexivity|]. split; [reflexivity|].
  vm_compute. intros H. discriminate H.
Qed.

(** C4, amended.  Two runs of [addItem] requests on a draft payroll that
    bring the same earning amounts in the same relative order and the
    same deduction amounts in the same relative order, interleaved in any
    way, leave the same total earnings, total deductions and net salary.
    (Each total is added up in insertion order in binary floating point,
    so the order among items of one type is not free.) *)
Theorem totals_independent_of_interleaving env u sv pid p items1 items2 :
  wf (storage sv) = true ->
  isAdminOrHRManager u ->
  MemStorage.getPayroll (storage sv) pid = Some p ->
  Payroll.status p = Some draft ->
  Forall (fun i => PayrollItem.i_payrollId i = pid) items1 ->
  Forall (fun i => PayrollItem.i_payrollId i = pid) items2 ->
  new_amounts earning items1 = new_amounts earning items2 ->
  new_amounts deduction items1 = new_amounts deduction items2 ->
  exists p1 p2,
    MemStorage.getPayroll (storage (serve (addItems env u items1) sv)) pid = Some p1
    /\ MemStorage.getPayroll (storage (serve (addItems env u items2) sv)) pid = Some p2
    /\ Payroll.totalEarnings p1 = Payroll.totalEarnings p2
    /\ Payroll.totalDeductions p1 = Payroll.totalDeductions p2
    /\ Payroll.netSalary p1 = Payroll.netSalary p2.
Proof.
  intros Hwf Hu G Hs H1 H2 He Hd.
  destruct (addItems_effect env u items1 sv p pid Hwf Hu G Hs H1)
    as (_ & p1 & G1 & B1 & A1 & N1 & T1).
  destruct (addItems_effect env u items2 sv p pid Hwf Hu G Hs H2)
    as (_ & p2 & G2 & B2 & A2 & N2 & T2).
  exists p1, p2. split; [assumption|]. split; [assumption|].
  destruct items1 as [|i1 l1].
  - assert (items2 = []) as -> by (apply new_amounts_nil; symmetry; assumption).
    rewrite (N1 eq_refl), (N2 eq_refl). auto.
  - assert (Hne2 : items2 <> []).
    { intros ->.
      pose proof (new_amounts_nil (i1 :: l1) He Hd) as E. discriminate E. }
    destruct (T1 ltac:(discriminate)) as (E1 & D1 & Net1).
    destruct (T2 Hne2) as (E2 & D2 & Net2).
    assert (HE : Payroll.totalEarnings p1 = Payroll.totalEarnings p2)
      by (rewrite E1, E2; unfold total; now rewrite A1, A2, He).
    assert (HD : Payroll.totalDeductions p1 = Payroll.totalDeductions p2)
      by (rewrite D1, D2; unfold total; now rewrite A1, A2, Hd).
    repeat split; auto. rewrite Net1, Net2. congruence.
Qed.

End InsertionOrder.

Lemma totals_independent_of_interleaving_witness :
  exists p1 p2,
    MemStorage.getPayroll
      (storage (serve (addItems sample_env sample_admin sample_bonus_then_tax)
                  sample_server)) 1 = Some p1
    /\ MemStorage.getPayroll
         (storage (serve (addItems sample_env sample_admin sample_tax_then_bonus)
                     sample_server)) 1 = Some p2
    /\ Payroll.totalEarnings p1 = Payroll.totalEarnings p2
    /\ Payroll.totalDeductions p1 = Payroll.totalDeductions p2
    /\ Payroll.netSalary p1 = Payroll.netSalary p2.
Proof.
  apply (totals_independent_of_interleaving sample_env sample_admin sample_server
           1 sample_payroll sample_bonus_then_tax sample_tax_then_bonus
           eq_refl (or_introl eq_refl) eq_refl eq_refl).
  - repeat constructor.
  - repeat constructor.
  - reflexivity.
  - reflexivity.
Defined.

(** ** The current salary structure *)

Section CurrentStructure.

Lemma isCurrent_qualifies e asOf s :
  MemStorage.isCurrent e asOf s = true <-> qualifies e asOf s.
Proof.
  unfold MemStorage.isCurrent, qualifies, date_le_now, date_ge_now.
  rewrite !andb_true_iff, Z.eqb_eq.
  destruct (SalaryStructure.status s) as [[|]|],
           (SalaryStructure.effectiveFrom s) as [from|],
           (SalaryStructure.effectiveTo s) as [[to|]|];
    rewrite ?Z.leb_le; split;
    try (intros [[[? ?] ?] ?]; try discriminate; repeat split; eauto; fail);
    try (intros (? & ? & (? & ? & ?) & [?|(? & ? & ?)]);
         try discriminate; repeat split; auto; congruence).
Qed.

Lemma isCurrent_fromTime e asOf s :
  MemStorage.isCurrent e asOf s = true ->
  SalaryStructure.effectiveFrom s = Some (fromTime s).
Proof.
  intros H. apply isCurrent_qualifies in H.
  destruct H as (_ & _ & (from & Hf & _) & _). unfold fromTime. now rewrite Hf.
Qed.

Lemma byEffectiveFromDesc_current e asOf x y :
  MemStorage.isCurrent e asOf x = true ->
  MemStorage.isCurrent e asOf y = true ->
  MemStorage.byEffectiveFromDesc x y = fromTime y - fromTime x.
Proof.
  intros Hx Hy. unfold MemStorage.byEffectiveFromDesc.
  now rewrite (isCurrent_fromTime _ _ _ Hx), (isCurrent_fromTime _ _ _ Hy).
Qed.

(** The first element after sorting one more element in. *)
Lemma hd_sort_insert {A} (cmp : A -> A -> Z) x l :
  hd_error (sort_insert cmp x l)
  = match hd_error l with
    | None => Some x
    | Some y => if cmp x y <=? 0 then Some x else Some y
    end.
Proof. destruct l as [|y l]; [reflexivity|]. simpl. now destruct (cmp x y <=? 0). Qed.

(** The keys of a well-formed map of salary structures are the ids of its
    rows, in growing order. *)
Lemma wf_ascending_ids st :
  wf st = true -> ascending_ids (JsMap.values (MemStorage.salaryStructures st)).
Proof.
  intros Hwf. apply wf_spec in Hwf. destruct Hwf as (_ & _ & _ & _ & H5 & H6).
  revert H5 H6. generalize (MemStorage.salaryStructureCurrentId st).
  induction (MemStorage.salaryStructures st) as [|[k s] m IH]; intros n H5 H6;
    [exact I|].
  cbn in H5. rewrite !andb_true_iff in H5. destruct H5 as [[_ Hk] Hm].
  cbn [JsMap.values map snd ascending_ids]. split.
  - rewrite forallb_forall in Hk. apply Forall_forall. intros s' Hin.
    unfold JsMap.values in Hin. apply in_map_iff in Hin as ([k' s0] & E & Hin).
    cbn in E. subst s0.
    rewrite (H6 k s (or_introl eq_refl)), (H6 k' s' (or_intror Hin)).
    apply Z.ltb_lt, Hk. now apply (in_map fst) in Hin.
  - apply (IH n); [assumption|]. intros k' s' Hin. apply H6. now right.
Qed.

(** What the filter, the sort and the [[0]] select from rows in id order. *)
Lemma select_current e asOf l :
  ascending_ids l ->
  match hd_error (js_sort MemStorage.byEffectiveFromDesc
                    (filter (MemStorage.isCurrent e asOf) l)) with
  | None => forall s, In s l -> MemStorage.isCurrent e asOf s = false
  | Some s =>
      In s l /\ MemStorage.isCurrent e asOf s = true
      /\ forall s', In s' l -> MemStorage.isCurrent e asOf s' = true ->
           fromTime s' < fromTime s
           \/ (fromTime s' = fromTime s /\ SalaryStructure.id s <= SalaryStructure.id s')
  end.
Proof.
  induction l as [|x l IH]; intros Hasc; [now intros s []|].
  destruct Hasc as [Hx Hasc]. specialize (IH Hasc). cbn [filter].
  rewrite Forall_forall in Hx.
  destruct (MemStorage.isCurrent e asOf x) eqn:Fx.
  - cbn [js_sort fold_right]. fold (js_sort MemStorage.byEffectiveFromDesc
                                       (filter (MemStorage.isCurrent e asOf) l)).
    rewrite hd_sort_insert.
    destruct (hd_error (js_sort MemStorage.byEffectiveFromDesc
                          (filter (MemStorage.isCurrent e asOf) l))) as [y|].
    + destruct IH as (Hy & Fy & Hbest).
      rewrite (byEffectiveFromDesc_current e asOf x y Fx Fy).
      destruct (fromTime y - fromTime x <=? 0) eqn:C.
      * apply Z.leb_le in C. split; [now left|]. split; [assumption|].
        intros s' [<-|Hin] Fs'; [right; split; lia|].
        specialize (Hx s' Hin). destruct (Hbest s' Hin Fs') as [?|[? ?]]; lia.
      * apply Z.leb_gt in C. split; [now right|]. split; [assumption|].
        intros s' [<-|Hin] Fs'; [left; lia | now apply Hbest].
    + split; [now left|]. split; [assumption|].
      intros s' [<-|Hin] Fs'; [right; split; lia|].
      rewrite (IH s' Hin) in Fs'. discriminate.
  - destruct (hd_error _) as [y|].
    + destruct IH as (Hy & Fy & Hbest). split; [now right|]. split; [assumption|].
      intros s' [<-|Hin] Fs'; [congruence | now apply Hbest].
    + intros s [<-|Hin]; auto.
Qed.

(** The structure selected is stored under its id and passes the filter. *)
Lemma selected_is_stored_and_current st e asOf s :
  wf st = true ->
  MemStorage.getCurrentSalaryStructure st e asOf = Some s ->
  MemStorage.getSalaryStructure st (SalaryStructure.id s) = Some s
  /\ MemStorage.isCurrent e asOf s = true.
Proof.
  intros Hwf G. unfold MemStorage.getCurrentSalaryStructure in G.
  pose proof (select_current e asOf _ (wf_ascending_ids st Hwf)) as H.
  rewrite G in H. destruct H as (Hs & Fs & _). split; [|assumption].
  unfold JsMap.values in Hs. apply in_map_iff in Hs as ([k s0] & E & Hs).
  cbn in E. subst s0.
  apply wf_spec in Hwf. destruct Hwf as (_ & _ & _ & _ & H5 & H6).
  rewrite (H6 k s Hs). unfold MemStorage.getSalaryStructure.
  apply In_get; [|assumption]. now apply ascending_below_NoDup in H5.
Qed.

(** The route answers 404 exactly when the storage selects nothing. *)
Lemma getCurrentSalaryRoute_response env u e emp sv :
  MemStorage.getEmployee (storage sv) e = Some emp ->
  User.role u <> employee ->
  snd (respond (getCurrentSalaryRoute env (Some u) e) sv)
  = match MemStorage.getCurrentSalaryStructure (storage sv) e (now env) with
    | None => Resp 404 (JMessage "Salary structure not found")
    | Some s => Resp 200 (JSalaryStructure (Some s))
    end.
Proof.
  intros He Hr. unfold getCurrentSalaryRoute. unfold_handler. rewrite He.
  assert (Role_eqb (User.role u) employee = false) as ->
    by (destruct (User.role u); simpl; congruence).
  cbn [andb].
  now destruct (MemStorage.getCurrentSalaryStructure (storage sv) e (now env)).
Qed.

(** C7, as stated, fails on a tie.  Structures 1 and 2 of employee 1
    were created in that order, both active from 200 on; at time 300 both
    qualify with the same latest [effectiveFrom], and the one selected is
    structure 1, the earlier created, not structure 2. *)
Lemma tie_selects_earliest_created :
  exists s1 s2,
    MemStorage.getSalaryStructure (storage sample_two_structures) 1 = Some s1
    /\ MemStorage.getSalaryStructure (storage sample_two_structures) 2 = Some s2
    /\ currentStructures (storage sample_two_structures) 1 300 = [s1; s2]
    /\ SalaryStructure.effectiveFrom s1 = SalaryStructure.effectiveFrom s2
    /\ SalaryStructure.id s1 < SalaryStructure.id s2
    /\ MemStorage.getCurrentSalaryStructure (storage sample_two_structures) 1 300
       = Some s1
    /\ MemStorage.getCurrentSalaryStructure (storage sample_two_structures) 1 300
       <> Some s2.
Proof.
  do 2 eexists. split; [reflexivity|]. split; [reflexivity|].
  split; [reflexivity|]. split; [reflexivity|]. split; [reflexivity|].
  split; [reflexivity|]. intros H. inversion H.
Qed.

(** C7, amended.  Over well-formed storage, [getCurrentSalaryStructure]
    returns nothing exactly when no stored structure qualifies; otherwise
    it returns a stored structure that qualifies, no qualifying structure
    has a later [effectiveFrom], and among those sharing its
    [effectiveFrom] it is the earliest created, the one with the lowest
    id. *)
Theorem current_structure_selection st e asOf :
  wf st = true ->
  match MemStorage.getCurrentSalaryStructure st e asOf with
  | None =>
      forall k s, MemStorage.getSalaryStructure st k = Some s -> ~ qualifies e asOf s
  | Some s =>
      MemStorage.getSalaryStructure st (SalaryStructure.id s) = Some s
      /\ qualifies e asOf s
      /\ exists from,
           SalaryStructure.effectiveFrom s = Some from
           /\ forall k s',
                MemStorage.getSalaryStructure st k = Some s' ->
                qualifies e asOf s' ->
                exists from',
                  SalaryStructure.effectiveFrom s' = Some from'
                  /\ (from' < from
                      \/ (from' = from
                          /\ SalaryStructure.id s <= SalaryStructure.id s'))
  end.
Proof.
  intros Hwf.
  pose proof (select_current e asOf _ (wf_ascending_ids st Hwf)) as H.
  assert (Hin : forall k s, MemStorage.getSalaryStructure st k = Some s ->
                            In s (JsMap.values (MemStorage.salaryStructures st))).
  { intros k s G. apply get_In in G. now apply (in_map snd) in G. }
  destruct (MemStorage.getCurrentSalaryStructure st e asOf) as [s|] eqn:G.
  - destruct (selected_is_stored_and_current st e asOf s Hwf G) as [Gs Fs].
    unfold MemStorage.getCurrentSalaryStructure in G. rewrite G in H.
    destruct H as (_ & _ & Hbest).
    split; [assumption|]. split; [now apply isCurrent_qualifies|].
    exists (fromTime s). split; [now apply (isCurrent_fromTime e asOf)|].
    intros k s' G' Q. apply isCurrent_qualifies in Q.
    exists (fromTime s'). split; [now apply (isCurrent_fromTime e asOf)|].
    apply Hbest; eauto.
  - unfold MemStorage.getCurrentSalaryStructure in G. rewrite G in H.
    intros k s G' Q. apply isCurrent_qualifies in Q.
    rewrite (H s (Hin k s G')) in Q. discriminate.
Qed.

Lemma current_structure_selection_witness :
  match MemStorage.getCurrentSalaryStructure (storage sample_two_structures) 1 300 with
  | None => False
  | Some s => SalaryStructure.id s = 1 /\ qualifies 1 300 s
  end.
Proof.
  pose proof (current_structure_selection (storage sample_two_structures) 1 300
                eq_refl) as H.
  cbn in H |- *. destruct H as (_ & Q & _). split; [reflexivity | exact Q].
Defined.

End CurrentStructure.

(** ** Superseding a salary structure *)

Section Supersede.

Lemma set_split {V} (m : JsMap.t V) k v v' :
  JsMap.get m k = Some v ->
  exists m1 m2,
    m = (m1 ++ (k, v) :: m2)%list
    /\ JsMap.set m k v' = (m1 ++ (k, v') :: m2)%list.
Proof.
  induction m as [|[k0 v0] m IH]; simpl; [discriminate|].
  destruct (k0 =? k) eqn:E.
  - apply Z.eqb_eq in E. subst k0. intros [= ->]. now exists [], m.
  - intros G. destruct (IH G) as (m1 & m2 & -> & ->).
    now exists ((k0, v0) :: m1), m2.
Qed.

Lemma retired_not_current e asOf cur d :
  MemStorage.isCurrent e asOf (SalaryStructure.merge cur (retireData d)) = false.
Proof.
  unfold MemStorage.isCurrent. cbn.
  now rewrite andb_false_r.
Qed.

Lemma filter_none {A} (f : A -> bool) l :
  (forall x, In x l -> f x = false) -> filter f l = [].
Proof.
  induction l as [|x l IH]; intros H; [reflexivity|].
  cbn [filter]. rewrite (H x (or_introl eq_refl)). apply IH.
  intros y Hin. apply H. now right.
Qed.

Lemma currentStructures_nil st e asOf :
  MemStorage.getCurrentSalaryStructure st e asOf = None ->
  wf st = true ->
  currentStructures st e asOf = [].
Proof.
  intros G Hwf. pose proof (select_current e asOf _ (wf_ascending_ids st Hwf)) as H.
  unfold MemStorage.getCurrentSalaryStructure in G. rewrite G in H.
  unfold currentStructures. now apply filter_none.
Qed.

(** The structures current after the supersede step, when at most one
    was current before: none. *)
Lemma afterRetire_currentStructures env d st :
  wf st = true ->
  SalaryStructure.i_status d = Some true ->
  (List.length (currentStructures st (SalaryStructure.i_employeeId d) (now env)) <= 1)%nat ->
  currentStructures (afterRetire env d st) (SalaryStructure.i_employeeId d) (now env)
  = [].
Proof.
  intros Hwf Hst Hlen. unfold afterRetire. rewrite Hst.
  destruct (MemStorage.getCurrentSalaryStructure st _ _) as [cur|] eqn:G;
    [|now apply currentStructures_nil].
  destruct (selected_is_stored_and_current _ _ _ _ Hwf G) as [Gc Q].
  unfold MemStorage.updateSalaryStructure. rewrite Gc. cbn [fst].
  unfold currentStructures in *. cbn [MemStorage.salaryStructures].
  unfold MemStorage.getSalaryStructure in Gc.
  destruct (set_split _ _ _ (SalaryStructure.merge cur (retireData d)) Gc)
    as (m1 & m2 & E1 & E2).
  rewrite E2. rewrite E1 in Hlen. unfold JsMap.values in *.
  rewrite map_app, filter_app in *. cbn [map snd filter] in *.
  rewrite Q in Hlen. rewrite retired_not_current.
  rewrite length_app in Hlen. cbn [List.length] in Hlen.
  destruct (filter _ (map snd m1)); [|cbn in Hlen; lia].
  destruct (filter _ (map snd m2)); [reflexivity | cbn in Hlen; lia].
Qed.

(** C8, as stated, fails in both directions.  With structure 1 current
    at time 100, creating an active structure that takes effect at 250
    is answered 201 and leaves employee 1 with no current structure.
    With structures 1 and 2 both current at time 300, creating an active
    structure from 250 is answered 201 and leaves two current ones. *)
Lemma create_active_structure_can_leave_none_or_two :
  currentStructures sample_storage_with_salary 1 100 = [sample_salary]
  /\ code (snd (handle (sample_create_structure 100 5000%float 250)
                  (mkServer sample_storage_with_salary []))) = 201
  /\ currentStructures
       (storage (fst (handle (sample_create_structure 100 5000%float 250)
                        (mkServer sample_storage_with_salary [])))) 1 100 = []
  /\ code (snd (handle (sample_create_structure 300 5000%float 250)
                  sample_two_structures)) = 201
  /\ List.length
       (currentStructures
          (storage (fst (handle (sample_create_structure 300 5000%float 250)
                           sample_two_structures))) 1 300) = 2%nat.
Proof. repeat split. Qed.

(** C8, amended.  For an authorised actor, a body that parses with the
    active flag set and a stored employee, over well-formed storage: the
    route answers 201 with the new structure, stored under the next id;
    the structure that was current for the employee at that moment, if
    any, is stored with the active flag false and [effectiveTo] set to
    the new structure's [effectiveFrom], its other fields as they were;
    and if at most one structure of the employee was current before, the
    current ones afterwards are the new structure alone when its own
    window contains the moment of the request, and none otherwise. *)
Theorem create_active_structure_supersedes env u body d emp sv :
  wf (storage sv) = true ->
  isAdminOrHRManager u ->
  insertSalaryStructureSchema_parse body = Some d ->
  SalaryStructure.i_status d = Some true ->
  MemStorage.getEmployee (storage sv) (SalaryStructure.i_employeeId d) = Some emp ->
  let e := SalaryStructure.i_employeeId d in
  let new :=
    SalaryStructure.of_insert d (MemStorage.salaryStructureCurrentId (storage sv)) in
  let st' := storage (fst (respond (postSalaryStructure env (Some u) body) sv)) in
  snd (respond (postSalaryStructure env (Some u) body) sv)
  = Resp 201 (JSalaryStructure (Some new))
  /\ MemStorage.getSalaryStructure st' (SalaryStructure.id new) = Some new
  /\ (forall cur,
        MemStorage.getCurrentSalaryStructure (storage sv) e (now env) = Some cur ->
        MemStorage.getSalaryStructure st' (SalaryStructure.id cur)
        = Some (SalaryStructure.mk (SalaryStructure.id cur)
                  (SalaryStructure.employeeId cur) (SalaryStructure.basicSalary cur)
                  (SalaryStructure.houseRentAllowance cur)
                  (SalaryStructure.conveyanceAllowance cur)
                  (SalaryStructure.medicalAllowance cur)
                  (SalaryStructure.specialAllowance cur)
                  (SalaryStructure.effectiveFrom cur)
                  (Some (SalaryStructure.i_effectiveFrom d))
                  (Some false)))
  /\ ((List.length (currentStructures (storage sv) e (now env)) <= 1)%nat ->
      currentStructures st' e (now env)
      = if MemStorage.isCurrent e (now env) new then [new] else []).
Proof.
  intros Hwf Hu Hp Hst He. cbn zeta.
  rewrite postSalaryStructure_run, (roleCheck_authorized u Hu), Hp, He.
  cbn [MemStorage.createSalaryStructure fst snd].
  rewrite afterRetire_counter.
  assert (Hwf1 : wf (afterRetire env d (storage sv)) = true)
    by now apply afterRetire_wf.
  assert (Hfresh : ~ In (MemStorage.salaryStructureCurrentId (storage sv))
                     (JsMap.keys (MemStorage.salaryStructures
                                    (afterRetire env d (storage sv))))).
  { apply wf_spec in Hwf1. destruct Hwf1 as (_ & _ & _ & _ & H5 & _).
    rewrite afterRetire_counter in H5. now apply ascending_below_fresh. }
  assert (Haudit : forall i sv0,
             MemStorage.salaryStructures (storage (afterAudit env i sv0))
             = MemStorage.salaryStructures (storage sv0))
    by (intros i sv0; unfold afterAudit; now destruct (auditAvailable env)).
  unfold MemStorage.getSalaryStructure, currentStructures.
  rewrite Haudit. cbn [storage MemStorage.salaryStructures].
  split; [reflexivity|]. split; [apply get_set_same|]. split.
  - intros cur G.
    destruct (selected_is_stored_and_current _ _ _ _ Hwf G) as [Gc _].
    assert (Hk : In (SalaryStructure.id cur)
                   (JsMap.keys (MemStorage.salaryStructures
                                  (afterRetire env d (storage sv))))).
    { unfold afterRetire. rewrite Hst, G.
      unfold MemStorage.updateSalaryStructure. rewrite Gc. cbn [fst
        MemStorage.salaryStructures].
      rewrite keys_set_present; eapply get_Some_keys; exact Gc. }
    rewrite get_set_other by (intros E; apply Hfresh; now rewrite E).
    unfold afterRetire. rewrite Hst, G.
    unfold MemStorage.updateSalaryStructure. rewrite Gc.
    cbn [fst MemStorage.salaryStructures]. now rewrite get_set_same.
  - intros Hlen.
    pose proof (afterRetire_currentStructures env d (storage sv) Hwf Hst Hlen) as Hnone.
    unfold currentStructures in Hnone.
    rewrite set_absent by assumption.
    unfold JsMap.values in *. rewrite map_app, filter_app, Hnone. reflexivity.
Qed.

Lemma create_active_structure_supersedes_witness :
  currentStructures
    (storage (fst (respond (postSalaryStructure (mkEnv 300 true) (Some sample_admin)
                              (sample_structure_body 5000%float 250))
                     (mkServer sample_storage_with_salary []))))
    1 300
  = [SalaryStructure.mk 2 1 5000%float None None None None (Some 250) None (Some true)].
Proof.
  apply (create_active_structure_supersedes (mkEnv 300 true) sample_admin
           (sample_structure_body 5000%float 250) _ sample_employee
           (mkServer sample_storage_with_salary [])
           eq_refl (or_introl eq_refl) eq_refl eq_refl eq_refl).
  cbn. lia.
Defined.

End Supersede.

(** * Further properties of the routes *)

(** ** Requests that are refused *)

Section Refused.

(** What a route leaves behind when it goes through has a code below 400;
    the tactic closes such a branch against a hypothesis that the code is
    at least 400. *)
Ltac not_refused H := exfalso; cbn [snd code] in H; lia.

(** X1.  A request answered with a code of 400 or more leaves the server
    exactly as it was: storage, counters, audit log and console. *)
Theorem refused_request_changes_nothing r sv :
  400 <= code (snd (handle r sv)) ->
  fst (handle r sv) = sv.
Proof.
  unfold handle. destruct (req_route r); cbn [fst snd].
  - reflexivity.
  - intros _. apply getCurrentSalaryRoute_state.
  - rewrite postSalaryStructure_run.
    destruct (roleCheck _); [reflexivity|].
    destruct (insertSalaryStructureSchema_parse body); [|reflexivity].
    destruct (MemStorage.getEmployee _ _); [|reflexivity].
    destruct (MemStorage.createSalaryStructure _ _). intros H. not_refused H.
  - rewrite putSalaryStructure_run.
    destruct (roleCheck _); [reflexivity|].
    destruct body; [|reflexivity].
    destruct (MemStorage.getSalaryStructure _ _); [|reflexivity].
    destruct (MemStorage.updateSalaryStructure _ _ _). intros H. not_refused H.
  - intros _. apply getPayrollRoute_state.
  - rewrite postPayroll_run.
    destruct (roleCheck _); [reflexivity|].
    destruct (insertPayrollSchema_parse body); [|reflexivity].
    destruct (MemStorage.getEmployee _ _); [|reflexivity].
    destruct (MemStorage.createPayroll _ _). intros H. not_refused H.
  - rewrite approve_run.
    destruct (roleCheck _); [reflexivity|].
    destruct (MemStorage.getPayroll _ _); [|reflexivity].
    destruct (status_is _ _); [|reflexivity].
    destruct (MemStorage.updatePayroll _ _ _). intros H. not_refused H.
  - rewrite markPaid_run.
    destruct (roleCheck _); [reflexivity|].
    destruct (MemStorage.getPayroll _ _); [|reflexivity].
    destruct (status_is _ _); [|reflexivity].
    destruct (MemStorage.updatePayroll _ _ _). intros H. not_refused H.
  - rewrite addItem_run.
    destruct (roleCheck _); [reflexivity|].
    destruct (insertPayrollItemSchema_parse body); [|reflexivity].
    destruct (MemStorage.getPayroll _ _); [|reflexivity].
    destruct (status_is _ _); [|reflexivity].
    destruct (MemStorage.createPayrollItem _ _). intros H. not_refused H.
Qed.

Lemma refused_request_changes_nothing_witness :
  fst (handle (mkRequest sample_env (Some sample_admin) (PostMarkPaid 1)) sample_server)
  = sample_server.
Proof.
  apply refused_request_changes_nothing. vm_compute. discriminate.
Defined.

Lemma roleCheck_refuses user :
  (forall u, user = Some u -> ~ isAdminOrHRManager u) ->
  exists r, roleCheck user = inl r /\ (code r = 401 \/ code r = 403).
Proof.
  intros H. destruct user as [u|]; [|eexists; split; [reflexivity | now left]].
  specialize (H u eq_refl). unfold isAdminOrHRManager in H. unfold roleCheck.
  destruct (User.role u); try (exfalso; apply H; auto; fail);
    eexists; split; try reflexivity; now right.
Qed.

(** X2.  On the routes served by [handle], a request without a session,
    or with the role [hr_staff] or [employee], changes nothing: these
    routes either only read or stand behind [checkAdminOrHRManager]; on
    the ones that create or change a salary structure, a payroll or a
    payroll item the answer is 401 or 403. *)
Theorem unprivileged_request_changes_nothing r sv :
  (forall u, req_user r = Some u -> ~ isAdminOrHRManager u) ->
  fst (handle r sv) = sv
  /\ (guarded (req_route r) = true ->
      code (snd (handle r sv)) = 401 \/ code (snd (handle r sv)) = 403).
Proof.
  intros H. destruct (roleCheck_refuses _ H) as (resp & Hr & Hc).
  unfold handle. destruct (req_route r); cbn [fst snd guarded].
  - split; [reflexivity | discriminate].
  - split; [apply getCurrentSalaryRoute_state | discriminate].
  - rewrite postSalaryStructure_run, Hr. auto.
  - rewrite putSalaryStructure_run, Hr. auto.
  - split; [apply getPayrollRoute_state | discriminate].
  - rewrite postPayroll_run, Hr. auto.
  - rewrite approve_run, Hr. auto.
  - rewrite markPaid_run, Hr. auto.
  - rewrite addItem_run, Hr. auto.
Qed.

End Refused.

Lemma unprivileged_request_changes_nothing_witness :
  fst (handle (mkRequest sample_env (Some (User.mk 9 "staff" hr_staff))
                 (PostApprove 1)) sample_server)
  = sample_server.
Proof.
  apply (unprivileged_request_changes_nothing
           (mkRequest sample_env (Some (User.mk 9 "staff" hr_staff)) (PostApprove 1))).
  intros u E [H|H]; injection E as <-; discriminate H.
Defined.

(** ** What a successful transition touches *)

Section Frames.

Lemma primary_fields a b :
  primary a = primary b ->
  MemStorage.employees a = MemStorage.employees b
  /\ MemStorage.salaryStructures a = MemStorage.salaryStructures b
  /\ MemStorage.payrolls a = MemStorage.payrolls b
  /\ MemStorage.payrollItems a = MemStorage.payrollItems b
  /\ MemStorage.salaryStructureCurrentId a = MemStorage.salaryStructureCurrentId b
  /\ MemStorage.payrollCurrentId a = MemStorage.payrollCurrentId b
  /\ MemStorage.payrollItemCurrentId a = MemStorage.payrollItemCurrentId b.
Proof. unfold primary. intros [= -> -> -> -> -> -> ->]. repeat split. Qed.

(** [updatePayroll] writes the map of payrolls and nothing else. *)
Lemma updatePayroll_frame st id d :
  let st' := fst (MemStorage.updatePayroll st id d) in
  MemStorage.employees st' = MemStorage.employees st
  /\ MemStorage.salaryStructures st' = MemStorage.salaryStructures st
  /\ MemStorage.payrollItems st' = MemStorage.payrollItems st
  /\ JsMap.keys (MemStorage.payrolls st') = JsMap.keys (MemStorage.payrolls st)
  /\ audit_of st' = audit_of st
  /\ forall id', id' <> id ->
       MemStorage.getPayroll st' id' = MemStorage.getPayroll st id'.
Proof.
  cbn zeta. unfold MemStorage.updatePayroll.
  destruct (MemStorage.getPayroll st id) as [p|] eqn:G; cbn [fst]; [|repeat split].
  repeat split.
  - cbn [MemStorage.payrolls]. apply keys_set_present.
    eapply get_Some_keys; exact G.
  - intros id' Hne. unfold MemStorage.getPayroll. cbn [MemStorage.payrolls].
    apply get_set_other. congruence.
Qed.

(** X3.  A successful [approve] stores the payroll with status approved,
    the actor as approver and the clock as approval date, its other
    fields as they were; it touches no other payroll, no item, no salary
    structure and no employee. *)
Theorem approve_records_approval env u sv id p :
  isAdminOrHRManager u ->
  MemStorage.getPayroll (storage sv) id = Some p ->
  Payroll.status p = Some draft ->
  let st' := storage (fst (respond (approve env (Some u) id) sv)) in
  MemStorage.getPayroll st' id
  = Some (Payroll.mk (Payroll.id p) (Payroll.employeeId p) (Payroll.payPeriodStart p)
            (Payroll.payPeriodEnd p) (Payroll.processDate p) (Payroll.basicSalary p)
            (Payroll.totalEarnings p) (Payroll.totalDeductions p) (Payroll.netSalary p)
            (Some approved) (Some (User.id u)) (Some (now env)))
  /\ (forall id', id' <> id ->
        MemStorage.getPayroll st' id' = MemStorage.getPayroll (storage sv) id')
  /\ MemStorage.payrollItems st' = MemStorage.payrollItems (storage sv)
  /\ MemStorage.salaryStructures st' = MemStorage.salaryStructures (storage sv)
  /\ MemStorage.employees st' = MemStorage.employees (storage sv).
Proof.
  intros Hu G Hs. cbn zeta.
  rewrite approve_run, (roleCheck_authorized u Hu), G.
  rewrite (proj2 (status_is_true _ _) Hs).
  destruct (MemStorage.updatePayroll (storage sv) id (approveData env u))
    as [st1 upd] eqn:E.
  pose proof (updatePayroll_frame (storage sv) id (approveData env u)) as F.
  pose proof (updatePayroll_get (storage sv) id (approveData env u) id p G) as Gp.
  rewrite E in F, Gp. cbn [fst] in F, Gp. destruct F as (F1 & F2 & F3 & _ & _ & F6).
  cbn [fst].
  destruct (primary_fields _ _ (afterAudit_primary env
              (AuditLog.mkInsert (User.id u) "approve" "payroll" id
                 ("Payroll approved for employee ID "
                  ++ string_of_Z (Payroll.employeeId p)))
              (mkServer st1 (console sv)))) as (P1 & P2 & P3 & P4 & _).
  cbn [storage] in *. unfold MemStorage.getPayroll in *.
  rewrite P1, P2, P3, P4. rewrite Z.eqb_refl in Gp.
  split; [exact Gp|]. split; [exact F6|]. auto.
Qed.

Lemma approve_records_approval_witness :
  MemStorage.getPayroll
    (storage (fst (respond (approve sample_env (Some sample_admin) 1) sample_server))) 1
  = Some (Payroll.mk 1 1 "2024-01-01" "2024-01-31" 1706745600000
            5000%float 0%float 0%float 5000%float
            (Some approved) (Some 1) (Some 1706745600000)).
Proof.
  apply (approve_records_approval sample_env sample_admin sample_server 1
           sample_payroll (or_introl eq_refl) eq_refl eq_refl).
Defined.

(** X4.  A successful [addItem] appends one item, numbered by the
    counter and carrying the fields of the body, after the stored items,
    which stay as they are; of the owning payroll only the three totals
    change; no other payroll, no salary structure and no employee
    changes, and neither the audit log nor the console is written. *)
Theorem addItem_appends_one_item u body d p sv :
  wf (storage sv) = true ->
  isAdminOrHRManager u ->
  insertPayrollItemSchema_parse body = Some d ->
  MemStorage.getPayroll (storage sv) (PayrollItem.i_payrollId d) = Some p ->
  Payroll.status p = Some draft ->
  let sv' := fst (respond (addItem (Some u) body) sv) in
  let n := MemStorage.payrollItemCurrentId (storage sv) in
  MemStorage.payrollItems (storage sv')
  = (MemStorage.payrollItems (storage sv)
     ++ [(n, PayrollItem.mk n (PayrollItem.i_payrollId d) (PayrollItem.i_itemType d)
               (PayrollItem.i_itemName d) (PayrollItem.i_amount d)
               (PayrollItem.i_description d))])%list
  /\ (exists totalEarnings totalDeductions netSalary,
        MemStorage.getPayroll (storage sv') (PayrollItem.i_payrollId d)
        = Some (Payroll.mk (Payroll.id p) (Payroll.employeeId p)
                  (Payroll.payPeriodStart p) (Payroll.payPeriodEnd p)
                  (Payroll.processDate p) (Payroll.basicSalary p)
                  totalEarnings totalDeductions netSalary
                  (Payroll.status p) (Payroll.approvedBy p) (Payroll.approvalDate p)))
  /\ (forall id', id' <> PayrollItem.i_payrollId d ->
        MemStorage.getPayroll (storage sv') id'
        = MemStorage.getPayroll (storage sv) id')
  /\ MemStorage.salaryStructures (storage sv')
     = MemStorage.salaryStructures (storage sv)
  /\ MemStorage.employees (storage sv') = MemStorage.employees (storage sv)
  /\ audit_of (storage sv') = audit_of (storage sv)
  /\ console sv' = console sv.
Proof.
  intros Hwf Hu Hp G Hs. cbn zeta.
  rewrite (addItem_success u body d p sv (roleCheck_authorized u Hu) Hp G Hs).
  cbn [fst storage console].
  assert (Hid : Payroll.id p = PayrollItem.i_payrollId d).
  { pose proof Hwf as W. apply wf_spec in W. destruct W as (_ & H2 & _).
    apply H2. now apply get_In. }
  unfold afterAddItem.
  set (st1 := fst (MemStorage.createPayrollItem (storage sv) d)).
  pose proof (updatePayroll_frame st1 (Payroll.id p)
                (totalsData p (MemStorage.getPayrollItemsByPayroll st1 (Payroll.id p))))
    as F.
  cbn zeta in F. destruct F as (F1 & F2 & F3 & _ & F5 & F6).
  rewrite F1, F2, F3, F5. split.
  - unfold st1. cbn [MemStorage.createPayrollItem fst MemStorage.payrollItems].
    apply set_absent. apply wf_spec in Hwf. destruct Hwf as (_ & _ & H3 & _).
    now apply ascending_below_fresh.
  - split.
    + do 3 eexists.
      erewrite updatePayroll_get by (unfold st1; exact G).
      rewrite <- Hid, Z.eqb_refl, merge_totalsData. reflexivity.
    + split; [|repeat split].
      intros id' Hne. rewrite F6 by congruence. reflexivity.
Qed.

Lemma addItem_appends_one_item_witness :
  MemStorage.payrollItems
    (storage (fst (respond (addItem (Some sample_admin)
                              (itemBody (sample_earning 500%float))) sample_server)))
  = [(1, PayrollItem.mk 1 1 earning "Bonus" 500%float None)].
Proof.
  apply (addItem_appends_one_item sample_admin (itemBody (sample_earning 500%float))
           (sample_earning 500%float) sample_payroll sample_server
           eq_refl (or_introl eq_refl) eq_refl eq_refl eq_refl).
Defined.

End Frames.

(** ** After the draft state *)

Section Frozen.

Lemma afterAudit_items env i sv id :
  MemStorage.getPayrollItemsByPayroll (storage (afterAudit env i sv)) id
  = MemStorage.getPayrollItemsByPayroll (storage sv) id.
Proof.
  unfold MemStorage.getPayrollItemsByPayroll. now rewrite afterAudit_payrollItems.
Qed.

(** The route of [addItem], with the storage it leaves named. *)
Lemma addItem_run_after user body sv :
  respond (addItem user body) sv =
  match roleCheck user with
  | inl r => (sv, r)
  | inr u =>
      match insertPayrollItemSchema_parse body with
      | None => (sv, Resp 400 JZodErrors)
      | Some d =>
          match MemStorage.getPayroll (storage sv) (PayrollItem.i_payrollId d) with
          | None => (sv, Resp 404 (JMessage "Payroll not found"))
          | Some p =>
              if status_is (Payroll.status p) draft
              then (mkServer (afterAddItem (storage sv) d p) (console sv),
                    Resp 201
                      (JPayrollItem
                         (PayrollItem.of_insert d
                            (MemStorage.payrollItemCurrentId (storage sv)))))
              else (sv, Resp 400
                          (JMessage "Cannot modify items for approved or paid payroll"))
          end
      end
  end.
Proof.
  rewrite addItem_run. destruct (roleCheck user); [reflexivity|].
  destruct (insertPayrollItemSchema_parse body); [|reflexivity].
  destruct (MemStorage.getPayroll _ _); [|reflexivity].
  now destruct (status_is _ _).
Qed.

(** One request on a payroll that is not draft: it stays as it is, or it
    was approved and is now paid; its items stay as they are. *)
Lemma handle_frozen_step r sv id p :
  wf (storage sv) = true ->
  MemStorage.getPayroll (storage sv) id = Some p ->
  Payroll.status p <> Some draft ->
  exists p',
    MemStorage.getPayroll (storage (fst (handle r sv))) id = Some p'
    /\ (p' = p \/ (Payroll.status p = Some approved /\ p' = Payroll.merge p paidData))
    /\ MemStorage.getPayrollItemsByPayroll (storage (fst (handle r sv))) id
       = MemStorage.getPayrollItemsByPayroll (storage sv) id.
Proof.
  intros Hwf G Hnd.
  assert (Hsame : exists p',
             MemStorage.getPayroll (storage sv) id = Some p'
             /\ (p' = p \/ (Payroll.status p = Some approved
                            /\ p' = Payroll.merge p paidData))
             /\ MemStorage.getPayrollItemsByPayroll (storage sv) id
                = MemStorage.getPayrollItemsByPayroll (storage sv) id)
    by (exists p; auto).
  unfold handle. destruct (req_route r); cbn [fst].
  - assumption.
  - now rewrite getCurrentSalaryRoute_state.
  - rewrite postSalaryStructure_run.
    destruct (roleCheck _); [assumption|].
    destruct (insertSalaryStructureSchema_parse body) as [d|]; [|assumption].
    destruct (MemStorage.getEmployee _ _); [|assumption].
    cbn [MemStorage.createSalaryStructure fst].
    rewrite afterAudit_getPayroll, afterAudit_items.
    unfold MemStorage.getPayroll, MemStorage.getPayrollItemsByPayroll in *.
    cbn [storage MemStorage.payrolls MemStorage.payrollItems].
    now rewrite afterRetire_payrolls, afterRetire_payrollItems.
  - rewrite putSalaryStructure_run.
    destruct (roleCheck _); [assumption|].
    destruct body as [d|]; [|assumption].
    destruct (MemStorage.getSalaryStructure _ _) as [s|] eqn:Gs; [|assumption].
    unfold MemStorage.updateSalaryStructure. rewrite Gs. cbn [fst].
    now rewrite afterAudit_getPayroll, afterAudit_items.
  - now rewrite getPayrollRoute_state.
  - rewrite postPayroll_run.
    destruct (roleCheck _); [assumption|].
    destruct (insertPayrollSchema_parse body) as [d|]; [|assumption].
    destruct (MemStorage.getEmployee _ _); [|assumption].
    cbn [MemStorage.createPayroll fst].
    rewrite afterAudit_getPayroll, afterAudit_items.
    unfold MemStorage.getPayroll, MemStorage.getPayrollItemsByPayroll in *.
    cbn [storage MemStorage.payrolls MemStorage.payrollItems].
    apply wf_spec in Hwf. destruct Hwf as (H1 & _).
    apply ascending_below_fresh in H1.
    rewrite get_set_other; [assumption|].
    intros E. apply H1. rewrite E. eapply get_Some_keys; eauto.
  - rewrite approve_run.
    destruct (roleCheck _) as [|u]; [assumption|].
    destruct (MemStorage.getPayroll _ id0) as [q|] eqn:Gq; [|assumption].
    destruct (status_is _ _) eqn:Hs; [|assumption].
    destruct (MemStorage.updatePayroll _ id0 _) as [st' upd] eqn:E.
    cbn [fst]. rewrite afterAudit_getPayroll, afterAudit_items. cbn [storage].
    change st' with (fst (st', upd)). rewrite <- E.
    rewrite (updatePayroll_get _ _ _ _ _ G), updatePayroll_items.
    eexists; split; [reflexivity|]. split; [|reflexivity].
    destruct (id0 =? id) eqn:Eid; [|now left].
    apply Z.eqb_eq in Eid; subst id0.
    rewrite G in Gq. injection Gq as <-. apply status_is_true in Hs. contradiction.
  - rewrite markPaid_run.
    destruct (roleCheck _) as [|u]; [assumption|].
    destruct (MemStorage.getPayroll _ id0) as [q|] eqn:Gq; [|assumption].
    destruct (status_is _ _) eqn:Hs; [|assumption].
    destruct (MemStorage.updatePayroll _ id0 _) as [st' upd] eqn:E.
    cbn [fst]. rewrite afterAudit_getPayroll, afterAudit_items. cbn [storage].
    change st' with (fst (st', upd)). rewrite <- E.
    rewrite (updatePayroll_get _ _ _ _ _ G), updatePayroll_items.
    eexists; split; [reflexivity|]. split; [|reflexivity].
    destruct (id0 =? id) eqn:Eid; [|now left].
    apply Z.eqb_eq in Eid; subst id0.
    rewrite G in Gq. injection Gq as <-. apply status_is_true in Hs. now right.
  - rewrite addItem_run_after.
    destruct (roleCheck _) as [|u]; [assumption|].
    destruct (insertPayrollItemSchema_parse body) as [d|]; [|assumption].
    destruct (MemStorage.getPayroll (storage sv) (PayrollItem.i_payrollId d))
      as [q|] eqn:Gq; [|assumption].
    destruct (status_is _ _) eqn:Hs; [|assumption].
    apply status_is_true in Hs. cbn [fst storage].
    assert (Hne : (PayrollItem.i_payrollId d =? id) = false).
    { apply Z.eqb_neq. intros E. subst id. congruence. }
    rewrite (afterAddItem_payroll _ d q id p Hwf Gq G), Hne.
    rewrite afterAddItem_items, Hne, app_nil_r by assumption.
    exists p. auto.
Qed.

Lemma serve_frozen rs :
  forall sv id p,
    wf (storage sv) = true ->
    MemStorage.getPayroll (storage sv) id = Some p ->
    Payroll.status p <> Some draft ->
    exists p',
      MemStorage.getPayroll (storage (serve rs sv)) id = Some p'
      /\ (p' = p \/ (Payroll.status p = Some approved /\ p' = Payroll.merge p paidData))
      /\ MemStorage.getPayrollItemsByPayroll (storage (serve rs sv)) id
         = MemStorage.getPayrollItemsByPayroll (storage sv) id.
Proof.
  induction rs as [|r rs IH]; intros sv id p Hwf G Hnd.
  - exists p. auto.
  - destruct (handle_frozen_step r sv id p Hwf G Hnd) as (p1 & G1 & Hp1 & I1).
    assert (Hnd1 : Payroll.status p1 <> Some draft).
    { destruct Hp1 as [->|[_ ->]]; [assumption | discriminate]. }
    destruct (IH _ id p1 (handle_wf r sv Hwf) G1 Hnd1) as (p' & G' & Hp' & I').
    exists p'. change (serve (r :: rs) sv) with (serve rs (fst (handle r sv))).
    split; [exact G'|]. split; [|now rewrite I'].
    destruct Hp1 as [->|[Ha ->]]; [assumption|].
    destruct Hp' as [->|[Hc _]]; [now right | discriminate Hc].
Qed.

(** X5.  Once a payroll has left draft, no sequence of requests changes
    its amounts or its items: all its fields stay as they are except the
    status, which stays or goes from approved to paid, and the items that
    belong to it are the same list. *)
Theorem payroll_frozen_once_not_draft sv id p rs :
  wf (storage sv) = true ->
  MemStorage.getPayroll (storage sv) id = Some p ->
  Payroll.status p <> Some draft ->
  exists p',
    MemStorage.getPayroll (storage (serve rs sv)) id = Some p'
    /\ (Payroll.status p' = Payroll.status p
        \/ (Payroll.status p = Some approved /\ Payroll.status p' = Some paid))
    /\ Payroll.id p' = Payroll.id p
    /\ Payroll.employeeId p' = Payroll.employeeId p
    /\ Payroll.payPeriodStart p' = Payroll.payPeriodStart p
    /\ Payroll.payPeriodEnd p' = Payroll.payPeriodEnd p
    /\ Payroll.processDate p' = Payroll.processDate p
    /\ Payroll.basicSalary p' = Payroll.basicSalary p
    /\ Payroll.totalEarnings p' = Payroll.totalEarnings p
    /\ Payroll.totalDeductions p' = Payroll.totalDeductions p
    /\ Payroll.netSalary p' = Payroll.netSalary p
    /\ Payroll.approvedBy p' = Payroll.approvedBy p
    /\ Payroll.approvalDate p' = Payroll.approvalDate p
    /\ MemStorage.getPayrollItemsByPayroll (storage (serve rs sv)) id
       = MemStorage.getPayrollItemsByPayroll (storage sv) id.
Proof.
  intros Hwf G Hnd.
  destruct (serve_frozen rs sv id p Hwf G Hnd) as (p' & G' & Hp' & I').
  exists p'. split; [assumption|].
  destruct Hp' as [->|[Ha ->]].
  - split; [now left|]. repeat split. assumption.
  - split; [right; now split|]. repeat split. assumption.
Qed.

Lemma payroll_frozen_once_not_draft_witness :
  exists p',
    MemStorage.getPayroll (storage (serve sample_walkthrough sample_server)) 1
    = Some p'
    /\ Payroll.netSalary p' = 5300%float.
Proof.
  destruct (payroll_frozen_once_not_draft
              (serve (firstn 4 sample_walkthrough) sample_server) 1
              (Payroll.mk 1 1 "2024-01-01" "2024-01-31" 1706745600000
                 5000%float 500%float 200%float 5300%float (Some approved) (Some 1)
                 (Some 1706745600000))
              (skipn 4 sample_walkthrough) eq_refl eq_refl)
    as (p' & G & _ & _ & _ & _ & _ & _ & _ & _ & _ & N & _).
  - discriminate.
  - exists p'. split; [|exact N].
    rewrite <- (firstn_skipn 4 sample_walkthrough) at 1.
    rewrite serve_app. exact G.
Defined.

(** X6.  A payroll stored without a status ([createPayroll] was handed none)
    can never move: after any sequence of requests it is stored exactly
    as it was, and [approve], [markPaid] and [addItem] on it are each
    answered 400. *)
Theorem payroll_without_status_is_stuck sv id p rs env u :
  wf (storage sv) = true ->
  MemStorage.getPayroll (storage sv) id = Some p ->
  Payroll.status p = None ->
  isAdminOrHRManager u ->
  let sv' := serve rs sv in
  MemStorage.getPayroll (storage sv') id = Some p
  /\ respond (approve env (Some u) id) sv'
     = (sv', Resp 400 (JMessage "Payroll is already approved or paid"))
  /\ respond (markPaid env (Some u) id) sv'
     = (sv', Resp 400 (JMessage "Payroll must be approved before marking as paid"))
  /\ forall body d,
       insertPayrollItemSchema_parse body = Some d ->
       PayrollItem.i_payrollId d = id ->
       respond (addItem (Some u) body) sv'
       = (sv', Resp 400 (JMessage "Cannot modify items for approved or paid payroll")).
Proof.
  intros Hwf G Hs Hu. cbn zeta.
  assert (Hnd : Payroll.status p <> Some draft) by (rewrite Hs; discriminate).
  destruct (serve_frozen rs sv id p Hwf G Hnd) as (p' & G' & Hp' & _).
  assert (p' = p) as -> by (destruct Hp' as [E|[Ha _]]; [exact E | congruence]).
  split; [assumption|].
  rewrite approve_run, markPaid_run, (roleCheck_authorized u Hu), G', Hs. cbn.
  split; [reflexivity|]. split; [reflexivity|].
  intros body d Hp Hd. subst id.
  apply (addItem_not_draft u body d _ p Hu Hp G'). assumption.
Qed.

Lemma payroll_without_status_is_stuck_witness :
  let sv :=
    mkServer
      (fst (MemStorage.createPayroll sample_storage
              (Payroll.mkInsert 1 "2024-03-01" "2024-03-31" 0
                 5000%float 0%float 0%float 5000%float None None)))
      [] in
  snd (respond (approve sample_env (Some sample_admin) 2) sv)
  = Resp 400 (JMessage "Payroll is already approved or paid").
Proof.
  cbn zeta.
  match goal with
  | |- snd (respond _ ?sv) = _ =>
      destruct (payroll_without_status_is_stuck sv 2
                  (Payroll.mk 2 1 "2024-03-01" "2024-03-31" 0
                     5000%float 0%float 0%float 5000%float None None None)
                  [] sample_env sample_admin eq_refl eq_refl eq_refl
                  (or_introl eq_refl)) as (_ & H & _)
  end.
  cbn [serve fold_left] in H. rewrite H. reflexivity.
Defined.

End Frozen.

(** ** Rows are kept *)

Section AppendOnly.

Lemma updateSalaryStructure_frame st id d :
  let st' := fst (MemStorage.updateSalaryStructure st id d) in
  MemStorage.employees st' = MemStorage.employees st
  /\ MemStorage.payrolls st' = MemStorage.payrolls st
  /\ MemStorage.payrollItems st' = MemStorage.payrollItems st
  /\ JsMap.keys (MemStorage.salaryStructures st')
     = JsMap.keys (MemStorage.salaryStructures st).
Proof.
  cbn zeta. unfold MemStorage.updateSalaryStructure.
  destruct (MemStorage.getSalaryStructure st id) as [s|] eqn:G; cbn [fst];
    [|repeat split].
  repeat split. cbn [MemStorage.salaryStructures]. apply keys_set_present.
  eapply get_Some_keys; exact G.
Qed.

Lemma afterRetire_frame env d st :
  MemStorage.employees (afterRetire env d st) = MemStorage.employees st
  /\ JsMap.keys (MemStorage.salaryStructures (afterRetire env d st))
     = JsMap.keys (MemStorage.salaryStructures st).
Proof.
  unfold afterRetire. destruct (SalaryStructure.i_status d) as [[|]|]; auto.
  destruct (MemStorage.getCurrentSalaryStructure st _ _) as [c|]; auto.
  destruct (updateSalaryStructure_frame st (SalaryStructure.id c) (retireData d))
    as (F1 & _ & _ & F4). auto.
Qed.

(** What one request keeps. *)
Lemma handle_keeps_rows r sv :
  wf (storage sv) = true ->
  let st := storage sv in
  let st' := storage (fst (handle r sv)) in
  (exists l, MemStorage.payrollItems st' = (MemStorage.payrollItems st ++ l)%list)
  /\ (exists l, JsMap.keys (MemStorage.payrolls st')
                = (JsMap.keys (MemStorage.payrolls st) ++ l)%list)
  /\ (exists l, JsMap.keys (MemStorage.salaryStructures st')
                = (JsMap.keys (MemStorage.salaryStructures st) ++ l)%list)
  /\ MemStorage.employees st' = MemStorage.employees st.
Proof.
  intros Hwf. cbn zeta.
  assert (Hsame :
            (exists l, MemStorage.payrollItems (storage sv)
                       = (MemStorage.payrollItems (storage sv) ++ l)%list)
            /\ (exists l, JsMap.keys (MemStorage.payrolls (storage sv))
                          = (JsMap.keys (MemStorage.payrolls (storage sv)) ++ l)%list)
            /\ (exists l, JsMap.keys (MemStorage.salaryStructures (storage sv))
                          = (JsMap.keys (MemStorage.salaryStructures (storage sv))
                             ++ l)%list)
            /\ MemStorage.employees (storage sv) = MemStorage.employees (storage sv))
    by (repeat split; exists []; now rewrite app_nil_r).
  pose proof Hwf as W. apply wf_spec in W. destruct W as (W1 & _ & W3 & _ & W5 & _).
  unfold handle. destruct (req_route r); cbn [fst].
  - assumption.
  - now rewrite getCurrentSalaryRoute_state.
  - rewrite postSalaryStructure_run.
    destruct (roleCheck _); [assumption|].
    destruct (insertSalaryStructureSchema_parse body) as [d|]; [|assumption].
    destruct (MemStorage.getEmployee _ _); [|assumption].
    cbn [MemStorage.createSalaryStructure fst].
    match goal with
    | |- context [afterAudit ?e ?i ?s] =>
        destruct (primary_fields _ _ (afterAudit_primary e i s))
          as (P1 & P2 & P3 & P4 & _)
    end.
    rewrite P1, P2, P3, P4.
    cbn [storage MemStorage.payrollItems MemStorage.payrolls
           MemStorage.salaryStructures MemStorage.employees].
    rewrite afterRetire_payrolls, afterRetire_payrollItems.
    destruct (afterRetire_frame (req_env r) d (storage sv)) as [F1 F2].
    rewrite F1. destruct Hsame as (S1 & S2 & _ & _).
    repeat split; try assumption.
    exists [MemStorage.salaryStructureCurrentId (afterRetire (req_env r) d (storage sv))].
    rewrite set_absent.
    + unfold JsMap.keys in *. rewrite map_app. cbn [map fst]. now rewrite F2.
    + rewrite F2, afterRetire_counter. now apply ascending_below_fresh.
  - rewrite putSalaryStructure_run.
    destruct (roleCheck _); [assumption|].
    destruct body as [d|]; [|assumption].
    destruct (MemStorage.getSalaryStructure _ _); [|assumption].
    destruct (MemStorage.updateSalaryStructure _ id d) as [st' s'] eqn:E.
    pose proof (updateSalaryStructure_frame (storage sv) id d) as F.
    rewrite E in F. cbn [fst] in *. destruct F as (F1 & F2 & F3 & F4).
    match goal with
    | |- context [afterAudit ?e ?i ?s] =>
        destruct (primary_fields _ _ (afterAudit_primary e i s))
          as (P1 & P2 & P3 & P4 & _)
    end.
    rewrite P1, P2, P3, P4. cbn [storage]. now rewrite F1, F2, F3, F4.
  - now rewrite getPayrollRoute_state.
  - rewrite postPayroll_run.
    destruct (roleCheck _); [assumption|].
    destruct (insertPayrollSchema_parse body) as [d|]; [|assumption].
    destruct (MemStorage.getEmployee _ _); [|assumption].
    cbn [MemStorage.createPayroll fst].
    match goal with
    | |- context [afterAudit ?e ?i ?s] =>
        destruct (primary_fields _ _ (afterAudit_primary e i s))
          as (P1 & P2 & P3 & P4 & _)
    end.
    rewrite P1, P2, P3, P4.
    cbn [storage MemStorage.payrollItems MemStorage.payrolls
           MemStorage.salaryStructures MemStorage.employees].
    destruct Hsame as (S1 & _ & S3 & _). repeat split; try assumption.
    exists [MemStorage.payrollCurrentId (storage sv)].
    rewrite set_absent by now apply ascending_below_fresh.
    unfold JsMap.keys. now rewrite map_app.
  - rewrite approve_run.
    destruct (roleCheck _) as [|u]; [assumption|].
    destruct (MemStorage.getPayroll _ _); [|assumption].
    destruct (status_is _ _); [|assumption].
    destruct (MemStorage.updatePayroll _ id _) as [st' upd] eqn:E.
    pose proof (updatePayroll_frame (storage sv) id (approveData (req_env r) u)) as F.
    rewrite E in F. cbn [fst] in *. destruct F as (F1 & F2 & F3 & F4 & _).
    match goal with
    | |- context [afterAudit ?e ?i ?s] =>
        destruct (primary_fields _ _ (afterAudit_primary e i s))
          as (P1 & P2 & P3 & P4 & _)
    end.
    rewrite P1, P2, P3, P4. cbn [storage]. now rewrite F1, F2, F3, F4.
  - rewrite markPaid_run.
    destruct (roleCheck _) as [|u]; [assumption|].
    destruct (MemStorage.getPayroll _ _); [|assumption].
    destruct (status_is _ _); [|assumption].
    destruct (MemStorage.updatePayroll _ id _) as [st' upd] eqn:E.
    pose proof (updatePayroll_frame (storage sv) id paidData) as F.
    rewrite E in F. cbn [fst] in *. destruct F as (F1 & F2 & F3 & F4 & _).
    match goal with
    | |- context [afterAudit ?e ?i ?s] =>
        destruct (primary_fields _ _ (afterAudit_primary e i s))
          as (P1 & P2 & P3 & P4 & _)
    end.
    rewrite P1, P2, P3, P4. cbn [storage]. now rewrite F1, F2, F3, F4.
  - rewrite addItem_run_after.
    destruct (roleCheck _) as [|u]; [assumption|].
    destruct (insertPayrollItemSchema_parse body) as [d|]; [|assumption].
    destruct (MemStorage.getPayroll _ _) as [p|]; [|assumption].
    destruct (status_is _ _); [|assumption].
    cbn [fst storage]. unfold afterAddItem.
    match goal with
    | |- context [MemStorage.updatePayroll ?s ?i ?d] =>
        pose proof (updatePayroll_frame s i d) as F
    end.
    cbn zeta in F. destruct F as (F1 & F2 & F3 & F4 & _).
    rewrite F1, F2, F3, F4.
    cbn [MemStorage.createPayrollItem fst MemStorage.payrollItems MemStorage.payrolls
           MemStorage.salaryStructures MemStorage.employees].
    destruct Hsame as (_ & S2 & S3 & _). repeat split; try assumption.
    eexists. apply set_absent. now apply ascending_below_fresh.
Qed.

(** X7.  The routes served by [handle] remove no row: after any sequence
    of requests to them the stored payroll items are the old ones,
    unchanged and in place, followed by the new ones; every payroll and
    salary structure id that was stored is still stored, in the same
    order; and none of these routes writes the map of employees. *)
Theorem rows_are_never_removed rs sv :
  wf (storage sv) = true ->
  let st := storage sv in
  let st' := storage (serve rs sv) in
  (exists l, MemStorage.payrollItems st' = (MemStorage.payrollItems st ++ l)%list)
  /\ (exists l, JsMap.keys (MemStorage.payrolls st')
                = (JsMap.keys (MemStorage.payrolls st) ++ l)%list)
  /\ (exists l, JsMap.keys (MemStorage.salaryStructures st')
                = (JsMap.keys (MemStorage.salaryStructures st) ++ l)%list)
  /\ MemStorage.employees st' = MemStorage.employees st.
Proof.
  revert sv. induction rs as [|r rs IH]; intros sv Hwf; cbn zeta.
  - repeat split; exists []; now rewrite app_nil_r.
  - change (serve (r :: rs) sv) with (serve rs (fst (handle r sv))).
    destruct (handle_keeps_rows r sv Hwf) as ((l1 & A1) & (l2 & A2) & (l3 & A3) & A4).
    destruct (IH _ (handle_wf r sv Hwf)) as ((m1 & B1) & (m2 & B2) & (m3 & B3) & B4).
    cbn zeta in *. rewrite B1, B2, B3, B4, A1, A2, A3, A4.
    repeat split; eexists; now rewrite <- app_assoc.
Qed.

Lemma rows_are_never_removed_witness :
  exists l,
    MemStorage.payrollItems (storage (serve (skipn 2 sample_walkthrough)
                                        (serve (firstn 2 sample_walkthrough)
                                           sample_server)))
    = ([(1, PayrollItem.mk 1 1 earning "Bonus" 500%float None)] ++ l)%list.
Proof.
  apply (rows_are_never_removed (skipn 2 sample_walkthrough)
           (serve (firstn 2 sample_walkthrough) sample_server) eq_refl).
Defined.

End AppendOnly.

(** ** The audit trail *)

Section AuditTrail.

Lemma roleCheck_inr user u : roleCheck user = inr u -> user = Some u.
Proof.
  destruct user as [v|]; [|discriminate]. unfold roleCheck.
  destruct (User.role v); congruence.
Qed.

Lemma roleCheck_inl_code user r : roleCheck user = inl r -> (code r <? 400) = false.
Proof.
  destruct user as [v|]; [|now intros [= <-]]. unfold roleCheck.
  destruct (User.role v); intros [= <-]; reflexivity.
Qed.

(** The entry the helper records on storage whose audit side is [audit]. *)
Lemma afterAudit_records env i st c audit :
  auditAvailable env = true ->
  audit_of st = audit ->
  exists a,
    MemStorage.auditLogs (storage (afterAudit env i (mkServer st c)))
    = JsMap.set (fst audit) (snd audit) a
    /\ AuditLog.id a = snd audit
    /\ AuditLog.userId a = AuditLog.i_userId i
    /\ AuditLog.action a = AuditLog.i_action i
    /\ AuditLog.entityType a = AuditLog.i_entityType i
    /\ AuditLog.entityId a = AuditLog.i_entityId i
    /\ AuditLog.timestamp a = now env
    /\ MemStorage.auditLogCurrentId (storage (afterAudit env i (mkServer st c)))
       = snd audit + 1.
Proof.
  intros Hup <-. unfold afterAudit. rewrite Hup.
  cbn [storage MemStorage.createAuditLog fst MemStorage.auditLogs
         MemStorage.auditLogCurrentId audit_of snd].
  eexists. split; [reflexivity|]. repeat split.
Qed.

(** X8.  Among the routes served by [handle], with the audit storage up:
    a request writes the audit log exactly when it is one of create,
    approve and mark-paid of a payroll or create and update of a salary
    structure and is answered with a code below 400; it then records
    exactly one entry, under the next audit id, naming the actor, the
    route's action and entity and the time of the request.  Every other
    request to these routes, [addItem] included, leaves the audit log as
    it is. *)
Theorem audit_trail r sv :
  auditAvailable (req_env r) = true ->
  let st := storage sv in
  let st' := storage (fst (handle r sv)) in
  if audited (req_route r) && (code (snd (handle r sv)) <? 400)
  then
    exists u a,
      req_user r = Some u
      /\ MemStorage.auditLogs st'
         = JsMap.set (MemStorage.auditLogs st) (MemStorage.auditLogCurrentId st) a
      /\ AuditLog.id a = MemStorage.auditLogCurrentId st
      /\ AuditLog.userId a = User.id u
      /\ AuditLog.action a
         = match req_route r with
           | PostApprove _ => "approve"
           | PostMarkPaid _ => "paid"
           | PutSalaryStructure _ _ => "update"
           | _ => "create"
           end
      /\ AuditLog.entityType a
         = match req_route r with
           | PostSalaryStructure _ | PutSalaryStructure _ _ => "salary"
           | _ => "payroll"
           end
      /\ AuditLog.timestamp a = now (req_env r)
      /\ MemStorage.auditLogCurrentId st' = MemStorage.auditLogCurrentId st + 1
  else audit_of st' = audit_of st.
Proof.
  intros Hup. cbn zeta. unfold handle.
  destruct (req_route r); cbn [audited andb fst snd].
  - reflexivity.
  - now rewrite getCurrentSalaryRoute_state.
  - rewrite postSalaryStructure_run.
    destruct (roleCheck _) as [r0|u] eqn:Hr;
      [cbn [fst snd]; now rewrite (roleCheck_inl_code _ _ Hr)|].
    apply roleCheck_inr in Hr.
    destruct (insertSalaryStructureSchema_parse body) as [d|]; [|reflexivity].
    destruct (MemStorage.getEmployee _ _); [|reflexivity].
    cbn [MemStorage.createSalaryStructure fst snd code Z.ltb Z.compare Pos.compare
           Pos.compare_cont].
    match goal with
    | |- context [afterAudit ?e ?i (mkServer ?s ?c)] =>
        destruct (afterAudit_records e i s c (audit_of (storage sv)) Hup)
          as (a & A1 & A2 & A3 & A4 & A5 & _ & A7 & A8)
    end.
    { unfold audit_of. cbn [MemStorage.auditLogs MemStorage.auditLogCurrentId].
      change (audit_of (afterRetire (req_env r) d (storage sv)) = audit_of (storage sv)).
      apply afterRetire_audit. }
    exists u, a. cbn [fst snd audit_of] in *. repeat split; assumption.
  - rewrite putSalaryStructure_run.
    destruct (roleCheck _) as [r0|u] eqn:Hr;
      [cbn [fst snd]; now rewrite (roleCheck_inl_code _ _ Hr)|].
    apply roleCheck_inr in Hr.
    destruct body as [d|]; [|reflexivity].
    destruct (MemStorage.getSalaryStructure _ _); [|reflexivity].
    destruct (MemStorage.updateSalaryStructure _ id d) as [st1 s1] eqn:E.
    cbn [fst snd code Z.ltb Z.compare Pos.compare Pos.compare_cont].
    match goal with
    | |- context [afterAudit ?e ?i (mkServer ?s ?c)] =>
        destruct (afterAudit_records e i s c (audit_of (storage sv)) Hup)
          as (a & A1 & A2 & A3 & A4 & A5 & _ & A7 & A8)
    end.
    { change st1 with (fst (st1, s1)). rewrite <- E. apply updateSalaryStructure_audit. }
    exists u, a. cbn [fst snd audit_of] in *. repeat split; assumption.
  - now rewrite getPayrollRoute_state.
  - rewrite postPayroll_run.
    destruct (roleCheck _) as [r0|u] eqn:Hr;
      [cbn [fst snd]; now rewrite (roleCheck_inl_code _ _ Hr)|].
    apply roleCheck_inr in Hr.
    destruct (insertPayrollSchema_parse body) as [d|]; [|reflexivity].
    destruct (MemStorage.getEmployee _ _); [|reflexivity].
    cbn [MemStorage.createPayroll fst snd code Z.ltb Z.compare Pos.compare
           Pos.compare_cont].
    match goal with
    | |- context [afterAudit ?e ?i (mkServer ?s ?c)] =>
        destruct (afterAudit_records e i s c (audit_of (storage sv)) Hup)
          as (a & A1 & A2 & A3 & A4 & A5 & _ & A7 & A8)
    end.
    { reflexivity. }
    exists u, a. cbn [fst snd audit_of] in *. repeat split; assumption.
  - rewrite approve_run.
    destruct (roleCheck _) as [r0|u] eqn:Hr;
      [cbn [fst snd]; now rewrite (roleCheck_inl_code _ _ Hr)|].
    apply roleCheck_inr in Hr.
    destruct (MemStorage.getPayroll _ _); [|reflexivity].
    destruct (status_is _ _); [|reflexivity].
    destruct (MemStorage.updatePayroll _ id _) as [st1 p1] eqn:E.
    cbn [fst snd code Z.ltb Z.compare Pos.compare Pos.compare_cont].
    match goal with
    | |- context [afterAudit ?e ?i (mkServer ?s ?c)] =>
        destruct (afterAudit_records e i s c (audit_of (storage sv)) Hup)
          as (a & A1 & A2 & A3 & A4 & A5 & _ & A7 & A8)
    end.
    { change st1 with (fst (st1, p1)). rewrite <- E. apply updatePayroll_audit. }
    exists u, a. cbn [fst snd audit_of] in *. repeat split; assumption.
  - rewrite markPaid_run.
    destruct (roleCheck _) as [r0|u] eqn:Hr;
      [cbn [fst snd]; now rewrite (roleCheck_inl_code _ _ Hr)|].
    apply roleCheck_inr in Hr.
    destruct (MemStorage.getPayroll _ _); [|reflexivity].
    destruct (status_is _ _); [|reflexivity].
    destruct (MemStorage.updatePayroll _ id _) as [st1 p1] eqn:E.
    cbn [fst snd code Z.ltb Z.compare Pos.compare Pos.compare_cont].
    match goal with
    | |- context [afterAudit ?e ?i (mkServer ?s ?c)] =>
        destruct (afterAudit_records e i s c (audit_of (storage sv)) Hup)
          as (a & A1 & A2 & A3 & A4 & A5 & _ & A7 & A8)
    end.
    { change st1 with (fst (st1, p1)). rewrite <- E. apply updatePayroll_audit. }
    exists u, a. cbn [fst snd audit_of] in *. repeat split; assumption.
  - rewrite addItem_run_after.
    destruct (roleCheck _) as [|u]; [reflexivity|].
    destruct (insertPayrollItemSchema_parse body) as [d|]; [|reflexivity].
    destruct (MemStorage.getPayroll _ _) as [p|]; [|reflexivity].
    destruct (status_is _ _); [|reflexivity].
    cbn [fst storage]. unfold afterAddItem. now rewrite updatePayroll_audit.
Qed.

Lemma audit_trail_witness :
  exists a,
    MemStorage.auditLogs
      (storage (fst (handle (mkRequest sample_env (Some sample_admin) (PostApprove 1))
                       sample_server)))
    = JsMap.set [] 1 a
    /\ AuditLog.userId a = 1
    /\ AuditLog.action a = "approve"
    /\ AuditLog.entityType a = "payroll"
    /\ AuditLog.timestamp a = 1706745600000.
Proof.
  destruct (audit_trail (mkRequest sample_env (Some sample_admin) (PostApprove 1))
              sample_server eq_refl)
    as (u & a & Hu & Hlogs & _ & Hid & Hact & Hent & Ht & _).
  exists a. cbn in Hu. injection Hu as <-.
  split; [exact Hlogs|]. split; [exact Hid|]. split; [exact Hact|].
  split; [exact Hent | exact Ht].
Defined.

End AuditTrail.

(** ** Who may read and who may write *)

Section Access.

(** X9.  Reading a stored payroll: a user whose role is not [employee]
    gets it with its items; a user of role [employee] gets it when the
    payroll's employee record is linked to that user, or when no such
    employee record is stored, and is refused with 403 when the record is
    linked to another user or to none.  The items returned are those
    stored for the payroll, in insertion order. *)
Theorem payroll_read_access u id p sv :
  MemStorage.getPayroll (storage sv) id = Some p ->
  let answer := snd (respond (getPayrollRoute (Some u) id) sv) in
  let granted :=
    Resp 200 (JPayrollWithItems p (MemStorage.getPayrollItemsByPayroll (storage sv) id)) in
  (User.role u <> employee -> answer = granted)
  /\ (MemStorage.getEmployee (storage sv) (Payroll.employeeId p) = None ->
      answer = granted)
  /\ (forall emp,
        MemStorage.getEmployee (storage sv) (Payroll.employeeId p) = Some emp ->
        Employee.userId emp = Some (User.id u) ->
        answer = granted)
  /\ (forall emp,
        User.role u = employee ->
        MemStorage.getEmployee (storage sv) (Payroll.employeeId p) = Some emp ->
        Employee.userId emp <> Some (User.id u) ->
        answer = Resp 403 (JMessage "Access denied")).
Proof.
  intros G. cbn zeta. unfold getPayrollRoute. unfold_handler. rewrite G.
  split; [|split; [|split]].
  - intros Hr.
    assert (Role_eqb (User.role u) employee = false) as E
      by (destruct (User.role u); simpl; congruence).
    destruct (MemStorage.getEmployee _ _); [|reflexivity]. now rewrite E.
  - intros He. now rewrite He.
  - intros emp He Ho. rewrite He, Ho, Z.eqb_refl.
    now rewrite andb_false_r.
  - intros emp Hr He Ho. rewrite He, Hr. cbn [Role_eqb andb].
    destruct (Employee.userId emp) as [o|]; [|reflexivity].
    destruct (User.id u =? o) eqn:E; [|reflexivity].
    apply Z.eqb_eq in E. subst o. now contradiction Ho.
Qed.

Lemma payroll_read_access_witness :
  snd (respond (getPayrollRoute (Some (User.mk 8 "other" employee)) 1) sample_server)
  = Resp 403 (JMessage "Access denied")
  /\ snd (respond (getPayrollRoute (Some (User.mk 7 "owner" employee)) 1) sample_server)
     = Resp 200 (JPayrollWithItems sample_payroll []).
Proof.
  split.
  - apply (payroll_read_access (User.mk 8 "other" employee) 1 sample_payroll
             sample_server eq_refl) with (emp := sample_employee);
      [reflexivity | reflexivity | discriminate].
  - apply (payroll_read_access (User.mk 7 "owner" employee) 1 sample_payroll
             sample_server eq_refl) with (emp := sample_employee); reflexivity.
Defined.

(** X10.  Reading the current salary structure of a stored employee: a
    user of role [employee] is refused with 403 unless the employee
    record is linked to that user; any other user, and the linked
    employee, gets the structure the storage selects, or 404 when it
    selects none.  For an employee that is not stored the answer is 404
    for everybody, with or without a session. *)
Theorem current_salary_read_access env user e sv :
  let answer := snd (respond (getCurrentSalaryRoute env user e) sv) in
  let selected :=
    match MemStorage.getCurrentSalaryStructure (storage sv) e (now env) with
    | None => Resp 404 (JMessage "Salary structure not found")
    | Some s => Resp 200 (JSalaryStructure (Some s))
    end in
  (MemStorage.getEmployee (storage sv) e = None ->
   answer = Resp 404 (JMessage "Employee not found"))
  /\ (forall emp u,
        MemStorage.getEmployee (storage sv) e = Some emp ->
        user = Some u ->
        (User.role u <> employee -> answer = selected)
        /\ (Employee.userId emp = Some (User.id u) -> answer = selected)
        /\ (User.role u = employee ->
            Employee.userId emp <> Some (User.id u) ->
            answer = Resp 403 (JMessage "Access denied"))).
Proof.
  cbn zeta. unfold getCurrentSalaryRoute. unfold_handler. split.
  - intros He. now rewrite He.
  - intros emp u He ->. rewrite He. split; [|split].
    + intros Hr.
      assert (Role_eqb (User.role u) employee = false) as ->
        by (destruct (User.role u); simpl; congruence).
      cbn [andb].
      now destruct (MemStorage.getCurrentSalaryStructure (storage sv) e (now env)).
    + intros Ho. rewrite Ho, Z.eqb_refl, andb_false_r.
      now destruct (MemStorage.getCurrentSalaryStructure (storage sv) e (now env)).
    + intros Hr Ho. rewrite Hr. cbn [Role_eqb andb].
      destruct (Employee.userId emp) as [o|]; [|reflexivity].
      destruct (User.id u =? o) eqn:E; [|reflexivity].
      apply Z.eqb_eq in E. subst o. now contradiction Ho.
Qed.

Lemma current_salary_read_access_witness :
  snd (respond (getCurrentSalaryRoute sample_env (Some (User.mk 8 "other" employee)) 1)
         (mkServer sample_storage_with_salary []))
  = Resp 403 (JMessage "Access denied").
Proof.
  apply (current_salary_read_access sample_env (Some (User.mk 8 "other" employee)) 1
           (mkServer sample_storage_with_salary []))
    with (emp := sample_employee) (u := User.mk 8 "other" employee);
    [reflexivity | reflexivity | reflexivity | discriminate].
Defined.

Lemma hasAccess_rank a r : hasAccess a r = (rank r <=? rank a).
Proof. unfold hasAccess. now rewrite check_role_known. Qed.

(** X11.  On the four roles the answer of the role check is a total
    order: every role has access to itself, access in both directions
    holds only between equal roles, access composes, and of any two roles
    one has access to the other; [administrator] has access to every
    role and every role has access to [employee].  The answer depends on
    the user's role alone. *)
Theorem hasAccess_total_order :
  (forall a, hasAccess a a = true)
  /\ (forall a b, hasAccess a b = true -> hasAccess b a = true -> a = b)
  /\ (forall a b c, hasAccess a b = true -> hasAccess b c = true -> hasAccess a c = true)
  /\ (forall a b, hasAccess a b = true \/ hasAccess b a = true)
  /\ (forall r, hasAccess administrator r = true /\ hasAccess r employee = true)
  /\ (forall u r,
        check_role (Some u) (Some (Role_name r))
        = Resp 200 (JHasAccess (hasAccess (User.role u) r))).
Proof.
  repeat split.
  - now destruct a.
  - destruct a, b; intros H1 H2; try reflexivity; discriminate.
  - intros a b c. rewrite !hasAccess_rank, !Z.leb_le. lia.
  - intros a b. rewrite !hasAccess_rank, !Z.leb_le. lia.
  - now destruct r.
  - now destruct r.
  - intros u r. now rewrite check_role_known, hasAccess_rank.
Qed.

(** What the two middlewares let through. *)
Lemma checkHRAccess_run user sv :
  checkHRAccess user sv
  = (sv, match user with
         | None => inl (Resp 401 (JMessage "Unauthorized"))
         | Some u =>
             if hasAccess (User.role u) hr_staff then inr u
             else inl (Resp 403 (JMessage "Forbidden: Requires HR access"))
         end).
Proof. destruct user as [u|]; [|reflexivity]. simpl. now destruct (User.role u). Qed.

(** X12.  The two role middlewares agree with the role check: a user
    passes [checkAdminOrHRManager] exactly when the role check grants
    [hr_manager], and passes [checkHRAccess] exactly when it grants
    [hr_staff]; a user who does not pass is answered 403 and the server
    is left as it is. *)
Theorem middleware_agrees_with_role_check u sv :
  (checkAdminOrHRManager (Some u) sv = (sv, inr u)
   <-> check_role (Some u) (Some "hr_manager") = Resp 200 (JHasAccess true))
  /\ (checkHRAccess (Some u) sv = (sv, inr u)
      <-> check_role (Some u) (Some "hr_staff") = Resp 200 (JHasAccess true))
  /\ (check_role (Some u) (Some "hr_manager") = Resp 200 (JHasAccess false) ->
      checkAdminOrHRManager (Some u) sv
      = (sv, inl (Resp 403
                    (JMessage "Forbidden: Requires administrator or HR manager role"))))
  /\ (check_role (Some u) (Some "hr_staff") = Resp 200 (JHasAccess false) ->
      checkHRAccess (Some u) sv
      = (sv, inl (Resp 403 (JMessage "Forbidden: Requires HR access")))).
Proof.
  rewrite checkAdminOrHRManager_run, checkHRAccess_run.
  unfold check_role, roleCheck, hasAccess, check_role. cbn [User.role property_key].
  destruct (User.role u); cbn; repeat split; intros H; try reflexivity;
    try discriminate H; inversion H.
Qed.

End Access.

(** ** Listings *)

(** [js_sort] with a comparator that subtracts keys. *)
Section SortFacts.

Context {A : Type} (cmp : A -> A -> Z) (key : A -> Z) (ok : A -> Prop).
Hypothesis cmp_key : forall a b, ok a -> ok b -> cmp a b = key b - key a.

Lemma sort_insert_perm x l : Permutation (sort_insert cmp x l) (x :: l).
Proof.
  induction l as [|y l IH]; simpl; [reflexivity|].
  destruct (cmp x y <=? 0); [reflexivity|].
  rewrite IH. apply perm_swap.
Qed.

Lemma js_sort_perm l : Permutation (js_sort cmp l) l.
Proof.
  induction l as [|x l IH]; simpl; [reflexivity|].
  rewrite sort_insert_perm. now constructor.
Qed.

Lemma js_sort_ok l : Forall ok l -> Forall ok (js_sort cmp l).
Proof.
  intros H. apply Forall_forall. intros x Hx.
  rewrite Forall_forall in H. apply H.
  now apply (Permutation_in _ (js_sort_perm l)).
Qed.

Lemma sort_insert_desc x s :
  ok x -> Forall ok s -> descending key s -> descending key (sort_insert cmp x s).
Proof.
  intros Hx. induction s as [|y s IH]; intros Hs D; simpl.
  - split; [constructor | exact I].
  - inversion Hs as [|? ? Hy Hs']; subst. destruct D as [Dy D].
    rewrite (cmp_key _ _ Hx Hy).
    destruct (key y - key x <=? 0) eqn:E.
    + apply Z.leb_le in E. split; [|split; assumption].
      constructor; [lia|].
      eapply Forall_impl; [|exact Dy]. simpl. intros z Hz. lia.
    + apply Z.leb_gt in E. split; [|now apply IH].
      apply Forall_forall. intros z Hz.
      apply (Permutation_in _ (sort_insert_perm x s)) in Hz.
      destruct Hz as [<-|Hz]; [lia|].
      rewrite Forall_forall in Dy. now apply Dy.
Qed.

Lemma js_sort_desc l : Forall ok l -> descending key (js_sort cmp l).
Proof.
  induction l as [|x l IH]; intros H; simpl; [exact I|].
  inversion H; subst.
  apply sort_insert_desc; [assumption | now apply js_sort_ok | now apply IH].
Qed.

(** The sort is stable: a list already in falling order is returned as
    it is. *)
Lemma js_sort_descending_id l :
  Forall ok l -> descending key l -> js_sort cmp l = l.
Proof.
  induction l as [|x l IH]; intros H D; simpl; [reflexivity|].
  inversion H as [|? ? Hx Hl]; subst. destruct D as [Dx D].
  rewrite (IH Hl D). destruct l as [|y l]; [reflexivity|]. simpl.
  inversion Hl; subst. rewrite (cmp_key _ _ Hx) by assumption.
  inversion Dx; subst.
  destruct (key y - key x <=? 0) eqn:E; [reflexivity|].
  apply Z.leb_gt in E. lia.
Qed.

(** Sorting and filtering commute. *)
Lemma sort_insert_filter f x s :
  ok x -> Forall ok s -> descending key s ->
  filter f (sort_insert cmp x s)
  = if f x then sort_insert cmp x (filter f s) else filter f s.
Proof.
  intros Hx. induction s as [|y s IH]; intros Hs D.
  - simpl. now destruct (f x).
  - inversion Hs as [|? ? Hy Hs']; subst. destruct D as [Dy D].
    cbn [sort_insert]. rewrite (cmp_key _ _ Hx Hy).
    destruct (key y - key x <=? 0) eqn:E.
    + cbn [filter]. destruct (f x); [|reflexivity].
      apply Z.leb_le in E.
      destruct (f y) eqn:Fy.
      * cbn [sort_insert]. rewrite (cmp_key _ _ Hx Hy).
        apply Z.leb_le in E. now rewrite E.
      * destruct (filter f s) as [|z l] eqn:Fs; [reflexivity|].
        cbn [sort_insert].
        assert (In z (filter f s)) as Hz by (rewrite Fs; now left).
        apply filter_In in Hz. destruct Hz as [Hz _].
        rewrite Forall_forall in Hs', Dy.
        rewrite (cmp_key _ _ Hx (Hs' _ Hz)).
        specialize (Dy _ Hz).
        assert ((key z - key x <=? 0) = true) as -> by (apply Z.leb_le; lia).
        reflexivity.
    + cbn [filter]. rewrite (IH Hs' D).
      destruct (f y) eqn:Fy; destruct (f x) eqn:Fx; try reflexivity.
      cbn [sort_insert]. rewrite (cmp_key _ _ Hx Hy). now rewrite E.
Qed.

Lemma js_sort_filter f l :
  Forall ok l -> filter f (js_sort cmp l) = js_sort cmp (filter f l).
Proof.
  induction l as [|x l IH]; intros H; [reflexivity|].
  inversion H as [|? ? Hx Hl]; subst.
  cbn [js_sort fold_right filter].
  change (fold_right (sort_insert cmp) [] l) with (js_sort cmp l).
  rewrite sort_insert_filter;
    [|assumption | now apply js_sort_ok | now apply js_sort_desc].
  rewrite (IH Hl). now destruct (f x).
Qed.

End SortFacts.

Section Pending.

Lemma filter_true {A} (f : A -> bool) l :
  (forall x, In x l -> f x = true) -> filter f l = l.
Proof.
  induction l as [|x l IH]; intros H; simpl; [reflexivity|].
  rewrite (H x (or_introl eq_refl)). f_equal. apply IH. intros y Hy. apply H. now right.
Qed.

Lemma descending_const {A} (key : A -> Z) d l :
  Forall (fun x => key x = d) l -> descending key l.
Proof.
  induction 1 as [|x l Hx Hl IH]; simpl; [exact I|]. split; [|exact IH].
  eapply Forall_impl; [|exact Hl]. simpl. intros y Hy. lia.
Qed.

Lemma Forall_True {A} (l : list A) : Forall (fun _ => True) l.
Proof. apply Forall_forall. auto. Qed.

Lemma byProcessDateDesc_key (a b : Payroll.t) :
  True -> True ->
  Listing.byProcessDateDesc a b = Payroll.processDate b - Payroll.processDate a.
Proof. reflexivity. Qed.

Lemma pending_In st q :
  In q (Listing.getPendingApprovalPayrolls st)
  <-> In q (JsMap.values (MemStorage.payrolls st)) /\ Payroll.status q = Some draft.
Proof.
  unfold Listing.getPendingApprovalPayrolls.
  rewrite <- status_is_true, <- (filter_In (fun p => status_is (Payroll.status p) draft)).
  split; apply Permutation_in;
    [|apply Permutation_sym]; apply js_sort_perm.
Qed.

(** In a well-formed storage the listed payrolls are the ones [getPayroll]
    finds under their own id. *)
Lemma wf_stored st q :
  wf st = true ->
  In q (JsMap.values (MemStorage.payrolls st))
  <-> MemStorage.getPayroll st (Payroll.id q) = Some q.
Proof.
  intros Hwf. apply wf_spec in Hwf. destruct Hwf as (Ha & Hid & _).
  unfold MemStorage.getPayroll, JsMap.values. split.
  - intros H. apply in_map_iff in H. destruct H as ([k q'] & E & H).
    simpl in E. subst q'. rewrite (Hid _ _ H).
    apply In_get; [|exact H]. eapply ascending_below_NoDup; exact Ha.
  - intros H. apply get_In in H. now apply (in_map snd) in H.
Qed.

(** X13.  The pending list holds exactly the stored payrolls whose status
    is draft, each as often as it is stored, latest process date first;
    payrolls with the same process date keep the order of the storage.
    The route hands the list to an administrator or HR manager and
    refuses anybody else. *)
Theorem pending_listing st :
  let drafts :=
    filter (fun p => status_is (Payroll.status p) draft)
      (JsMap.values (MemStorage.payrolls st)) in
  let pending := Listing.getPendingApprovalPayrolls st in
  Permutation pending drafts
  /\ descending Payroll.processDate pending
  /\ (forall d,
        filter (fun p => Payroll.processDate p =? d) pending
        = filter (fun p => Payroll.processDate p =? d) drafts)
  /\ (forall user console,
        getPendingRoute user (mkServer st console)
        = (mkServer st console,
           match roleCheck user with
           | inl r => inl r
           | inr _ => inr pending
           end)).
Proof.
  cbn zeta. unfold Listing.getPendingApprovalPayrolls.
  split; [apply js_sort_perm|].
  split; [apply (js_sort_desc _ _ _ byProcessDateDesc_key), Forall_True|].
  split.
  - intros d.
    rewrite (js_sort_filter _ _ _ byProcessDateDesc_key) by apply Forall_True.
    apply (js_sort_descending_id _ _ _ byProcessDateDesc_key); [apply Forall_True|].
    apply (descending_const _ d). apply Forall_forall. intros x Hx.
    apply filter_In in Hx. now apply Z.eqb_eq.
  - intros user console. unfold getPendingRoute, bind.
    rewrite checkAdminOrHRManager_run. now destruct (roleCheck user).
Qed.

Lemma ascending_below_split ks1 k ks2 n :
  ascending_below (ks1 ++ k :: ks2) n = true ->
  Forall (fun x => x < k) ks1 /\ Forall (fun x => k < x) ks2.
Proof.
  induction ks1 as [|x ks1 IH]; simpl; rewrite !andb_true_iff.
  - intros [[_ H] _]. split; [constructor|].
    rewrite forallb_forall in H. apply Forall_forall. intros y Hy.
    now apply Z.ltb_lt, H.
  - intros [[_ H] H']. destruct (IH H') as [I1 I2]. split; [|exact I2].
    constructor; [|exact I1]. rewrite forallb_forall in H.
    apply Z.ltb_lt, H, in_or_app. right. now left.
Qed.

Lemma set_at {V} (m1 m2 : JsMap.t V) k v v' :
  ~ In k (JsMap.keys m1) ->
  JsMap.set (m1 ++ (k, v) :: m2)%list k v' = (m1 ++ (k, v') :: m2)%list.
Proof.
  induction m1 as [|[k0 v0] m1 IH]; simpl; intros Hn.
  - now rewrite Z.eqb_refl.
  - destruct (k0 =? k) eqn:E.
    + apply Z.eqb_eq in E. exfalso. apply Hn. now left.
    + f_equal. apply IH. intros H. apply Hn. now right.
Qed.

(** The payrolls of a well-formed storage around the one stored under
    [id]: the ids before it are smaller, the ids after it larger. *)
Lemma wf_payrolls_split st id p :
  wf st = true ->
  MemStorage.getPayroll st id = Some p ->
  exists m1 m2,
    MemStorage.payrolls st = (m1 ++ (id, p) :: m2)%list
    /\ (forall d,
          MemStorage.payrolls (fst (MemStorage.updatePayroll st id d))
          = (m1 ++ (id, Payroll.merge p d) :: m2)%list)
    /\ Payroll.id p = id
    /\ Forall (fun q => Payroll.id q < id) (JsMap.values m1)
    /\ Forall (fun q => id < Payroll.id q) (JsMap.values m2).
Proof.
  intros Hwf G. apply wf_spec in Hwf. destruct Hwf as (Ha & Hid & _).
  unfold MemStorage.getPayroll in G.
  destruct (set_split _ _ _ p G) as (m1 & m2 & E & _).
  exists m1, m2. split; [exact E|]. split; [|split; [|split]].
  - intros d. unfold MemStorage.updatePayroll, MemStorage.getPayroll. rewrite G.
    cbn [fst MemStorage.payrolls].
    rewrite E. apply set_at.
    rewrite E in Ha. unfold JsMap.keys in Ha. rewrite map_app in Ha.
    apply ascending_below_NoDup, NoDup_remove_2 in Ha.
    intros Hin. apply Ha, in_or_app. now left.
  - apply Hid. rewrite E. apply in_or_app. right. now left.
  - rewrite E in Ha. unfold JsMap.keys in Ha. rewrite map_app in Ha.
    apply ascending_below_split in Ha. destruct Ha as [H1 _].
    apply Forall_forall. intros q Hq. apply in_map_iff in Hq.
    destruct Hq as ([k q'] & Eq & Hq). simpl in Eq. subst q'.
    rewrite (Hid k q) by (rewrite E; apply in_or_app; now left).
    rewrite Forall_forall in H1. apply H1. now apply (in_map fst) in Hq.
  - rewrite E in Ha. unfold JsMap.keys in Ha. rewrite map_app in Ha.
    apply ascending_below_split in Ha. destruct Ha as [_ H2].
    apply Forall_forall. intros q Hq. apply in_map_iff in Hq.
    destruct Hq as ([k q'] & Eq & Hq). simpl in Eq. subst q'.
    rewrite (Hid k q) by (rewrite E; apply in_or_app; right; now right).
    rewrite Forall_forall in H2. apply H2. now apply (in_map fst) in Hq.
Qed.

(** X14.  A successful [approve] takes the payroll off the pending list
    and leaves the other pending payrolls listed in the order they had. *)
Theorem approve_takes_off_pending env u sv id p :
  wf (storage sv) = true ->
  isAdminOrHRManager u ->
  MemStorage.getPayroll (storage sv) id = Some p ->
  Payroll.status p = Some draft ->
  In p (Listing.getPendingApprovalPayrolls (storage sv))
  /\ Listing.getPendingApprovalPayrolls
       (storage (fst (respond (approve env (Some u) id) sv)))
     = filter (fun q => negb (Payroll.id q =? id))
         (Listing.getPendingApprovalPayrolls (storage sv)).
Proof.
  intros Hwf Hu G Hs. split.
  - apply pending_In. split; [|exact Hs].
    apply get_In in G. now apply (in_map snd) in G.
  - rewrite approve_run, (roleCheck_authorized u Hu), G.
    rewrite (proj2 (status_is_true _ _) Hs).
    destruct (wf_payrolls_split _ _ _ Hwf G) as (m1 & m2 & E & E' & Hid & H1 & H2).
    specialize (E' (approveData env u)).
    destruct (MemStorage.updatePayroll (storage sv) id (approveData env u))
      as [st1 upd].
    cbn [fst] in *. unfold Listing.getPendingApprovalPayrolls.
    rewrite afterAudit_payrolls. cbn [storage].
    rewrite (js_sort_filter _ _ _ byProcessDateDesc_key) by apply Forall_True.
    f_equal. rewrite E, E'. unfold JsMap.values.
    rewrite !map_app. cbn [map snd]. rewrite !filter_app. cbn [filter].
    rewrite (proj2 (status_is_true _ _) Hs).
    change (status_is (Payroll.status (Payroll.merge p (approveData env u))) draft)
      with false.
    cbn [filter]. rewrite Hid, Z.eqb_refl. cbn [negb].
    symmetry. f_equal; apply filter_true; intros q Hq; apply filter_In in Hq;
      destruct Hq as [Hq _].
    + rewrite Forall_forall in H1. specialize (H1 _ Hq).
      apply negb_true_iff, Z.eqb_neq. lia.
    + rewrite Forall_forall in H2. specialize (H2 _ Hq).
      apply negb_true_iff, Z.eqb_neq. lia.
Qed.

Lemma approve_takes_off_pending_witness :
  Listing.getPendingApprovalPayrolls
    (storage (fst (respond (approve sample_env (Some sample_admin) 1) sample_server)))
  = filter (fun q => negb (Payroll.id q =? 1))
      (Listing.getPendingApprovalPayrolls (storage sample_server)).
Proof.
  apply (approve_takes_off_pending sample_env sample_admin sample_server 1
           sample_payroll eq_refl (or_introl eq_refl) eq_refl eq_refl).
Defined.

(** X15.  A payroll that has left draft is never pending again: after any
    sequence of requests no payroll on the pending list has its id. *)
Theorem never_pending_again sv id p rs q :
  wf (storage sv) = true ->
  MemStorage.getPayroll (storage sv) id = Some p ->
  Payroll.status p <> Some draft ->
  In q (Listing.getPendingApprovalPayrolls (storage (serve rs sv))) ->
  Payroll.id q <> id.
Proof.
  intros Hwf G Hnd Hq Eid.
  destruct (serve_frozen rs sv id p Hwf G Hnd) as (p' & G' & Hp' & _).
  apply pending_In in Hq. destruct Hq as [Hin Hd].
  apply (wf_stored _ _ (serve_wf rs sv Hwf)) in Hin. rewrite Eid, G' in Hin.
  injection Hin as ->.
  destruct Hp' as [->|[_ ->]]; [contradiction | discriminate].
Qed.

Lemma never_pending_again_witness : Payroll.id sample_second_payroll <> 1.
Proof.
  apply (never_pending_again
           (fst (handle (mkRequest sample_env (Some sample_admin) (PostApprove 1))
                   sample_server_two)) 1
           (Payroll.mk 1 1 "2024-01-01" "2024-01-31" 1706745600000
              5000%float 0%float 0%float 5000%float (Some approved) (Some 1)
              (Some 1706745600000))
           [mkRequest sample_env (Some sample_admin) (PostMarkPaid 1)]
           sample_second_payroll eq_refl eq_refl).
  - discriminate.
  - vm_compute. left. reflexivity.
Defined.

End Pending.

Section TotalPayroll.

Lemma filter_values_set {V} (f : V -> bool) (m : JsMap.t V) k v v' :
  JsMap.get m k = Some v -> f v = false -> f v' = false ->
  filter f (JsMap.values (JsMap.set m k v')) = filter f (JsMap.values m).
Proof.
  intros G Hv Hv'. destruct (set_split m k v v' G) as (m1 & m2 & -> & ->).
  unfold JsMap.values. rewrite !map_app, !filter_app. cbn [map snd filter].
  now rewrite Hv, Hv'.
Qed.

Lemma afterAudit_paidPayrolls env i sv :
  paidPayrolls (storage (afterAudit env i sv)) = paidPayrolls (storage sv).
Proof. unfold paidPayrolls. now rewrite afterAudit_payrolls. Qed.

(** A request that is not one of [pays] leaves the paid payrolls as they
    are. *)
Lemma handle_paidPayrolls r sv :
  wf (storage sv) = true ->
  pays (req_route r) = false ->
  paidPayrolls (storage (fst (handle r sv))) = paidPayrolls (storage sv).
Proof.
  intros Hwf Hp. unfold handle. destruct (req_route r); cbn [fst].
  - reflexivity.
  - now rewrite getCurrentSalaryRoute_state.
  - rewrite postSalaryStructure_run.
    destruct (roleCheck _); [reflexivity|].
    destruct (insertSalaryStructureSchema_parse body) as [d|]; [|reflexivity].
    destruct (MemStorage.getEmployee _ _); [|reflexivity].
    cbn [MemStorage.createSalaryStructure fst].
    rewrite afterAudit_paidPayrolls. unfold paidPayrolls.
    cbn [storage MemStorage.payrolls]. now rewrite afterRetire_payrolls.
  - rewrite putSalaryStructure_run.
    destruct (roleCheck _); [reflexivity|].
    destruct body as [d|]; [|reflexivity].
    destruct (MemStorage.getSalaryStructure _ _) as [s|] eqn:Gs; [|reflexivity].
    unfold MemStorage.updateSalaryStructure. rewrite Gs. cbn [fst].
    now rewrite afterAudit_paidPayrolls.
  - now rewrite getPayrollRoute_state.
  - rewrite postPayroll_run, insertPayrollSchema_parse_refuses.
    now destruct (roleCheck _).
  - rewrite approve_run.
    destruct (roleCheck _) as [|u]; [reflexivity|].
    destruct (MemStorage.getPayroll _ id) as [q|] eqn:Gq; [|reflexivity].
    destruct (status_is _ _) eqn:Hs; [|reflexivity].
    unfold MemStorage.updatePayroll. rewrite Gq. cbn [fst].
    rewrite afterAudit_paidPayrolls. unfold paidPayrolls.
    cbn [storage MemStorage.payrolls].
    apply status_is_true in Hs.
    apply (filter_values_set _ _ _ q); [exact Gq | now rewrite Hs | reflexivity].
  - discriminate Hp.
  - rewrite addItem_run_after.
    destruct (roleCheck _) as [|u]; [reflexivity|].
    destruct (insertPayrollItemSchema_parse body) as [d|]; [|reflexivity].
    destruct (MemStorage.getPayroll (storage sv) (PayrollItem.i_payrollId d))
      as [q|] eqn:Gq; [|reflexivity].
    destruct (status_is _ _) eqn:Hs; [|reflexivity].
    apply status_is_true in Hs. cbn [fst storage].
    assert (Payroll.id q = PayrollItem.i_payrollId d) as Eid.
    { apply wf_spec in Hwf. destruct Hwf as (_ & Hid & _).
      apply Hid. now apply get_In. }
    unfold afterAddItem, MemStorage.createPayrollItem, MemStorage.updatePayroll,
      MemStorage.getPayroll. cbn [fst MemStorage.payrolls].
    unfold MemStorage.getPayroll in Gq. rewrite Eid, Gq. cbn [fst].
    unfold paidPayrolls. cbn [MemStorage.payrolls].
    apply (filter_values_set _ _ _ q); [exact Gq | now rewrite Hs |].
    now rewrite merge_totalsData_status, Hs.
Qed.

(** X16.  The total payroll moves only when a payroll is paid: a request
    other than [mark-paid] and other than a [create] whose body names the
    status paid leaves it as it is, whatever the request does otherwise;
    so does a request that is refused.  The route hands the total to an
    administrator or HR manager and refuses anybody else. *)
Theorem total_moves_only_on_payment r sv :
  wf (storage sv) = true ->
  pays (req_route r) = false \/ 400 <= code (snd (handle r sv)) ->
  Listing.getTotalPayroll (storage (fst (handle r sv)))
  = Listing.getTotalPayroll (storage sv)
  /\ forall user,
       getTotalRoute user (fst (handle r sv))
       = (fst (handle r sv),
          match roleCheck user with
          | inl refusal => inl refusal
          | inr _ => inr (Listing.getTotalPayroll (storage sv))
          end).
Proof.
  intros Hwf Hp.
  assert (paidPayrolls (storage (fst (handle r sv))) = paidPayrolls (storage sv)) as E.
  { destruct Hp as [Hp|Hc]; [now apply handle_paidPayrolls|].
    destruct (pays (req_route r)) eqn:Hp; [|now apply handle_paidPayrolls].
    unfold handle in *. destruct (req_route r); try discriminate Hp; cbn [fst snd] in *.
    - revert Hc. rewrite postPayroll_run.
      destruct (roleCheck _); [reflexivity|].
      destruct (insertPayrollSchema_parse body) as [d|]; [|reflexivity].
      destruct (MemStorage.getEmployee _ _); [|reflexivity].
      cbn [MemStorage.createPayroll fst snd code]. lia.
    - revert Hc. rewrite markPaid_run.
      destruct (roleCheck _); [reflexivity|].
      destruct (MemStorage.getPayroll _ id) as [q|]; [|reflexivity].
      destruct (status_is _ _); [|reflexivity].
      destruct (MemStorage.updatePayroll _ _ _). cbn [fst snd code]. lia. }
  assert (Listing.getTotalPayroll (storage (fst (handle r sv)))
          = Listing.getTotalPayroll (storage sv)) as T.
  { unfold Listing.getTotalPayroll. fold (paidPayrolls (storage (fst (handle r sv)))).
    fold (paidPayrolls (storage sv)). now rewrite E. }
  split; [exact T|].
  intros user. unfold getTotalRoute, bind. rewrite checkAdminOrHRManager_run.
  destruct (roleCheck user); [reflexivity|]. unfold reads. now rewrite T.
Qed.

Lemma total_moves_only_on_payment_witness :
  Listing.getTotalPayroll
    (storage (fst (handle (mkRequest sample_env (Some sample_admin) (PostApprove 1))
                     sample_server)))
  = Listing.getTotalPayroll (storage sample_server).
Proof.
  apply (total_moves_only_on_payment
           (mkRequest sample_env (Some sample_admin) (PostApprove 1)) sample_server
           eq_refl (or_introl eq_refl)).
Defined.

(** X17.  A successful [mark-paid] enters the payroll's net salary into
    the total at the payroll's place in the storage: the new total is the
    sum of the paid payrolls with a smaller id, plus this net salary,
    plus the paid payrolls with a larger id, added in this order.  When
    no paid payroll has a larger id, the new total is the old total plus
    this net salary. *)
Theorem markPaid_adds_net_salary env u sv id p :
  wf (storage sv) = true ->
  isAdminOrHRManager u ->
  MemStorage.getPayroll (storage sv) id = Some p ->
  Payroll.status p = Some approved ->
  let st' := storage (fst (respond (markPaid env (Some u) id) sv)) in
  let earlier := filter (fun q => Payroll.id q <? id) (paidPayrolls (storage sv)) in
  let later := filter (fun q => id <? Payroll.id q) (paidPayrolls (storage sv)) in
  Listing.getTotalPayroll (storage sv) = addNets later (addNets earlier 0%float)
  /\ Listing.getTotalPayroll st'
     = addNets later (PrimFloat.add (addNets earlier 0%float) (Payroll.netSalary p))
  /\ (later = [] ->
      Listing.getTotalPayroll st'
      = PrimFloat.add (Listing.getTotalPayroll (storage sv)) (Payroll.netSalary p)).
Proof.
  intros Hwf Hu G Hs. cbn zeta.
  rewrite markPaid_run, (roleCheck_authorized u Hu), G.
  rewrite (proj2 (status_is_true _ _) Hs).
  destruct (wf_payrolls_split _ _ _ Hwf G) as (m1 & m2 & E & E' & Hid & H1 & H2).
  specialize (E' paidData).
  destruct (MemStorage.updatePayroll (storage sv) id paidData) as [st1 upd].
  cbn [fst] in *.
  assert (Hearlier : filter (fun q => Payroll.id q <? id) (paidPayrolls (storage sv))
                     = filter (fun q => status_is (Payroll.status q) paid)
                         (JsMap.values m1)
                     /\ filter (fun q => id <? Payroll.id q) (paidPayrolls (storage sv))
                        = filter (fun q => status_is (Payroll.status q) paid)
                            (JsMap.values m2)).
  { unfold paidPayrolls. rewrite E. unfold JsMap.values in *.
    rewrite map_app, !filter_app. cbn [map snd filter].
    rewrite Hs. change (status_is (Some approved) paid) with false. cbn iota.
    rewrite Forall_forall in H1, H2. split.
    - rewrite (filter_true (fun q => Payroll.id q <? id)
                 (filter _ (map snd m1))).
      + rewrite (filter_none (fun q => Payroll.id q <? id)
                   (filter _ (map snd m2))); [apply app_nil_r|].
        intros q Hq. apply filter_In in Hq. destruct Hq as [Hq _].
        specialize (H2 _ Hq). apply Z.ltb_ge. lia.
      + intros q Hq. apply filter_In in Hq. destruct Hq as [Hq _].
        specialize (H1 _ Hq). now apply Z.ltb_lt.
    - rewrite (filter_none (fun q => id <? Payroll.id q)
                 (filter _ (map snd m1))).
      + apply filter_true.
        intros q Hq. apply filter_In in Hq. destruct Hq as [Hq _].
        specialize (H2 _ Hq). now apply Z.ltb_lt.
      + intros q Hq. apply filter_In in Hq. destruct Hq as [Hq _].
        specialize (H1 _ Hq). apply Z.ltb_ge. lia. }
  destruct Hearlier as [-> ->].
  assert (T0 : Listing.getTotalPayroll (storage sv)
               = addNets (filter (fun q => status_is (Payroll.status q) paid)
                            (JsMap.values m2))
                   (addNets (filter (fun q => status_is (Payroll.status q) paid)
                               (JsMap.values m1)) 0%float)).
  { unfold Listing.getTotalPayroll, addNets. rewrite E. unfold JsMap.values.
    rewrite map_app, filter_app. cbn [map snd filter].
    rewrite Hs. change (status_is (Some approved) paid) with false. cbn iota.
    apply fold_left_app. }
  assert (T1 : Listing.getTotalPayroll
                 (storage (afterAudit env
                    (AuditLog.mkInsert (User.id u) "paid" "payroll" id
                       ("Payroll marked as paid for employee ID "
                        ++ string_of_Z (Payroll.employeeId p)))
                    (mkServer st1 (console sv))))
               = addNets (filter (fun q => status_is (Payroll.status q) paid)
                            (JsMap.values m2))
                   (PrimFloat.add
                      (addNets (filter (fun q => status_is (Payroll.status q) paid)
                                  (JsMap.values m1)) 0%float)
                      (Payroll.netSalary p))).
  { unfold Listing.getTotalPayroll, addNets. rewrite afterAudit_payrolls.
    cbn [storage]. rewrite E'. unfold JsMap.values.
    rewrite map_app, filter_app. cbn [map snd filter].
    change (status_is (Payroll.status (Payroll.merge p paidData)) paid) with true.
    cbn iota. rewrite fold_left_app. reflexivity. }
  split; [exact T0|]. split; [exact T1|].
  intros L. rewrite T1, T0, L. reflexivity.
Qed.

Lemma markPaid_adds_net_salary_witness :
  Listing.getTotalPayroll
    (storage (fst (respond (markPaid sample_env (Some sample_admin) 1)
                     (serve (firstn 4 sample_walkthrough) sample_server))))
  = 5300%float.
Proof.
  exact (proj1 (proj2 (markPaid_adds_net_salary sample_env sample_admin
           (serve (firstn 4 sample_walkthrough) sample_server) 1
           (Payroll.mk 1 1 "2024-01-01" "2024-01-31" 1706745600000
              5000%float 500%float 200%float 5300%float (Some approved) (Some 1)
              (Some 1706745600000))
           eq_refl (or_introl eq_refl) eq_refl eq_refl))).
Defined.

End TotalPayroll.

Section AuditListing.

Lemma byTimestampDesc_key (a b : AuditLog.t) :
  True -> True ->
  Listing.byTimestampDesc a b = AuditLog.timestamp b - AuditLog.timestamp a.
Proof. reflexivity. Qed.

(** X18.  The audit listing returns the newest entries first and cuts
    the list after [limit] entries: every entry it leaves out is no newer
    than any entry it returns, and together they are the stored entries.
    A limit of NaN returns nothing, a negative limit leaves out that many
    of the oldest entries, an infinite one returns everything.  The route
    asks for 20 entries when the query names no limit; the dashboard's
    recent activity is the same listing. *)
Theorem audit_log_listing st limit :
  let all := JsMap.values (MemStorage.auditLogs st) in
  let answer := Listing.getAuditLogs st limit in
  let n := Z.of_nat (List.length all) in
  (exists older,
     Permutation (answer ++ older) all
     /\ descending AuditLog.timestamp (answer ++ older))
  /\ Z.of_nat (List.length answer)
     = match limit with
       | NaN | MinusInfinity => 0
       | PlusInfinity => n
       | Integral z => if z <? 0 then Z.max (n + z) 0 else Z.min z n
       end
  /\ Listing.getRecentActivity st limit = answer
  /\ forall user console,
       getAuditLogsRoute user None (mkServer st console)
       = (mkServer st console,
          match roleCheck user with
          | inl refusal => inl refusal
          | inr _ => inr (Listing.getAuditLogs st (Integral 20))
          end).
Proof.
  cbn zeta. unfold Listing.getRecentActivity, Listing.getAuditLogs, slice0.
  set (sorted := js_sort Listing.byTimestampDesc (JsMap.values (MemStorage.auditLogs st))).
  assert (Hlen : List.length sorted = List.length (JsMap.values (MemStorage.auditLogs st)))
    by apply Permutation_length, js_sort_perm.
  split; [|split; [|split; [reflexivity|]]].
  - eexists (skipn _ sorted). rewrite firstn_skipn. split.
    + apply js_sort_perm.
    + apply (js_sort_desc _ _ _ byTimestampDesc_key), Forall_True.
  - rewrite length_firstn, Hlen.
    set (n := List.length (JsMap.values (MemStorage.auditLogs st))).
    destruct limit as [|z| |]; try (simpl; lia).
    destruct (z <? 0) eqn:E; [apply Z.ltb_lt in E | apply Z.ltb_ge in E]; lia.
  - intros user console. unfold getAuditLogsRoute, bind.
    rewrite checkAdminOrHRManager_run. now destruct (roleCheck user).
Qed.

(** X19.  The audit listings by user and by entity are the full listing
    with the other entries left out: same entries, same order. *)
Theorem audit_views_agree st :
  (forall userId,
     Listing.getAuditLogsByUser st userId
     = filter (fun a => AuditLog.userId a =? userId)
         (Listing.getAuditLogs st PlusInfinity))
  /\ (forall entityType entityId,
        Listing.getAuditLogsByEntity st entityType entityId
        = filter (fun a => String.eqb (AuditLog.entityType a) entityType
                           && (AuditLog.entityId a =? entityId))
            (Listing.getAuditLogs st PlusInfinity)).
Proof.
  assert (Hall : Listing.getAuditLogs st PlusInfinity
                 = js_sort Listing.byTimestampDesc
                     (JsMap.values (MemStorage.auditLogs st))).
  { unfold Listing.getAuditLogs, slice0. rewrite Nat2Z.id. apply firstn_all. }
  rewrite Hall. split; intros;
    (rewrite (js_sort_filter _ _ _ byTimestampDesc_key) by apply Forall_True);
    reflexivity.
Qed.

End AuditListing.

Section SalaryHistory.

Lemma byEffectiveFromDesc_key (a b : SalaryStructure.t) :
  SalaryStructure.effectiveFrom a <> None ->
  SalaryStructure.effectiveFrom b <> None ->
  MemStorage.byEffectiveFromDesc a b = fromTime b - fromTime a.
Proof.
  unfold MemStorage.byEffectiveFromDesc, fromTime.
  destruct (SalaryStructure.effectiveFrom a), (SalaryStructure.effectiveFrom b);
    congruence.
Qed.

Lemma hd_error_filter {A} (f : A -> bool) l : hd_error (filter f l) = find f l.
Proof.
  induction l as [|x l IH]; simpl; [reflexivity|]. now destruct (f x).
Qed.

Lemma filter_filter_implied {A} (f g : A -> bool) l :
  (forall x, f x = true -> g x = true) ->
  filter f (filter g l) = filter f l.
Proof.
  intros H. induction l as [|x l IH]; simpl; [reflexivity|].
  destruct (g x) eqn:G; simpl.
  - now rewrite IH.
  - destruct (f x) eqn:F; [|exact IH]. apply H in F. congruence.
Qed.

(** X20.  The salary history of an employee holds the employee's stored
    structures, each once per stored row.  When each of them has a valid
    [effectiveFrom], the history runs from the latest [effectiveFrom] to
    the earliest, and the current structure as of any time is the first
    entry of the history that is active and in force at that time.  The
    route hands the history of a stored employee to a user with HR
    access; it refuses a user of role [employee], also for the employee's
    own history. *)
Theorem salary_history_and_current st e :
  let mine :=
    filter (fun s => SalaryStructure.employeeId s =? e)
      (JsMap.values (MemStorage.salaryStructures st)) in
  let history := Listing.getSalaryHistoryForEmployee st e in
  (forall s, In s mine -> SalaryStructure.effectiveFrom s <> None) ->
  Permutation history mine
  /\ descending fromTime history
  /\ (forall asOf,
        MemStorage.getCurrentSalaryStructure st e asOf
        = find (MemStorage.isCurrent e asOf) history)
  /\ forall user console,
       getSalaryHistoryRoute user e (mkServer st console)
       = (mkServer st console,
          match user with
          | None => inl (Resp 401 (JMessage "Unauthorized"))
          | Some u =>
              if hasAccess (User.role u) hr_staff
              then match MemStorage.getEmployee st e with
                   | None => inl (Resp 404 (JMessage "Employee not found"))
                   | Some _ => inr history
                   end
              else inl (Resp 403 (JMessage "Forbidden: Requires HR access"))
          end).
Proof.
  cbn zeta. intros Hvalid. apply Forall_forall in Hvalid.
  unfold Listing.getSalaryHistoryForEmployee.
  split; [apply js_sort_perm|].
  split; [now apply (js_sort_desc _ _ _ byEffectiveFromDesc_key)|].
  split.
  - intros asOf. unfold MemStorage.getCurrentSalaryStructure.
    rewrite <- hd_error_filter.
    rewrite (js_sort_filter _ _ _ byEffectiveFromDesc_key) by assumption.
    rewrite filter_filter_implied; [reflexivity|].
    intros s. unfold MemStorage.isCurrent. rewrite !andb_true_iff. tauto.
  - intros user console. unfold getSalaryHistoryRoute, bind.
    rewrite checkHRAccess_run. destruct user as [u|]; [|reflexivity].
    destruct (hasAccess (User.role u) hr_staff); [|reflexivity].
    unfold reads. cbn [storage].
    now destruct (MemStorage.getEmployee st e).
Qed.

Lemma salary_history_and_current_witness :
  MemStorage.getCurrentSalaryStructure sample_storage_with_salary 1 5
  = find (MemStorage.isCurrent 1 5)
      (Listing.getSalaryHistoryForEmployee sample_storage_with_salary 1).
Proof.
  refine (proj1 (proj2 (proj2 (salary_history_and_current sample_storage_with_salary 1 _))) 5).
  intros s [<-|[]]. discriminate.
Defined.

End SalaryHistory.

Section AuditAppend.

Lemma afterAudit_shape env i st1 c st :
  audit_of st1 = audit_of st ->
  audit_of (storage (afterAudit env i (mkServer st1 c))) = audit_of st
  \/ audit_of (storage (afterAudit env i (mkServer st1 c)))
     = audit_of (fst (MemStorage.createAuditLog st i (now env))).
Proof.
  intros E. unfold afterAudit. destruct (auditAvailable env); [right | now left].
  unfold audit_of in *. cbn [storage MemStorage.createAuditLog fst
    MemStorage.auditLogs MemStorage.auditLogCurrentId].
  now injection E as -> ->.
Qed.

(** One request leaves the audit log as it is or records one entry. *)
Lemma handle_audit_shape r sv :
  audit_of (storage (fst (handle r sv))) = audit_of (storage sv)
  \/ exists i,
       audit_of (storage (fst (handle r sv)))
       = audit_of (fst (MemStorage.createAuditLog (storage sv) i (now (req_env r)))).
Proof.
  assert (Hshape : forall i st1 c,
             audit_of st1 = audit_of (storage sv) ->
             audit_of (storage (afterAudit (req_env r) i (mkServer st1 c)))
             = audit_of (storage sv)
             \/ exists i0,
                  audit_of (storage (afterAudit (req_env r) i (mkServer st1 c)))
                  = audit_of (fst (MemStorage.createAuditLog (storage sv) i0
                                     (now (req_env r))))).
  { intros i st1 c E.
    destruct (afterAudit_shape (req_env r) i st1 c (storage sv) E) as [H|H];
      [now left | right; now exists i]. }
  unfold handle. destruct (req_route r); cbn [fst].
  - now left.
  - rewrite getCurrentSalaryRoute_state. now left.
  - rewrite postSalaryStructure_run.
    destruct (roleCheck _); [now left|].
    destruct (insertSalaryStructureSchema_parse body) as [d|]; [|now left].
    destruct (MemStorage.getEmployee _ _); [|now left].
    cbn [MemStorage.createSalaryStructure fst]. apply Hshape.
    rewrite <- (afterRetire_audit (req_env r) d (storage sv)). reflexivity.
  - rewrite putSalaryStructure_run.
    destruct (roleCheck _); [now left|].
    destruct body as [d|]; [|now left].
    destruct (MemStorage.getSalaryStructure _ _) as [s|] eqn:Gs; [|now left].
    pose proof (updateSalaryStructure_audit (storage sv) id d) as E.
    destruct (MemStorage.updateSalaryStructure (storage sv) id d) as [st1 upd].
    cbn [fst] in *. now apply Hshape.
  - rewrite getPayrollRoute_state. now left.
  - rewrite postPayroll_run.
    destruct (roleCheck _); [now left|].
    destruct (insertPayrollSchema_parse body) as [d|]; [|now left].
    destruct (MemStorage.getEmployee _ _); [|now left].
    cbn [MemStorage.createPayroll fst]. now apply Hshape.
  - rewrite approve_run.
    destruct (roleCheck _) as [|u]; [now left|].
    destruct (MemStorage.getPayroll _ id) as [q|]; [|now left].
    destruct (status_is _ _); [|now left].
    pose proof (updatePayroll_audit (storage sv) id (approveData (req_env r) u)) as E.
    destruct (MemStorage.updatePayroll _ id _) as [st1 upd].
    cbn [fst] in *. now apply Hshape.
  - rewrite markPaid_run.
    destruct (roleCheck _) as [|u]; [now left|].
    destruct (MemStorage.getPayroll _ id) as [q|]; [|now left].
    destruct (status_is _ _); [|now left].
    pose proof (updatePayroll_audit (storage sv) id paidData) as E.
    destruct (MemStorage.updatePayroll _ id _) as [st1 upd].
    cbn [fst] in *. now apply Hshape.
  - rewrite addItem_run_after.
    destruct (roleCheck _) as [|u]; [now left|].
    destruct (insertPayrollItemSchema_parse body) as [d|]; [|now left].
    destruct (MemStorage.getPayroll _ _) as [q|]; [|now left].
    destruct (status_is _ _); [|now left].
    cbn [fst storage]. left. unfold afterAddItem.
    now rewrite updatePayroll_audit.
Qed.

(** What [createAuditLog] does to a well-formed audit log. *)
Lemma createAuditLog_appends st i t :
  auditWf st = true ->
  let st' := fst (MemStorage.createAuditLog st i t) in
  let a := snd (MemStorage.createAuditLog st i t) in
  MemStorage.auditLogs st'
  = (MemStorage.auditLogs st ++ [(MemStorage.auditLogCurrentId st, a)])%list
  /\ MemStorage.auditLogCurrentId st' = MemStorage.auditLogCurrentId st + 1
  /\ AuditLog.id a = MemStorage.auditLogCurrentId st
  /\ AuditLog.timestamp a = t
  /\ auditWf st' = true.
Proof.
  intros Hwf. cbn zeta. unfold auditWf in *.
  cbn [MemStorage.createAuditLog fst snd MemStorage.auditLogs
         MemStorage.auditLogCurrentId AuditLog.id AuditLog.timestamp].
  rewrite (set_absent _ _ _ (ascending_below_fresh _ _ Hwf)).
  repeat split. unfold JsMap.keys. rewrite map_app. cbn [map fst].
  now apply ascending_below_snoc.
Qed.

Lemma handle_audit_appends r sv :
  auditWf (storage sv) = true ->
  exists added,
    MemStorage.auditLogs (storage (fst (handle r sv)))
    = (MemStorage.auditLogs (storage sv) ++ added)%list
    /\ MemStorage.auditLogCurrentId (storage (fst (handle r sv)))
       = MemStorage.auditLogCurrentId (storage sv) + Z.of_nat (List.length added)
    /\ (List.length added <= 1)%nat
    /\ auditWf (storage (fst (handle r sv))) = true
    /\ Forall (fun e => MemStorage.auditLogCurrentId (storage sv) <= fst e
                        /\ AuditLog.id (snd e) = fst e) added.
Proof.
  intros Hwf. destruct (handle_audit_shape r sv) as [E|[i E]].
  - exists []. unfold audit_of in E. injection E as E1 E2.
    rewrite E1, E2, app_nil_r, Z.add_0_r. unfold auditWf. rewrite E1, E2.
    repeat split; auto.
  - destruct (createAuditLog_appends (storage sv) i (now (req_env r)) Hwf)
      as (A1 & A2 & A3 & _ & A5).
    pose proof (f_equal fst E) as E1. pose proof (f_equal snd E) as E2.
    cbn [audit_of fst snd] in E1, E2.
    eexists [_]. rewrite E1, E2, A1, A2. split; [reflexivity|].
    split; [reflexivity|]. split; [auto|]. split.
    + unfold auditWf in *. now rewrite E1, E2.
    + constructor; [|constructor]. cbn [fst snd]. split; [lia | exact A3].
Qed.

(** X21.  The audit log is append-only: starting from a well-formed audit
    log, whatever the requests, the entries stored before stay as they
    are and where they are; the new entries follow them, at most one for
    each request, each stored under its own id, and the ids go on from
    the counter. *)
Theorem audit_log_is_append_only rs sv :
  auditWf (storage sv) = true ->
  exists added,
    MemStorage.auditLogs (storage (serve rs sv))
    = (MemStorage.auditLogs (storage sv) ++ added)%list
    /\ MemStorage.auditLogCurrentId (storage (serve rs sv))
       = MemStorage.auditLogCurrentId (storage sv) + Z.of_nat (List.length added)
    /\ (List.length added <= List.length rs)%nat
    /\ auditWf (storage (serve rs sv)) = true
    /\ Forall (fun e => MemStorage.auditLogCurrentId (storage sv) <= fst e
                        /\ AuditLog.id (snd e) = fst e) added.
Proof.
  revert sv. induction rs as [|r rs IH]; intros sv Hwf.
  - exists []. rewrite app_nil_r, Z.add_0_r. repeat split; auto.
  - destruct (handle_audit_appends r sv Hwf) as (l1 & A1 & A2 & A3 & A4 & A5).
    destruct (IH _ A4) as (l2 & B1 & B2 & B3 & B4 & B5).
    change (serve (r :: rs) sv) with (serve rs (fst (handle r sv))).
    exists (l1 ++ l2)%list. rewrite B1, A1, B2, A2, <- app_assoc, length_app.
    split; [reflexivity|]. split; [lia|]. split; [simpl; lia|].
    split; [exact B4|]. apply Forall_app. split; [exact A5|].
    eapply Forall_impl; [|exact B5]. cbn beta. intros e [H1 H2]. split; [lia|exact H2].
Qed.

Lemma audit_log_is_append_only_witness :
  exists added,
    MemStorage.auditLogs (storage (serve sample_walkthrough sample_server))
    = ([] ++ added)%list
    /\ (List.length added <= 7)%nat.
Proof.
  destruct (audit_log_is_append_only sample_walkthrough sample_server eq_refl)
    as (added & E & _ & L & _).
  exists added. split; [exact E | exact L].
Defined.

(** Sorting a list that ends with an entry no older than the others. *)
Lemma sort_insert_pass {A} (cmp : A -> A -> Z) x l1 l2 :
  Forall (fun y => 0 < cmp x y) l1 ->
  sort_insert cmp x (l1 ++ l2) = (l1 ++ sort_insert cmp x l2)%list.
Proof.
  induction 1 as [|y l1 Hy Hl IH]; [reflexivity|]. simpl.
  destruct (cmp x y <=? 0) eqn:E; [apply Z.leb_le in E; lia|]. now rewrite IH.
Qed.

Lemma js_sort_snoc_latest (l : list AuditLog.t) a :
  Forall (fun x => AuditLog.timestamp x <= AuditLog.timestamp a) l ->
  js_sort Listing.byTimestampDesc (l ++ [a])
  = (filter (fun x => AuditLog.timestamp x =? AuditLog.timestamp a)
       (js_sort Listing.byTimestampDesc l)
     ++ a :: filter (fun x => AuditLog.timestamp x <? AuditLog.timestamp a)
               (js_sort Listing.byTimestampDesc l))%list.
Proof.
  induction 1 as [|x l Hx Hl IH]; [reflexivity|].
  cbn [app js_sort fold_right].
  change (fold_right (sort_insert Listing.byTimestampDesc) [] (l ++ [a]))
    with (js_sort Listing.byTimestampDesc (l ++ [a])).
  change (fold_right (sort_insert Listing.byTimestampDesc) [] l)
    with (js_sort Listing.byTimestampDesc l).
  rewrite IH.
  rewrite !(sort_insert_filter _ _ _ byTimestampDesc_key);
    try exact I; try apply Forall_True;
    try (apply (js_sort_desc _ _ _ byTimestampDesc_key), Forall_True).
  set (S := js_sort Listing.byTimestampDesc l).
  destruct (AuditLog.timestamp x =? AuditLog.timestamp a) eqn:E.
  - apply Z.eqb_eq in E.
    assert ((AuditLog.timestamp x <? AuditLog.timestamp a) = false) as ->
      by (apply Z.ltb_ge; lia).
    destruct (filter (fun x0 => AuditLog.timestamp x0 =? AuditLog.timestamp a) S)
      as [|y T] eqn:ET.
    + cbn [app sort_insert]. unfold Listing.byTimestampDesc at 1.
      assert ((AuditLog.timestamp a - AuditLog.timestamp x <=? 0) = true) as ->
        by (apply Z.leb_le; lia).
      reflexivity.
    + assert (In y (filter (fun x0 => AuditLog.timestamp x0 =? AuditLog.timestamp a) S))
        as Hy by (rewrite ET; now left).
      apply filter_In in Hy. destruct Hy as [_ Hy]. apply Z.eqb_eq in Hy.
      cbn [app sort_insert]. unfold Listing.byTimestampDesc at 1 3.
      assert ((AuditLog.timestamp y - AuditLog.timestamp x <=? 0) = true) as ->
        by (apply Z.leb_le; lia).
      reflexivity.
  - apply Z.eqb_neq in E.
    assert ((AuditLog.timestamp x <? AuditLog.timestamp a) = true) as ->
      by (apply Z.ltb_lt; lia).
    rewrite sort_insert_pass.
    + cbn [sort_insert]. unfold Listing.byTimestampDesc at 1.
      assert ((AuditLog.timestamp a - AuditLog.timestamp x <=? 0) = false) as ->
        by (apply Z.leb_gt; lia).
      reflexivity.
    + apply Forall_forall. intros y Hy. apply filter_In in Hy.
      destruct Hy as [_ Hy]. apply Z.eqb_eq in Hy.
      unfold Listing.byTimestampDesc. lia.
Qed.

(** X22.  Recording an entry and listing the log: when no stored entry
    carries a later time than the new one, the full listing afterwards is
    the old listing with the new entry entered behind the entries of the
    same time and ahead of all earlier ones.  When every stored entry is
    strictly earlier, the new entry heads the listing, and a recent
    activity of one entry is the new entry. *)
Theorem recorded_entry_in_listing st i t :
  auditWf st = true ->
  (forall a, In a (JsMap.values (MemStorage.auditLogs st)) -> AuditLog.timestamp a <= t) ->
  let st' := fst (MemStorage.createAuditLog st i t) in
  let new := snd (MemStorage.createAuditLog st i t) in
  let old := Listing.getAuditLogs st PlusInfinity in
  Listing.getAuditLogs st' PlusInfinity
  = (filter (fun a => AuditLog.timestamp a =? t) old
     ++ new :: filter (fun a => AuditLog.timestamp a <? t) old)%list
  /\ ((forall a, In a (JsMap.values (MemStorage.auditLogs st)) ->
                 AuditLog.timestamp a < t) ->
      Listing.getAuditLogs st' PlusInfinity = new :: old
      /\ Listing.getRecentActivity st' (Integral 1) = [new]).
Proof.
  intros Hwf Hle. cbn zeta.
  destruct (createAuditLog_appends st i t Hwf) as (A1 & _ & _ & A4 & _).
  cbn zeta in A1, A4.
  set (new := snd (MemStorage.createAuditLog st i t)) in *.
  set (st' := fst (MemStorage.createAuditLog st i t)) in *.
  assert (Hall : forall s, Listing.getAuditLogs s PlusInfinity
                 = js_sort Listing.byTimestampDesc
                     (JsMap.values (MemStorage.auditLogs s))).
  { intros s. unfold Listing.getAuditLogs, slice0. rewrite Nat2Z.id. apply firstn_all. }
  assert (Hsorted : js_sort Listing.byTimestampDesc
                      (JsMap.values (MemStorage.auditLogs st'))
                    = (filter (fun a => AuditLog.timestamp a =? t)
                         (js_sort Listing.byTimestampDesc
                            (JsMap.values (MemStorage.auditLogs st)))
                       ++ new :: filter (fun a => AuditLog.timestamp a <? t)
                                   (js_sort Listing.byTimestampDesc
                                      (JsMap.values (MemStorage.auditLogs st))))%list).
  { rewrite A1. unfold JsMap.values. rewrite map_app. cbn [map snd].
    rewrite js_sort_snoc_latest; rewrite A4; [reflexivity|].
    apply Forall_forall. exact Hle. }
  rewrite !Hall. split; [exact Hsorted|].
  intros Hlt.
  assert (Hperm : forall a,
             In a (js_sort Listing.byTimestampDesc
                     (JsMap.values (MemStorage.auditLogs st))) ->
             AuditLog.timestamp a < t).
  { intros a Ha. apply Hlt. revert Ha. apply Permutation_in, js_sort_perm. }
  assert (Hhead : js_sort Listing.byTimestampDesc
                    (JsMap.values (MemStorage.auditLogs st'))
                  = new :: js_sort Listing.byTimestampDesc
                             (JsMap.values (MemStorage.auditLogs st))).
  { rewrite Hsorted. rewrite filter_none, filter_true; [reflexivity| |].
    - intros a Ha. apply Z.ltb_lt. now apply Hperm.
    - intros a Ha. apply Z.eqb_neq. specialize (Hperm a Ha). lia. }
  split; [exact Hhead|].
  unfold Listing.getRecentActivity, Listing.getAuditLogs, slice0. rewrite Hhead.
  cbn [List.length]. cbn [Z.ltb Z.compare].
  replace (Z.to_nat (Z.min 1 (Z.of_nat (S (List.length
             (js_sort Listing.byTimestampDesc
                (JsMap.values (MemStorage.auditLogs st)))))))) with 1%nat by lia.
  reflexivity.
Qed.

Lemma recorded_entry_in_listing_witness :
  Listing.getRecentActivity
    (fst (MemStorage.createAuditLog sample_storage_with_log
            (AuditLog.mkInsert 1 "approve" "payroll" 1 "") 101))
    (Integral 1)
  = [AuditLog.mk 2 1 "approve" "payroll" 1 "" 101].
Proof.
  refine (proj2 (proj2 (recorded_entry_in_listing sample_storage_with_log
            (AuditLog.mkInsert 1 "approve" "payroll" 1 "") 101 eq_refl _) _)).
  - simpl. intros a [<-|[]]. simpl. lia.
  - simpl. intros a [<-|[]]. simpl. lia.
Defined.

End AuditAppend.

(** ** Salary structures that are not active *)

Section Inactive.

(** X23.  A salary structure created with the active flag false, or with
    no flag at all, retires nothing and is never current: the route
    answers 201 and stores the structure after the stored ones, which
    stay as they are, and the current structure of every employee at
    every time is the one it was. *)
Theorem create_inactive_structure_changes_no_current env u body d emp sv :
  wf (storage sv) = true ->
  isAdminOrHRManager u ->
  insertSalaryStructureSchema_parse body = Some d ->
  SalaryStructure.i_status d <> Some true ->
  MemStorage.getEmployee (storage sv) (SalaryStructure.i_employeeId d) = Some emp ->
  let new :=
    SalaryStructure.of_insert d (MemStorage.salaryStructureCurrentId (storage sv)) in
  let st' := storage (fst (respond (postSalaryStructure env (Some u) body) sv)) in
  snd (respond (postSalaryStructure env (Some u) body) sv)
  = Resp 201 (JSalaryStructure (Some new))
  /\ MemStorage.salaryStructures st'
     = (MemStorage.salaryStructures (storage sv)
        ++ [(MemStorage.salaryStructureCurrentId (storage sv), new)])%list
  /\ forall e asOf,
       MemStorage.getCurrentSalaryStructure st' e asOf
       = MemStorage.getCurrentSalaryStructure (storage sv) e asOf.
Proof.
  intros Hwf Hu Hp Hst He. cbn zeta.
  rewrite postSalaryStructure_run, (roleCheck_authorized u Hu), Hp, He.
  assert (afterRetire env d (storage sv) = storage sv) as ->.
  { unfold afterRetire. destruct (SalaryStructure.i_status d) as [[|]|]; congruence. }
  cbn [MemStorage.createSalaryStructure fst snd].
  split; [reflexivity|].
  destruct (primary_fields _ _ (afterAudit_primary env
              (AuditLog.mkInsert (User.id u) "create" "salary"
                 (SalaryStructure.id
                    (SalaryStructure.of_insert d
                       (MemStorage.salaryStructureCurrentId (storage sv))))
                 ("Salary structure created for employee ID "
                  ++ Employee.employeeId emp))
              (mkServer
                 (MemStorage.mk (MemStorage.employees (storage sv))
                    (JsMap.set (MemStorage.salaryStructures (storage sv))
                       (MemStorage.salaryStructureCurrentId (storage sv))
                       (SalaryStructure.of_insert d
                          (MemStorage.salaryStructureCurrentId (storage sv))))
                    (MemStorage.payrolls (storage sv))
                    (MemStorage.payrollItems (storage sv))
                    (MemStorage.auditLogs (storage sv))
                    (MemStorage.salaryStructureCurrentId (storage sv) + 1)
                    (MemStorage.payrollCurrentId (storage sv))
                    (MemStorage.payrollItemCurrentId (storage sv))
                    (MemStorage.auditLogCurrentId (storage sv)))
                 (console sv)))) as (_ & P2 & _).
  cbn [storage MemStorage.salaryStructures] in P2.
  apply wf_spec in Hwf. destruct Hwf as (_ & _ & _ & _ & H5 & _).
  pose proof (set_absent (MemStorage.salaryStructures (storage sv)) _
                (SalaryStructure.of_insert d
                   (MemStorage.salaryStructureCurrentId (storage sv)))
                (ascending_below_fresh _ _ H5)) as Hset.
  split; [now rewrite P2|].
  intros e asOf. unfold MemStorage.getCurrentSalaryStructure. rewrite P2, Hset.
  unfold JsMap.values. rewrite map_app, filter_app. cbn [map snd filter].
  assert (MemStorage.isCurrent e asOf
            (SalaryStructure.of_insert d
               (MemStorage.salaryStructureCurrentId (storage sv))) = false) as ->.
  { unfold MemStorage.isCurrent. cbn [SalaryStructure.of_insert SalaryStructure.status].
    destruct (SalaryStructure.i_status d) as [[|]|]; [congruence| |];
      now rewrite andb_false_r. }
  now rewrite app_nil_r.
Qed.

Lemma create_inactive_structure_changes_no_current_witness :
  MemStorage.getCurrentSalaryStructure
    (storage (fst (respond (postSalaryStructure sample_env (Some sample_admin)
                              sample_inactive_body)
                     (mkServer sample_storage_with_salary []))))
    1 1706745600000
  = Some sample_salary.
Proof.
  apply (create_inactive_structure_changes_no_current sample_env sample_admin
           sample_inactive_body
           (SalaryStructure.mkInsert 1 9000%float None None None None (Some 50) None None)
           sample_employee (mkServer sample_storage_with_salary [])
           eq_refl (or_introl eq_refl) eq_refl).
  - discriminate.
  - reflexivity.
Defined.

End Inactive.

(** ** Departments *)

Section DepartmentFacts.

Variable departmentId : Employee.t -> option Z.

Lemma delete_split {V} (m : JsMap.t V) k v :
  JsMap.get m k = Some v ->
  exists m1 m2,
    m = (m1 ++ (k, v) :: m2)%list
    /\ ~ In k (JsMap.keys m1)
    /\ JsMap_delete m k = ((m1 ++ m2)%list, true).
Proof.
  induction m as [|[k0 v0] m IH]; simpl; [discriminate|].
  destruct (k0 =? k) eqn:E.
  - apply Z.eqb_eq in E. subst k0. intros [= ->]. exists [], m. auto.
  - intros G. destruct (IH G) as (m1 & m2 & -> & Hn & ->).
    exists ((k0, v0) :: m1), m2. split; [reflexivity|]. split; [|reflexivity].
    simpl. apply Z.eqb_neq in E. tauto.
Qed.

Lemma get_app_absent {V} (m1 m2 : JsMap.t V) k :
  ~ In k (JsMap.keys m1) -> JsMap.get (m1 ++ m2)%list k = JsMap.get m2 k.
Proof.
  induction m1 as [|[k0 v0] m1 IH]; simpl; [reflexivity|].
  intros Hn. destruct (k0 =? k) eqn:E.
  - apply Z.eqb_eq in E. tauto.
  - apply IH. tauto.
Qed.

Lemma get_app_other {V} (m1 m2 : JsMap.t V) k v k' :
  k <> k' ->
  JsMap.get (m1 ++ (k, v) :: m2)%list k' = JsMap.get (m1 ++ m2)%list k'.
Proof.
  intros Hne. induction m1 as [|[k0 v0] m1 IH]; simpl.
  - destruct (k =? k') eqn:E; [apply Z.eqb_eq in E; contradiction | reflexivity].
  - now rewrite IH.
Qed.

Lemma find_name_None l n :
  find (fun department => String.eqb (Department.name department) n) l = None
  <-> ~ In n (map Department.name l).
Proof.
  induction l as [|d l IH]; simpl; [tauto|].
  destruct (String.eqb (Department.name d) n) eqn:E.
  - apply String.eqb_eq in E. split; [discriminate | tauto].
  - apply String.eqb_neq in E. rewrite IH. tauto.
Qed.

(** The audit helper leaves the rest of the storage as it is. *)
Lemma createAuditLog_employees env userId action entityType entityId details sv :
  MemStorage.employees
    (storage (fst (createAuditLog env userId action entityType entityId details sv)))
  = MemStorage.employees (storage sv).
Proof.
  rewrite createAuditLog_run. cbn [fst].
  now destruct (primary_fields _ _ (afterAudit_primary env
                  (AuditLog.mkInsert userId action entityType entityId details) sv)).
Qed.

Lemma handleDept_employees r s :
  MemStorage.employees (storage (rest (fst (handleDept departmentId r s))))
  = MemStorage.employees (storage (rest s)).
Proof.
  unfold handleDept. destruct (dreq_route r) as [body|id body|id].
  - unfold postDepartment. rewrite checkAdminOrHRManager_run.
    destruct (roleCheck _); [reflexivity|].
    destruct (insertDepartmentSchema_parse body); [|reflexivity].
    destruct (Departments.getDepartmentByName _ _); [reflexivity|].
    cbn [Departments.createDepartment fst rest]. apply createAuditLog_employees.
  - unfold putDepartment. rewrite checkAdminOrHRManager_run.
    destruct (roleCheck _); [reflexivity|].
    destruct body as [p|]; [|reflexivity].
    destruct (Departments.getDepartment _ _) as [d|] eqn:G; [|reflexivity].
    match goal with |- context [if ?b then _ else _] => destruct b end; [reflexivity|].
    unfold Departments.updateDepartment. rewrite G.
    cbn [fst rest]. apply createAuditLog_employees.
  - unfold deleteDepartmentRoute. rewrite checkAdminOrHRManager_run.
    destruct (roleCheck _); [reflexivity|].
    destruct (Departments.getDepartment _ _) as [d|] eqn:G; [|reflexivity].
    destruct (getEmployeesByDepartment _ _ _); [|reflexivity].
    destruct (Departments.deleteDepartment _ _) as [st' [|]]; cbn [fst rest];
      [apply createAuditLog_employees | reflexivity].
Qed.

Lemma NoDup_insert {A} (a : A) l1 l2 :
  NoDup (l1 ++ l2) -> ~ In a (l1 ++ l2) -> NoDup (l1 ++ a :: l2).
Proof. intros H1 H2. apply (NoDup_Add (Add_app a l1 l2)). now split. Qed.

(** The names after a row is replaced. *)
Lemma names_after_set (m : JsMap.t Department.t) k d d' :
  JsMap.get m k = Some d ->
  exists N1 N2,
    map Department.name (JsMap.values m) = (N1 ++ Department.name d :: N2)%list
    /\ map Department.name (JsMap.values (JsMap.set m k d'))
       = (N1 ++ Department.name d' :: N2)%list.
Proof.
  intros G. destruct (set_split m k d d' G) as (m1 & m2 & -> & ->).
  exists (map Department.name (JsMap.values m1)),
         (map Department.name (JsMap.values m2)).
  unfold JsMap.values. now rewrite !map_app.
Qed.

Lemma handleDept_unique r s :
  NoDup (departmentNames (dept s)) ->
  namesEmpty (dreq_route r) = false ->
  NoDup (departmentNames (dept (fst (handleDept departmentId r s)))).
Proof.
  intros Hu Hne. unfold handleDept. destruct (dreq_route r) as [body|id body|id].
  - unfold postDepartment. rewrite checkAdminOrHRManager_run.
    destruct (roleCheck _); [assumption|].
    destruct (insertDepartmentSchema_parse body) as [i|]; [|assumption].
    destruct (Departments.getDepartmentByName _ _) eqn:F; [assumption|].
    apply find_name_None in F.
    cbn [Departments.createDepartment fst dept].
    unfold departmentNames, Departments.getAllDepartments in *.
    cbn [Departments.departments].
    destruct (JsMap.get (Departments.departments (dept s))
                (Departments.departmentCurrentId (dept s))) as [d|] eqn:G.
    + destruct (names_after_set _ _ d
                  (Department.of_insert i (Departments.departmentCurrentId (dept s))) G)
        as (N1 & N2 & E1 & E2).
      rewrite E2. rewrite E1 in Hu, F. cbn [Department.of_insert Department.name].
      apply NoDup_remove in Hu. destruct Hu as [Hu _].
      apply NoDup_insert; [exact Hu|]. intros Hin. apply F.
      apply in_app_or in Hin. apply in_or_app. simpl. tauto.
    + apply get_None_keys in G. rewrite (set_absent _ _ _ G).
      unfold JsMap.values. rewrite !map_app. cbn [map snd].
      apply NoDup_insert; rewrite app_nil_r; assumption.
  - unfold putDepartment. rewrite checkAdminOrHRManager_run.
    destruct (roleCheck _); [assumption|].
    destruct body as [p|]; [|assumption].
    destruct (Departments.getDepartment _ _) as [d|] eqn:G; [|assumption].
    cbn [namesEmpty] in Hne.
    unfold Departments.updateDepartment. rewrite G.
    unfold Departments.getDepartment in G.
    unfold departmentNames, Departments.getAllDepartments in *.
    destruct (names_after_set _ _ d (Department.merge d p) G) as (N1 & N2 & E1 & E2).
    destruct (Department.p_name p) as [n|] eqn:Pn.
    + rewrite Hne. cbn [negb andb].
      destruct (String.eqb n (Department.name d)) eqn:Esame; cbn [negb].
      * apply String.eqb_eq in Esame. cbn [fst dept Departments.departments].
        rewrite E2. unfold Department.merge. cbn [Department.name].
        rewrite Pn. cbn [Department.over]. rewrite Esame. now rewrite <- E1.
      * destruct (Departments.getDepartmentByName (dept s) n) eqn:F; [assumption|].
        apply find_name_None in F. unfold Departments.getAllDepartments in F.
        cbn [fst dept Departments.departments].
        rewrite E2. unfold Department.merge. cbn [Department.name].
        rewrite Pn. cbn [Department.over]. rewrite E1 in Hu, F.
        apply NoDup_remove in Hu. destruct Hu as [Hu _].
        apply NoDup_insert; [exact Hu|]. intros Hin. apply F.
        apply in_app_or in Hin. apply in_or_app. simpl. tauto.
    + cbn [fst dept Departments.departments].
      rewrite E2. unfold Department.merge. cbn [Department.name].
      rewrite Pn. cbn [Department.over]. now rewrite <- E1.
  - unfold deleteDepartmentRoute. rewrite checkAdminOrHRManager_run.
    destruct (roleCheck _); [assumption|].
    destruct (Departments.getDepartment _ _) as [d|] eqn:G; [|assumption].
    destruct (getEmployeesByDepartment _ _ _); [|assumption].
    unfold Departments.deleteDepartment. unfold Departments.getDepartment in G.
    destruct (delete_split _ _ _ G) as (m1 & m2 & E & _ & ->).
    cbn [fst dept]. unfold departmentNames, Departments.getAllDepartments in *.
    cbn [Departments.departments]. rewrite E in Hu.
    unfold JsMap.values in *. rewrite !map_app in *. cbn [map snd] in Hu.
    now apply NoDup_remove in Hu.
Qed.

(** X25.  Department names stay unique: when no two stored departments
    share a name, none do after any sequence of create, update and delete
    requests, provided no update names the empty string. *)
Theorem department_names_stay_unique rs s :
  NoDup (departmentNames (dept s)) ->
  Forall (fun r => namesEmpty (dreq_route r) = false) rs ->
  NoDup (departmentNames (dept (serveDept departmentId rs s))).
Proof.
  revert s. induction rs as [|r rs IH]; intros s Hu Hall; [assumption|].
  inversion Hall; subst.
  change (serveDept departmentId (r :: rs) s)
    with (serveDept departmentId rs (fst (handleDept departmentId r s))).
  apply IH; [|assumption]. now apply handleDept_unique.
Qed.

(** X26.  An update that names the empty string skips the uniqueness
    test: when a department without a name is stored, an update that
    takes the name from another department is answered 200 and leaves two
    departments with the same name. *)
Theorem empty_name_skips_uniqueness env u id d p s :
  isAdminOrHRManager u ->
  Departments.getDepartment (dept s) id = Some d ->
  Department.name d <> "" ->
  In "" (departmentNames (dept s)) ->
  Department.p_name p = Some "" ->
  let answer := putDepartment env (Some u) id (Some p) s in
  snd answer = inr (200, Some (Department.merge d p))
  /\ ~ NoDup (departmentNames (dept (fst answer))).
Proof.
  intros Hu G Hname Hin Pn. cbn zeta. unfold putDepartment.
  rewrite checkAdminOrHRManager_run, (roleCheck_authorized u Hu), G, Pn.
  cbn [String.eqb negb andb].
  unfold Departments.updateDepartment. rewrite G. cbn [fst snd dept].
  split; [reflexivity|].
  unfold departmentNames, Departments.getAllDepartments in *.
  cbn [Departments.departments].
  destruct (names_after_set _ _ d (Department.merge d p) G) as (N1 & N2 & E1 & E2).
  rewrite E2. rewrite E1 in Hin. unfold Department.merge. cbn [Department.name].
  rewrite Pn. cbn [Department.over].
  intros Hnd. apply NoDup_remove_2 in Hnd. apply Hnd.
  apply in_app_or in Hin. apply in_or_app.
  destruct Hin as [Hin|[Hin|Hin]]; [now left | contradiction | now right].
Qed.

(** X27.  A department that has an employee is never removed, whatever
    the requests: it stays stored under its id, and a request to delete
    it is answered 400 and changes nothing. *)
Theorem department_with_employees_stays rs s id d :
  Departments.getDepartment (dept s) id = Some d ->
  getEmployeesByDepartment departmentId (storage (rest s)) id <> [] ->
  (exists d', Departments.getDepartment (dept (serveDept departmentId rs s)) id = Some d')
  /\ forall env u,
       isAdminOrHRManager u ->
       deleteDepartmentRoute departmentId env (Some u) id (serveDept departmentId rs s)
       = (serveDept departmentId rs s,
          inl (Resp 400 (JMessage "Cannot delete department with employees"))).
Proof.
  revert s d. induction rs as [|r rs IH]; intros s d G He.
  - cbn [serveDept fold_left]. split; [now exists d|].
    intros env u Hu. unfold deleteDepartmentRoute.
    rewrite checkAdminOrHRManager_run, (roleCheck_authorized u Hu), G.
    destruct (getEmployeesByDepartment _ _ _); [contradiction | reflexivity].
  - change (serveDept departmentId (r :: rs) s)
      with (serveDept departmentId rs (fst (handleDept departmentId r s))).
    assert (He' : getEmployeesByDepartment departmentId
                    (storage (rest (fst (handleDept departmentId r s)))) id <> []).
    { unfold getEmployeesByDepartment in *. now rewrite handleDept_employees. }
    assert (G' : exists d', Departments.getDepartment
                              (dept (fst (handleDept departmentId r s))) id = Some d').
    { unfold handleDept. destruct (dreq_route r) as [body|id0 body|id0].
      - unfold postDepartment. rewrite checkAdminOrHRManager_run.
        destruct (roleCheck _); [now exists d|].
        destruct (insertDepartmentSchema_parse body) as [i|]; [|now exists d].
        destruct (Departments.getDepartmentByName _ _); [now exists d|].
        cbn [Departments.createDepartment fst dept].
        unfold Departments.getDepartment in *. cbn [Departments.departments].
        destruct (Z.eq_dec (Departments.departmentCurrentId (dept s)) id) as [<-|Hne].
        + rewrite get_set_same. eauto.
        + rewrite get_set_other by assumption. eauto.
      - unfold putDepartment. rewrite checkAdminOrHRManager_run.
        destruct (roleCheck _); [now exists d|].
        destruct body as [p|]; [|now exists d].
        destruct (Departments.getDepartment _ id0) as [d0|] eqn:G0; [|now exists d].
        match goal with |- context [if ?b then _ else _] => destruct b end;
          [now exists d|].
        unfold Departments.updateDepartment. rewrite G0. cbn [fst dept].
        unfold Departments.getDepartment in *. cbn [Departments.departments].
        destruct (Z.eq_dec id0 id) as [<-|Hne].
        + rewrite get_set_same. eauto.
        + rewrite get_set_other by assumption. eauto.
      - unfold deleteDepartmentRoute. rewrite checkAdminOrHRManager_run.
        destruct (roleCheck _); [now exists d|].
        destruct (Departments.getDepartment _ id0) as [d0|] eqn:G0; [|now exists d].
        destruct (getEmployeesByDepartment _ _ id0) as [|e l] eqn:E0; [|now exists d].
        assert (id0 <> id) as Hne by (intros ->; contradiction).
        unfold Departments.deleteDepartment. unfold Departments.getDepartment in *.
        destruct (delete_split _ _ _ G0) as (m1 & m2 & E & _ & ->).
        cbn [fst dept Departments.departments].
        rewrite <- (get_app_other m1 m2 id0 d0 id Hne), <- E. eauto. }
    destruct G' as (d' & G'). exact (IH _ d' G' He').
Qed.

(** X28.  Deleting a department, over a map with distinct keys: the
    route never answers 500; when it answers 204 the department had no
    employee, it is no longer stored, and every other department is
    stored as before; with any other answer the server is left as it
    is. *)
Theorem delete_department_removes_it env user id s :
  NoDup (JsMap.keys (Departments.departments (dept s))) ->
  let answer := deleteDepartmentRoute departmentId env user id s in
  dept_code (snd answer) <> 500
  /\ (dept_code (snd answer) = 204 ->
      getEmployeesByDepartment departmentId (storage (rest s)) id = []
      /\ Departments.getDepartment (dept (fst answer)) id = None
      /\ forall id', id' <> id ->
           Departments.getDepartment (dept (fst answer)) id'
           = Departments.getDepartment (dept s) id')
  /\ (dept_code (snd answer) <> 204 -> fst answer = s).
Proof.
  intros Hnd. cbn zeta. unfold deleteDepartmentRoute.
  rewrite checkAdminOrHRManager_run.
  destruct (roleCheck user) as [r|u] eqn:Hr.
  - cbn [fst snd dept_code]. pose proof (roleCheck_inl_code _ _ Hr) as Hc.
    apply Z.ltb_ge in Hc.
    assert (code r = 401 \/ code r = 403) as Hcode.
    { unfold roleCheck in Hr. destruct user as [u|]; [|injection Hr as <-; now left].
      destruct (User.role u); try discriminate Hr; injection Hr as <-; now right. }
    split; [lia|]. split; [lia | reflexivity].
  - destruct (Departments.getDepartment (dept s) id) as [d|] eqn:G.
    + destruct (getEmployeesByDepartment departmentId (storage (rest s)) id) eqn:E0.
      * unfold Departments.deleteDepartment. unfold Departments.getDepartment in *.
        destruct (delete_split _ _ _ G) as (m1 & m2 & E & Hn & ->).
        cbn [fst snd dept dept_code code Departments.departments].
        split; [lia|]. split; [|intros H; now contradiction H].
        intros _. split; [reflexivity|]. split.
        -- rewrite E in Hnd. unfold JsMap.keys in Hnd. rewrite map_app in Hnd.
           cbn [map fst] in Hnd. apply NoDup_remove_2 in Hnd.
           rewrite get_app_absent by assumption.
           apply get_None_keys. intros Hin. apply Hnd, in_or_app. now right.
        -- intros id' Hne. rewrite E. symmetry. apply get_app_other. congruence.
      * cbn [fst snd dept_code code]. split; [lia|]. split; [lia | reflexivity].
    + cbn [fst snd dept_code code]. split; [lia|]. split; [lia | reflexivity].
Qed.

End DepartmentFacts.

Lemma department_names_stay_unique_witness :
  NoDup (departmentNames
           (dept (serveDept (fun _ => None) [sample_nameless_post] initial_dept_server))).
Proof.
  apply (department_names_stay_unique (fun _ => None) [sample_nameless_post]
           initial_dept_server).
  - vm_compute. repeat constructor; simpl; intuition discriminate.
  - repeat constructor.
Defined.

Lemma empty_name_skips_uniqueness_witness :
  ~ NoDup (departmentNames
             (dept (serveDept (fun _ => None) [sample_nameless_post; sample_nameless_put]
                      initial_dept_server))).
Proof.
  apply (empty_name_skips_uniqueness sample_env sample_admin 1
           (Department.mk 1 "Engineering" (Some "Engineering department") None)
           (Department.mkPartial (Some "") None None)
           (serveDept (fun _ => None) [sample_nameless_post] initial_dept_server)
           (or_introl eq_refl) eq_refl).
  - discriminate.
  - vm_compute. tauto.
  - reflexivity.
Defined.

Lemma department_with_employees_stays_witness :
  exists d',
    Departments.getDepartment
      (dept (serveDept (fun _ => Some 1)
               [mkDeptRequest sample_env (Some sample_admin) (DeleteDepartment 1)]
               (mkDeptServer Departments.initial sample_server))) 1
    = Some d'.
Proof.
  apply (department_with_employees_stays (fun _ => Some 1)
           [mkDeptRequest sample_env (Some sample_admin) (DeleteDepartment 1)]
           (mkDeptServer Departments.initial sample_server) 1
           (Department.mk 1 "Engineering" (Some "Engineering department") None)
           eq_refl).
  discriminate.
Defined.

Lemma delete_department_removes_it_witness :
  Departments.getDepartment
    (dept (fst (deleteDepartmentRoute (fun _ => None) sample_env (Some sample_admin) 1
                  initial_dept_server))) 1
  = None.
Proof.
  apply (delete_department_removes_it (fun _ => None) sample_env (Some sample_admin) 1
           initial_dept_server).
  - vm_compute. repeat constructor; simpl; intuition discriminate.
  - reflexivity.
Defined.
